(** * generador_planillas: monthly attendance sheet generator

    A shallow embedding of [generar_planilla_word.py] and of the form of
    [gui_planilla.py], together with the parts of the Python runtime they
    call ([str.split], [str.strip], [str.isdigit], [int], [str], [repr],
    [datetime.date], [calendar.monthrange], [calendar.weekday]) and the
    python-docx objects they mutate (document body, tables, cells).

    Conventions of the model.
    - The runtime is CPython 3.11 with its default settings, on a platform
      whose C [int] has 32 bits and whose C [long] has 64; its character
      tables are those of Unicode 14.0.
    - Python [str] is modelled by [string], holding the UTF-8 bytes of the
      text (a lone surrogate is written like any other code point of its
      size).  The functions that look at characters ([str.strip],
      [str.isdigit], [int], [repr]) decode the bytes into code points and
      use the tables of whitespace, digits and printable characters of the
      runtime.  The non-ASCII literals of the source are written with their
      UTF-8 bytes.
    - Python [int] is modelled by [Z].  The limit on the number of digits
      that [int] reads and [str] writes (4300) is modelled in [PyStr.int]
      and [PyStr.format_int]; [PyStr.str] is [str] below that limit, which
      is where the day numbers are.
    - An exception is a value of [exn]; a computation that can raise returns
      an [outcome].  Code that mutates the document runs in the monad [M],
      whose state (the document body) survives an exception, as the Python
      object does.
    - Column widths (floating point centimetres, assigned under a blanket
      [try]/[except]) are layout only and are not modelled. *)

From Stdlib Require Import ZArith Lia Bool Ascii String List.
From stdpp Require Import base option list strings gmap.

Local Open Scope Z_scope.

(** ** Exceptions and outcomes *)

Inductive exn : Type :=
  | ValueError (msg : string)
  | IllegalMonthError (month : Z)   (* calendar.IllegalMonthError, a ValueError *)
  | OverflowError (msg : string)
  | IndexError (msg : string)
  | OSError (msg : string).

Inductive outcome (A : Type) : Type :=
  | Ret (a : A)
  | Raise (e : exn).
Arguments Ret {A} a.
Arguments Raise {A} e.

Definition obind {A B} (m : outcome A) (k : A -> outcome B) : outcome B :=
  match m with
  | Ret a => k a
  | Raise e => Raise e
  end.

(** [isinstance(e, ValueError)]. *)
Definition is_ValueError (e : exn) : bool :=
  match e with
  | ValueError _ | IllegalMonthError _ => true
  | _ => false
  end.


Definition is_Ret {A} (o : outcome A) : bool :=
  match o with Ret _ => true | Raise _ => false end.

(** ** Python built-ins on text *)

Module PyStr.

Definition code (c : ascii) : N := N_of_ascii c.

Definition is_empty (s : string) : bool :=
  match s with EmptyString => true | String _ _ => false end.

(** *** Characters

    The bytes of a text are read as UTF-8.  [first_char] gives the code
    point of the first character and the bytes after it.  A byte that does
    not start a well-formed sequence is taken alone, as the code point
    U+DC00 + byte, which is how Python itself reads undecodable bytes of the
    command line. *)

Definition is_cont (c : ascii) : bool := ((128 <=? code c) && (code c <? 192))%N.

Definition cont (c : ascii) : N := (code c - 128)%N.

Definition first_char (s : string) : option (N * string) :=
  match s with
  | EmptyString => None
  | String c0 r0 =>
      let b := code c0 in
      let stray := Some (0xDC00 + b, r0)%N in
      if (b <? 128)%N then Some (b, r0)
      else if (b <? 192)%N then stray
      else
        match r0 with
        | String c1 r1 =>
            if negb (is_cont c1) then stray
            else if (b <? 224)%N then Some ((b - 192) * 64 + cont c1, r1)%N
            else
              match r1 with
              | String c2 r2 =>
                  if negb (is_cont c2) then stray
                  else if (b <? 240)%N
                  then Some (((b - 224) * 64 + cont c1) * 64 + cont c2, r2)%N
                  else
                    match r2 with
                    | String c3 r3 =>
                        if negb (is_cont c3) then stray
                        else Some ((((b - 240) * 64 + cont c1) * 64 + cont c2) * 64
                                   + cont c3, r3)%N
                    | EmptyString => stray
                    end
              | EmptyString => stray
              end
        | EmptyString => stray
        end
  end.

(** The characters of a text, each with its code point and its bytes; a
    character takes at least one byte, so the length is fuel enough. *)
Fixpoint chars_fuel (fuel : nat) (s : string) : list (N * string) :=
  match fuel with
  | O => []
  | S fuel' =>
      match first_char s with
      | None => []
      | Some (n, r) =>
          (n, substring 0 (String.length s - String.length r) s) :: chars_fuel fuel' r
      end
  end.

Definition chars (s : string) : list (N * string) := chars_fuel (String.length s) s.

Definition code_points (s : string) : list N := map fst (chars s).

Definition in_ranges (rs : list (N * N)) (n : N) : bool :=
  existsb (fun r => (fst r <=? n) && (n <=? snd r))%N rs.

(** The code points for which [str.isspace] is true. *)
Definition space_ranges : list (N * N) :=
  [(0x9, 0xD); (0x1C, 0x20); (0x85, 0x85); (0xA0, 0xA0); (0x1680, 0x1680);
   (0x2000, 0x200A); (0x2028, 0x2029); (0x202F, 0x202F); (0x205F, 0x205F);
   (0x3000, 0x3000)]%N.

(** The code points with a decimal value ([str.isdecimal]); each range
    holds whole runs of the ten digits, zero first. *)
Definition decimal_ranges : list (N * N) :=
  [(0x30, 0x39); (0x660, 0x669); (0x6F0, 0x6F9); (0x7C0, 0x7C9);
   (0x966, 0x96F); (0x9E6, 0x9EF); (0xA66, 0xA6F); (0xAE6, 0xAEF);
   (0xB66, 0xB6F); (0xBE6, 0xBEF); (0xC66, 0xC6F); (0xCE6, 0xCEF);
   (0xD66, 0xD6F); (0xDE6, 0xDEF); (0xE50, 0xE59); (0xED0, 0xED9);
   (0xF20, 0xF29); (0x1040, 0x1049); (0x1090, 0x1099); (0x17E0, 0x17E9);
   (0x1810, 0x1819); (0x1946, 0x194F); (0x19D0, 0x19D9); (0x1A80, 0x1A89);
   (0x1A90, 0x1A99); (0x1B50, 0x1B59); (0x1BB0, 0x1BB9); (0x1C40, 0x1C49);
   (0x1C50, 0x1C59); (0xA620, 0xA629); (0xA8D0, 0xA8D9); (0xA900, 0xA909);
   (0xA9D0, 0xA9D9); (0xA9F0, 0xA9F9); (0xAA50, 0xAA59); (0xABF0, 0xABF9);
   (0xFF10, 0xFF19); (0x104A0, 0x104A9); (0x10D30, 0x10D39);
   (0x11066, 0x1106F); (0x110F0, 0x110F9); (0x11136, 0x1113F);
   (0x111D0, 0x111D9); (0x112F0, 0x112F9); (0x11450, 0x11459);
   (0x114D0, 0x114D9); (0x11650, 0x11659); (0x116C0, 0x116C9);
   (0x11730, 0x11739); (0x118E0, 0x118E9); (0x11950, 0x11959);
   (0x11C50, 0x11C59); (0x11D50, 0x11D59); (0x11DA0, 0x11DA9);
   (0x16A60, 0x16A69); (0x16AC0, 0x16AC9); (0x16B50, 0x16B59);
   (0x1D7CE, 0x1D7FF); (0x1E140, 0x1E149); (0x1E2F0, 0x1E2F9);
   (0x1E950, 0x1E959); (0x1FBF0, 0x1FBF9)]%N.

(** The code points for which [str.isdigit] is true: the decimal digits and
    the other digit characters (superscripts, circled digits, ...). *)
Definition digit_ranges : list (N * N) :=
  [(0x30, 0x39); (0xB2, 0xB3); (0xB9, 0xB9); (0x660, 0x669); (0x6F0, 0x6F9);
   (0x7C0, 0x7C9); (0x966, 0x96F); (0x9E6, 0x9EF); (0xA66, 0xA6F);
   (0xAE6, 0xAEF); (0xB66, 0xB6F); (0xBE6, 0xBEF); (0xC66, 0xC6F);
   (0xCE6, 0xCEF); (0xD66, 0xD6F); (0xDE6, 0xDEF); (0xE50, 0xE59);
   (0xED0, 0xED9); (0xF20, 0xF29); (0x1040, 0x1049); (0x1090, 0x1099);
   (0x1369, 0x1371); (0x17E0, 0x17E9); (0x1810, 0x1819); (0x1946, 0x194F);
   (0x19D0, 0x19DA); (0x1A80, 0x1A89); (0x1A90, 0x1A99); (0x1B50, 0x1B59);
   (0x1BB0, 0x1BB9); (0x1C40, 0x1C49); (0x1C50, 0x1C59); (0x2070, 0x2070);
   (0x2074, 0x2079); (0x2080, 0x2089); (0x2460, 0x2468); (0x2474, 0x247C);
   (0x2488, 0x2490); (0x24EA, 0x24EA); (0x24F5, 0x24FD); (0x24FF, 0x24FF);
   (0x2776, 0x277E); (0x2780, 0x2788); (0x278A, 0x2792); (0xA620, 0xA629);
   (0xA8D0, 0xA8D9); (0xA900, 0xA909); (0xA9D0, 0xA9D9); (0xA9F0, 0xA9F9);
   (0xAA50, 0xAA59); (0xABF0, 0xABF9); (0xFF10, 0xFF19); (0x104A0, 0x104A9);
   (0x10A40, 0x10A43); (0x10D30, 0x10D39); (0x10E60, 0x10E68);
   (0x11052, 0x1105A); (0x11066, 0x1106F); (0x110F0, 0x110F9);
   (0x11136, 0x1113F); (0x111D0, 0x111D9); (0x112F0, 0x112F9);
   (0x11450, 0x11459); (0x114D0, 0x114D9); (0x11650, 0x11659);
   (0x116C0, 0x116C9); (0x11730, 0x11739); (0x118E0, 0x118E9);
   (0x11950, 0x11959); (0x11C50, 0x11C59); (0x11D50, 0x11D59);
   (0x11DA0, 0x11DA9); (0x16A60, 0x16A69); (0x16AC0, 0x16AC9);
   (0x16B50, 0x16B59); (0x1D7CE, 0x1D7FF); (0x1E140, 0x1E149);
   (0x1E2F0, 0x1E2F9); (0x1E950, 0x1E959); (0x1F100, 0x1F10A);
   (0x1FBF0, 0x1FBF9)]%N.

(** The code points for which [str.isprintable] is true; [repr] escapes the
    others. *)
Definition printable_ranges : list (N * N) :=
  [(0x20, 0x7E); (0xA1, 0xAC); (0xAE, 0x377); (0x37A, 0x37F); (0x384, 0x38A);
   (0x38C, 0x38C); (0x38E, 0x3A1); (0x3A3, 0x52F); (0x531, 0x556);
   (0x559, 0x58A); (0x58D, 0x58F); (0x591, 0x5C7); (0x5D0, 0x5EA);
   (0x5EF, 0x5F4); (0x606, 0x61B); (0x61D, 0x6DC); (0x6DE, 0x70D);
   (0x710, 0x74A); (0x74D, 0x7B1); (0x7C0, 0x7FA); (0x7FD, 0x82D);
   (0x830, 0x83E); (0x840, 0x85B); (0x85E, 0x85E); (0x860, 0x86A);
   (0x870, 0x88E); (0x898, 0x8E1); (0x8E3, 0x983); (0x985, 0x98C);
   (0x98F, 0x990); (0x993, 0x9A8); (0x9AA, 0x9B0); (0x9B2, 0x9B2);
   (0x9B6, 0x9B9); (0x9BC, 0x9C4); (0x9C7, 0x9C8); (0x9CB, 0x9CE);
   (0x9D7, 0x9D7); (0x9DC, 0x9DD); (0x9DF, 0x9E3); (0x9E6, 0x9FE);
   (0xA01, 0xA03); (0xA05, 0xA0A); (0xA0F, 0xA10); (0xA13, 0xA28);
   (0xA2A, 0xA30); (0xA32, 0xA33); (0xA35, 0xA36); (0xA38, 0xA39);
   (0xA3C, 0xA3C); (0xA3E, 0xA42); (0xA47, 0xA48); (0xA4B, 0xA4D);
   (0xA51, 0xA51); (0xA59, 0xA5C); (0xA5E, 0xA5E); (0xA66, 0xA76);
   (0xA81, 0xA83); (0xA85, 0xA8D); (0xA8F, 0xA91); (0xA93, 0xAA8);
   (0xAAA, 0xAB0); (0xAB2, 0xAB3); (0xAB5, 0xAB9); (0xABC, 0xAC5);
   (0xAC7, 0xAC9); (0xACB, 0xACD); (0xAD0, 0xAD0); (0xAE0, 0xAE3);
   (0xAE6, 0xAF1); (0xAF9, 0xAFF); (0xB01, 0xB03); (0xB05, 0xB0C);
   (0xB0F, 0xB10); (0xB13, 0xB28); (0xB2A, 0xB30); (0xB32, 0xB33);
   (0xB35, 0xB39); (0xB3C, 0xB44); (0xB47, 0xB48); (0xB4B, 0xB4D);
   (0xB55, 0xB57); (0xB5C, 0xB5D); (0xB5F, 0xB63); (0xB66, 0xB77);
   (0xB82, 0xB83); (0xB85, 0xB8A); (0xB8E, 0xB90); (0xB92, 0xB95);
   (0xB99, 0xB9A); (0xB9C, 0xB9C); (0xB9E, 0xB9F); (0xBA3, 0xBA4);
   (0xBA8, 0xBAA); (0xBAE, 0xBB9); (0xBBE, 0xBC2); (0xBC6, 0xBC8);
   (0xBCA, 0xBCD); (0xBD0, 0xBD0); (0xBD7, 0xBD7); (0xBE6, 0xBFA);
   (0xC00, 0xC0C); (0xC0E, 0xC10); (0xC12, 0xC28); (0xC2A, 0xC39);
   (0xC3C, 0xC44); (0xC46, 0xC48); (0xC4A, 0xC4D); (0xC55, 0xC56);
   (0xC58, 0xC5A); (0xC5D, 0xC5D); (0xC60, 0xC63); (0xC66, 0xC6F);
   (0xC77, 0xC8C); (0xC8E, 0xC90); (0xC92, 0xCA8); (0xCAA, 0xCB3);
   (0xCB5, 0xCB9); (0xCBC, 0xCC4); (0xCC6, 0xCC8); (0xCCA, 0xCCD);
   (0xCD5, 0xCD6); (0xCDD, 0xCDE); (0xCE0, 0xCE3); (0xCE6, 0xCEF);
   (0xCF1, 0xCF2); (0xD00, 0xD0C); (0xD0E, 0xD10); (0xD12, 0xD44);
   (0xD46, 0xD48); (0xD4A, 0xD4F); (0xD54, 0xD63); (0xD66, 0xD7F);
   (0xD81, 0xD83); (0xD85, 0xD96); (0xD9A, 0xDB1); (0xDB3, 0xDBB);
   (0xDBD, 0xDBD); (0xDC0, 0xDC6); (0xDCA, 0xDCA); (0xDCF, 0xDD4);
   (0xDD6, 0xDD6); (0xDD8, 0xDDF); (0xDE6, 0xDEF); (0xDF2, 0xDF4);
   (0xE01, 0xE3A); (0xE3F, 0xE5B); (0xE81, 0xE82); (0xE84, 0xE84);
   (0xE86, 0xE8A); (0xE8C, 0xEA3); (0xEA5, 0xEA5); (0xEA7, 0xEBD);
   (0xEC0, 0xEC4); (0xEC6, 0xEC6); (0xEC8, 0xECD); (0xED0, 0xED9);
   (0xEDC, 0xEDF); (0xF00, 0xF47); (0xF49, 0xF6C); (0xF71, 0xF97);
   (0xF99, 0xFBC); (0xFBE, 0xFCC); (0xFCE, 0xFDA); (0x1000, 0x10C5);
   (0x10C7, 0x10C7); (0x10CD, 0x10CD); (0x10D0, 0x1248); (0x124A, 0x124D);
   (0x1250, 0x1256); (0x1258, 0x1258); (0x125A, 0x125D); (0x1260, 0x1288);
   (0x128A, 0x128D); (0x1290, 0x12B0); (0x12B2, 0x12B5); (0x12B8, 0x12BE);
   (0x12C0, 0x12C0); (0x12C2, 0x12C5); (0x12C8, 0x12D6); (0x12D8, 0x1310);
   (0x1312, 0x1315); (0x1318, 0x135A); (0x135D, 0x137C); (0x1380, 0x1399);
   (0x13A0, 0x13F5); (0x13F8, 0x13FD); (0x1400, 0x167F); (0x1681, 0x169C);
   (0x16A0, 0x16F8); (0x1700, 0x1715); (0x171F, 0x1736); (0x1740, 0x1753);
   (0x1760, 0x176C); (0x176E, 0x1770); (0x1772, 0x1773); (0x1780, 0x17DD);
   (0x17E0, 0x17E9); (0x17F0, 0x17F9); (0x1800, 0x180D); (0x180F, 0x1819);
   (0x1820, 0x1878); (0x1880, 0x18AA); (0x18B0, 0x18F5); (0x1900, 0x191E);
   (0x1920, 0x192B); (0x1930, 0x193B); (0x1940, 0x1940); (0x1944, 0x196D);
   (0x1970, 0x1974); (0x1980, 0x19AB); (0x19B0, 0x19C9); (0x19D0, 0x19DA);
   (0x19DE, 0x1A1B); (0x1A1E, 0x1A5E); (0x1A60, 0x1A7C); (0x1A7F, 0x1A89);
   (0x1A90, 0x1A99); (0x1AA0, 0x1AAD); (0x1AB0, 0x1ACE); (0x1B00, 0x1B4C);
   (0x1B50, 0x1B7E); (0x1B80, 0x1BF3); (0x1BFC, 0x1C37); (0x1C3B, 0x1C49);
   (0x1C4D, 0x1C88); (0x1C90, 0x1CBA); (0x1CBD, 0x1CC7); (0x1CD0, 0x1CFA);
   (0x1D00, 0x1F15); (0x1F18, 0x1F1D); (0x1F20, 0x1F45); (0x1F48, 0x1F4D);
   (0x1F50, 0x1F57); (0x1F59, 0x1F59); (0x1F5B, 0x1F5B); (0x1F5D, 0x1F5D);
   (0x1F5F, 0x1F7D); (0x1F80, 0x1FB4); (0x1FB6, 0x1FC4); (0x1FC6, 0x1FD3);
   (0x1FD6, 0x1FDB); (0x1FDD, 0x1FEF); (0x1FF2, 0x1FF4); (0x1FF6, 0x1FFE);
   (0x2010, 0x2027); (0x2030, 0x205E); (0x2070, 0x2071); (0x2074, 0x208E);
   (0x2090, 0x209C); (0x20A0, 0x20C0); (0x20D0, 0x20F0); (0x2100, 0x218B);
   (0x2190, 0x2426); (0x2440, 0x244A); (0x2460, 0x2B73); (0x2B76, 0x2B95);
   (0x2B97, 0x2CF3); (0x2CF9, 0x2D25); (0x2D27, 0x2D27); (0x2D2D, 0x2D2D);
   (0x2D30, 0x2D67); (0x2D6F, 0x2D70); (0x2D7F, 0x2D96); (0x2DA0, 0x2DA6);
   (0x2DA8, 0x2DAE); (0x2DB0, 0x2DB6); (0x2DB8, 0x2DBE); (0x2DC0, 0x2DC6);
   (0x2DC8, 0x2DCE); (0x2DD0, 0x2DD6); (0x2DD8, 0x2DDE); (0x2DE0, 0x2E5D);
   (0x2E80, 0x2E99); (0x2E9B, 0x2EF3); (0x2F00, 0x2FD5); (0x2FF0, 0x2FFB);
   (0x3001, 0x303F); (0x3041, 0x3096); (0x3099, 0x30FF); (0x3105, 0x312F);
   (0x3131, 0x318E); (0x3190, 0x31E3); (0x31F0, 0x321E); (0x3220, 0xA48C);
   (0xA490, 0xA4C6); (0xA4D0, 0xA62B); (0xA640, 0xA6F7); (0xA700, 0xA7CA);
   (0xA7D0, 0xA7D1); (0xA7D3, 0xA7D3); (0xA7D5, 0xA7D9); (0xA7F2, 0xA82C);
   (0xA830, 0xA839); (0xA840, 0xA877); (0xA880, 0xA8C5); (0xA8CE, 0xA8D9);
   (0xA8E0, 0xA953); (0xA95F, 0xA97C); (0xA980, 0xA9CD); (0xA9CF, 0xA9D9);
   (0xA9DE, 0xA9FE); (0xAA00, 0xAA36); (0xAA40, 0xAA4D); (0xAA50, 0xAA59);
   (0xAA5C, 0xAAC2); (0xAADB, 0xAAF6); (0xAB01, 0xAB06); (0xAB09, 0xAB0E);
   (0xAB11, 0xAB16); (0xAB20, 0xAB26); (0xAB28, 0xAB2E); (0xAB30, 0xAB6B);
   (0xAB70, 0xABED); (0xABF0, 0xABF9); (0xAC00, 0xD7A3); (0xD7B0, 0xD7C6);
   (0xD7CB, 0xD7FB); (0xF900, 0xFA6D); (0xFA70, 0xFAD9); (0xFB00, 0xFB06);
   (0xFB13, 0xFB17); (0xFB1D, 0xFB36); (0xFB38, 0xFB3C); (0xFB3E, 0xFB3E);
   (0xFB40, 0xFB41); (0xFB43, 0xFB44); (0xFB46, 0xFBC2); (0xFBD3, 0xFD8F);
   (0xFD92, 0xFDC7); (0xFDCF, 0xFDCF); (0xFDF0, 0xFE19); (0xFE20, 0xFE52);
   (0xFE54, 0xFE66); (0xFE68, 0xFE6B); (0xFE70, 0xFE74); (0xFE76, 0xFEFC);
   (0xFF01, 0xFFBE); (0xFFC2, 0xFFC7); (0xFFCA, 0xFFCF); (0xFFD2, 0xFFD7);
   (0xFFDA, 0xFFDC); (0xFFE0, 0xFFE6); (0xFFE8, 0xFFEE); (0xFFFC, 0xFFFD);
   (0x10000, 0x1000B); (0x1000D, 0x10026); (0x10028, 0x1003A);
   (0x1003C, 0x1003D); (0x1003F, 0x1004D); (0x10050, 0x1005D);
   (0x10080, 0x100FA); (0x10100, 0x10102); (0x10107, 0x10133);
   (0x10137, 0x1018E); (0x10190, 0x1019C); (0x101A0, 0x101A0);
   (0x101D0, 0x101FD); (0x10280, 0x1029C); (0x102A0, 0x102D0);
   (0x102E0, 0x102FB); (0x10300, 0x10323); (0x1032D, 0x1034A);
   (0x10350, 0x1037A); (0x10380, 0x1039D); (0x1039F, 0x103C3);
   (0x103C8, 0x103D5); (0x10400, 0x1049D); (0x104A0, 0x104A9);
   (0x104B0, 0x104D3); (0x104D8, 0x104FB); (0x10500, 0x10527);
   (0x10530, 0x10563); (0x1056F, 0x1057A); (0x1057C, 0x1058A);
   (0x1058C, 0x10592); (0x10594, 0x10595); (0x10597, 0x105A1);
   (0x105A3, 0x105B1); (0x105B3, 0x105B9); (0x105BB, 0x105BC);
   (0x10600, 0x10736); (0x10740, 0x10755); (0x10760, 0x10767);
   (0x10780, 0x10785); (0x10787, 0x107B0); (0x107B2, 0x107BA);
   (0x10800, 0x10805); (0x10808, 0x10808); (0x1080A, 0x10835);
   (0x10837, 0x10838); (0x1083C, 0x1083C); (0x1083F, 0x10855);
   (0x10857, 0x1089E); (0x108A7, 0x108AF); (0x108E0, 0x108F2);
   (0x108F4, 0x108F5); (0x108FB, 0x1091B); (0x1091F, 0x10939);
   (0x1093F, 0x1093F); (0x10980, 0x109B7); (0x109BC, 0x109CF);
   (0x109D2, 0x10A03); (0x10A05, 0x10A06); (0x10A0C, 0x10A13);
   (0x10A15, 0x10A17); (0x10A19, 0x10A35); (0x10A38, 0x10A3A);
   (0x10A3F, 0x10A48); (0x10A50, 0x10A58); (0x10A60, 0x10A9F);
   (0x10AC0, 0x10AE6); (0x10AEB, 0x10AF6); (0x10B00, 0x10B35);
   (0x10B39, 0x10B55); (0x10B58, 0x10B72); (0x10B78, 0x10B91);
   (0x10B99, 0x10B9C); (0x10BA9, 0x10BAF); (0x10C00, 0x10C48);
   (0x10C80, 0x10CB2); (0x10CC0, 0x10CF2); (0x10CFA, 0x10D27);
   (0x10D30, 0x10D39); (0x10E60, 0x10E7E); (0x10E80, 0x10EA9);
   (0x10EAB, 0x10EAD); (0x10EB0, 0x10EB1); (0x10F00, 0x10F27);
   (0x10F30, 0x10F59); (0x10F70, 0x10F89); (0x10FB0, 0x10FCB);
   (0x10FE0, 0x10FF6); (0x11000, 0x1104D); (0x11052, 0x11075);
   (0x1107F, 0x110BC); (0x110BE, 0x110C2); (0x110D0, 0x110E8);
   (0x110F0, 0x110F9); (0x11100, 0x11134); (0x11136, 0x11147);
   (0x11150, 0x11176); (0x11180, 0x111DF); (0x111E1, 0x111F4);
   (0x11200, 0x11211); (0x11213, 0x1123E); (0x11280, 0x11286);
   (0x11288, 0x11288); (0x1128A, 0x1128D); (0x1128F, 0x1129D);
   (0x1129F, 0x112A9); (0x112B0, 0x112EA); (0x112F0, 0x112F9);
   (0x11300, 0x11303); (0x11305, 0x1130C); (0x1130F, 0x11310);
   (0x11313, 0x11328); (0x1132A, 0x11330); (0x11332, 0x11333);
   (0x11335, 0x11339); (0x1133B, 0x11344); (0x11347, 0x11348);
   (0x1134B, 0x1134D); (0x11350, 0x11350); (0x11357, 0x11357);
   (0x1135D, 0x11363); (0x11366, 0x1136C); (0x11370, 0x11374);
   (0x11400, 0x1145B); (0x1145D, 0x11461); (0x11480, 0x114C7);
   (0x114D0, 0x114D9); (0x11580, 0x115B5); (0x115B8, 0x115DD);
   (0x11600, 0x11644); (0x11650, 0x11659); (0x11660, 0x1166C);
   (0x11680, 0x116B9); (0x116C0, 0x116C9); (0x11700, 0x1171A);
   (0x1171D, 0x1172B); (0x11730, 0x11746); (0x11800, 0x1183B);
   (0x118A0, 0x118F2); (0x118FF, 0x11906); (0x11909, 0x11909);
   (0x1190C, 0x11913); (0x11915, 0x11916); (0x11918, 0x11935);
   (0x11937, 0x11938); (0x1193B, 0x11946); (0x11950, 0x11959);
   (0x119A0, 0x119A7); (0x119AA, 0x119D7); (0x119DA, 0x119E4);
   (0x11A00, 0x11A47); (0x11A50, 0x11AA2); (0x11AB0, 0x11AF8);
   (0x11C00, 0x11C08); (0x11C0A, 0x11C36); (0x11C38, 0x11C45);
   (0x11C50, 0x11C6C); (0x11C70, 0x11C8F); (0x11C92, 0x11CA7);
   (0x11CA9, 0x11CB6); (0x11D00, 0x11D06); (0x11D08, 0x11D09);
   (0x11D0B, 0x11D36); (0x11D3A, 0x11D3A); (0x11D3C, 0x11D3D);
   (0x11D3F, 0x11D47); (0x11D50, 0x11D59); (0x11D60, 0x11D65);
   (0x11D67, 0x11D68); (0x11D6A, 0x11D8E); (0x11D90, 0x11D91);
   (0x11D93, 0x11D98); (0x11DA0, 0x11DA9); (0x11EE0, 0x11EF8);
   (0x11FB0, 0x11FB0); (0x11FC0, 0x11FF1); (0x11FFF, 0x12399);
   (0x12400, 0x1246E); (0x12470, 0x12474); (0x12480, 0x12543);
   (0x12F90, 0x12FF2); (0x13000, 0x1342E); (0x14400, 0x14646);
   (0x16800, 0x16A38); (0x16A40, 0x16A5E); (0x16A60, 0x16A69);
   (0x16A6E, 0x16ABE); (0x16AC0, 0x16AC9); (0x16AD0, 0x16AED);
   (0x16AF0, 0x16AF5); (0x16B00, 0x16B45); (0x16B50, 0x16B59);
   (0x16B5B, 0x16B61); (0x16B63, 0x16B77); (0x16B7D, 0x16B8F);
   (0x16E40, 0x16E9A); (0x16F00, 0x16F4A); (0x16F4F, 0x16F87);
   (0x16F8F, 0x16F9F); (0x16FE0, 0x16FE4); (0x16FF0, 0x16FF1);
   (0x17000, 0x187F7); (0x18800, 0x18CD5); (0x18D00, 0x18D08);
   (0x1AFF0, 0x1AFF3); (0x1AFF5, 0x1AFFB); (0x1AFFD, 0x1AFFE);
   (0x1B000, 0x1B122); (0x1B150, 0x1B152); (0x1B164, 0x1B167);
   (0x1B170, 0x1B2FB); (0x1BC00, 0x1BC6A); (0x1BC70, 0x1BC7C);
   (0x1BC80, 0x1BC88); (0x1BC90, 0x1BC99); (0x1BC9C, 0x1BC9F);
   (0x1CF00, 0x1CF2D); (0x1CF30, 0x1CF46); (0x1CF50, 0x1CFC3);
   (0x1D000, 0x1D0F5); (0x1D100, 0x1D126); (0x1D129, 0x1D172);
   (0x1D17B, 0x1D1EA); (0x1D200, 0x1D245); (0x1D2E0, 0x1D2F3);
   (0x1D300, 0x1D356); (0x1D360, 0x1D378); (0x1D400, 0x1D454);
   (0x1D456, 0x1D49C); (0x1D49E, 0x1D49F); (0x1D4A2, 0x1D4A2);
   (0x1D4A5, 0x1D4A6); (0x1D4A9, 0x1D4AC); (0x1D4AE, 0x1D4B9);
   (0x1D4BB, 0x1D4BB); (0x1D4BD, 0x1D4C3); (0x1D4C5, 0x1D505);
   (0x1D507, 0x1D50A); (0x1D50D, 0x1D514); (0x1D516, 0x1D51C);
   (0x1D51E, 0x1D539); (0x1D53B, 0x1D53E); (0x1D540, 0x1D544);
   (0x1D546, 0x1D546); (0x1D54A, 0x1D550); (0x1D552, 0x1D6A5);
   (0x1D6A8, 0x1D7CB); (0x1D7CE, 0x1DA8B); (0x1DA9B, 0x1DA9F);
   (0x1DAA1, 0x1DAAF); (0x1DF00, 0x1DF1E); (0x1E000, 0x1E006);
   (0x1E008, 0x1E018); (0x1E01B, 0x1E021); (0x1E023, 0x1E024);
   (0x1E026, 0x1E02A); (0x1E100, 0x1E12C); (0x1E130, 0x1E13D);
   (0x1E140, 0x1E149); (0x1E14E, 0x1E14F); (0x1E290, 0x1E2AE);
   (0x1E2C0, 0x1E2F9); (0x1E2FF, 0x1E2FF); (0x1E7E0, 0x1E7E6);
   (0x1E7E8, 0x1E7EB); (0x1E7ED, 0x1E7EE); (0x1E7F0, 0x1E7FE);
   (0x1E800, 0x1E8C4); (0x1E8C7, 0x1E8D6); (0x1E900, 0x1E94B);
   (0x1E950, 0x1E959); (0x1E95E, 0x1E95F); (0x1EC71, 0x1ECB4);
   (0x1ED01, 0x1ED3D); (0x1EE00, 0x1EE03); (0x1EE05, 0x1EE1F);
   (0x1EE21, 0x1EE22); (0x1EE24, 0x1EE24); (0x1EE27, 0x1EE27);
   (0x1EE29, 0x1EE32); (0x1EE34, 0x1EE37); (0x1EE39, 0x1EE39);
   (0x1EE3B, 0x1EE3B); (0x1EE42, 0x1EE42); (0x1EE47, 0x1EE47);
   (0x1EE49, 0x1EE49); (0x1EE4B, 0x1EE4B); (0x1EE4D, 0x1EE4F);
   (0x1EE51, 0x1EE52); (0x1EE54, 0x1EE54); (0x1EE57, 0x1EE57);
   (0x1EE59, 0x1EE59); (0x1EE5B, 0x1EE5B); (0x1EE5D, 0x1EE5D);
   (0x1EE5F, 0x1EE5F); (0x1EE61, 0x1EE62); (0x1EE64, 0x1EE64);
   (0x1EE67, 0x1EE6A); (0x1EE6C, 0x1EE72); (0x1EE74, 0x1EE77);
   (0x1EE79, 0x1EE7C); (0x1EE7E, 0x1EE7E); (0x1EE80, 0x1EE89);
   (0x1EE8B, 0x1EE9B); (0x1EEA1, 0x1EEA3); (0x1EEA5, 0x1EEA9);
   (0x1EEAB, 0x1EEBB); (0x1EEF0, 0x1EEF1); (0x1F000, 0x1F02B);
   (0x1F030, 0x1F093); (0x1F0A0, 0x1F0AE); (0x1F0B1, 0x1F0BF);
   (0x1F0C1, 0x1F0CF); (0x1F0D1, 0x1F0F5); (0x1F100, 0x1F1AD);
   (0x1F1E6, 0x1F202); (0x1F210, 0x1F23B); (0x1F240, 0x1F248);
   (0x1F250, 0x1F251); (0x1F260, 0x1F265); (0x1F300, 0x1F6D7);
   (0x1F6DD, 0x1F6EC); (0x1F6F0, 0x1F6FC); (0x1F700, 0x1F773);
   (0x1F780, 0x1F7D8); (0x1F7E0, 0x1F7EB); (0x1F7F0, 0x1F7F0);
   (0x1F800, 0x1F80B); (0x1F810, 0x1F847); (0x1F850, 0x1F859);
   (0x1F860, 0x1F887); (0x1F890, 0x1F8AD); (0x1F8B0, 0x1F8B1);
   (0x1F900, 0x1FA53); (0x1FA60, 0x1FA6D); (0x1FA70, 0x1FA74);
   (0x1FA78, 0x1FA7C); (0x1FA80, 0x1FA86); (0x1FA90, 0x1FAAC);
   (0x1FAB0, 0x1FABA); (0x1FAC0, 0x1FAC5); (0x1FAD0, 0x1FAD9);
   (0x1FAE0, 0x1FAE7); (0x1FAF0, 0x1FAF6); (0x1FB00, 0x1FB92);
   (0x1FB94, 0x1FBCA); (0x1FBF0, 0x1FBF9); (0x20000, 0x2A6DF);
   (0x2A700, 0x2B738); (0x2B740, 0x2B81D); (0x2B820, 0x2CEA1);
   (0x2CEB0, 0x2EBE0); (0x2F800, 0x2FA1D); (0x30000, 0x3134A);
   (0xE0100, 0xE01EF)]%N.

Definition isspace_cp (n : N) : bool := in_ranges space_ranges n.

Definition isdigit_cp (n : N) : bool := in_ranges digit_ranges n.

Definition isprintable_cp (n : N) : bool := in_ranges printable_ranges n.

(** [unicodedata.decimal] of a code point, when it has one. *)
Definition decimal_cp (n : N) : option Z :=
  match List.find (fun r => (fst r <=? n) && (n <=? snd r))%N decimal_ranges with
  | Some (a, _) => Some (Z.of_N ((n - a) mod 10))
  | None => None
  end.

(** *** [str.strip], [str.split], [in] *)

Fixpoint lstrip_fuel (fuel : nat) (s : string) : string :=
  match fuel with
  | O => s
  | S fuel' =>
      match first_char s with
      | Some (n, r) => if isspace_cp n then lstrip_fuel fuel' r else s
      | None => s
      end
  end.

(** [s.lstrip()] *)
Definition lstrip (s : string) : string := lstrip_fuel (String.length s) s.

(** Every character of [s] is whitespace. *)
Definition all_space (s : string) : bool := forallb isspace_cp (code_points s).

(** [s.rstrip()]: what is left when the longest run of whitespace at the
    end is taken away. *)
Fixpoint rstrip (s : string) : string :=
  match s with
  | EmptyString => EmptyString
  | String c s' => if all_space s then EmptyString else String c (rstrip s')
  end.

(** [s.strip()] *)
Definition strip (s : string) : string := rstrip (lstrip s).

(** [s.split(sep)] for a one-character separator. *)
Fixpoint split (sep : ascii) (s : string) : list string :=
  match s with
  | EmptyString => [EmptyString]
  | String c s' =>
      if Ascii.eqb c sep then EmptyString :: split sep s'
      else match split sep s' with
           | [] => [String c EmptyString]
           | h :: t => String c h :: t
           end
  end.

(** [s.split(sep, 1)] for a one-character separator. *)
Fixpoint split1 (sep : ascii) (s : string) : list string :=
  match s with
  | EmptyString => [EmptyString]
  | String c s' =>
      if Ascii.eqb c sep then [EmptyString; s']
      else match split1 sep s' with
           | [] => [String c EmptyString]
           | h :: t => String c h :: t
           end
  end.

(** [sep in s] for a one-character [sep]. *)
Fixpoint contains (sep : ascii) (s : string) : bool :=
  match s with
  | EmptyString => false
  | String c s' => Ascii.eqb c sep || contains sep s'
  end.

Fixpoint all_chars (p : ascii -> bool) (s : string) : bool :=
  match s with
  | EmptyString => true
  | String c s' => p c && all_chars p s'
  end.

(** [s.isdigit()]: not empty, and every character is a digit. *)
Definition isdigit (s : string) : bool :=
  negb (is_empty s) && forallb isdigit_cp (code_points s).

(** *** [str(n)] and [repr(s)] *)

Definition digit_char (d : Z) : ascii := ascii_of_N (Z.to_N (48 + d)).

(** Decimal digits of a non-negative number, most significant first;
    [fuel] bounds the number of digits. *)
Fixpoint digits_of (fuel : nat) (n : Z) (acc : string) : string :=
  match fuel with
  | O => acc
  | S fuel' =>
      let acc' := String (digit_char (n mod 10)) acc in
      if n <? 10 then acc' else digits_of fuel' (n / 10) acc'
  end.

(** [sys.get_int_max_str_digits()], at its default. *)
Definition max_str_digits : Z := 4300.

(** [str(n)] for an integer [n] of at most [max_str_digits] digits. *)
Definition str (n : Z) : string :=
  if n <? 0 then String "-" (digits_of (S (Z.to_nat (Z.log2 (- n)))) (- n) EmptyString)
  else digits_of (S (Z.to_nat (Z.log2 n))) n EmptyString.

(** [str(n)] and [f"{n}"] for any integer [n]: a number of more than
    [max_str_digits] digits is refused. *)
Definition format_int (n : Z) : outcome string :=
  if 10 ^ max_str_digits <=? Z.abs n then
    Raise (ValueError ("Exceeds the limit (4300 digits) for integer string conversion; "
                       +:+ "use sys.set_int_max_str_digits() to increase the limit"))
  else Ret (str n).

Definition hex_char (d : N) : ascii :=
  ascii_of_N (if (d <? 10)%N then 48 + d else 87 + d)%N.

(** [n] in hexadecimal, on [width] digits. *)
Fixpoint hex (width : nat) (n : N) (acc : string) : string :=
  match width with
  | O => acc
  | S w => hex w (n / 16)%N (String (hex_char (n mod 16)%N) acc)
  end.

Definition backslash : ascii := "\".

Definition double_quote : ascii := "034".

(** What [repr] writes for one character inside the quotes [quote]. *)
Definition repr_char (quote : ascii) (ch : N * string) : string :=
  let '(n, bytes) := ch in
  if (n =? code quote)%N || (n =? code backslash)%N
  then String backslash (String (ascii_of_N n) EmptyString)
  else if (n =? 9)%N then String backslash "t"
  else if (n =? 10)%N then String backslash "n"
  else if (n =? 13)%N then String backslash "r"
  else if (n <? 32)%N || (n =? 127)%N then String backslash (String "x" (hex 2 n ""))
  else if (n <? 127)%N then bytes
  else if isprintable_cp n then bytes
  else if (n <? 0x100)%N then String backslash (String "x" (hex 2 n ""))
  else if (n <? 0x10000)%N then String backslash (String "u" (hex 4 n ""))
  else String backslash (String "U" (hex 8 n "")).

Definition concat_strings (l : list string) : string :=
  foldr String.append EmptyString l.

(** [repr(s)] for a string [s]. *)
Definition repr (s : string) : string :=
  let quote : ascii :=
    if contains "'" s && negb (contains double_quote s) then double_quote else "'"%char in
  String quote (concat_strings (map (repr_char quote) (chars s)))
  +:+ String quote EmptyString.

(** The first [k] characters of [s]. *)
Definition take_chars (k : nat) (s : string) : string :=
  concat_strings (map snd (take k (chars s))).

(** *** [int(s)] *)

(** C's [isspace], which is what [int] skips around the literal. *)
Definition c_isspace (c : ascii) : bool :=
  let n := code c in
  ((9 <=? n) && (n <=? 13) || (n =? 32))%N.

Definition isdigit_char (c : ascii) : bool :=
  let n := code c in ((48 <=? n) && (n <=? 57))%N.

Definition digit_value (c : ascii) : Z := Z.of_N (code c) - 48.

Fixpoint lstrip_by (p : ascii -> bool) (s : string) : string :=
  match s with
  | EmptyString => EmptyString
  | String c s' => if p c then lstrip_by p s' else s
  end.

Definition is_ascii (s : string) : bool := all_chars (fun c => (code c <? 128)%N) s.

(** The text [int] reads, character by character: whitespace outside ASCII
    becomes a space, a decimal digit of any script becomes the ASCII digit,
    and the text is cut with a question mark at the first other character
    outside ASCII. *)
Fixpoint to_ascii (cps : list N) : string :=
  match cps with
  | [] => EmptyString
  | n :: rest =>
      if (n <? 127)%N then String (ascii_of_N n) (to_ascii rest)
      else if isspace_cp n then String " " (to_ascii rest)
      else match decimal_cp n with
           | Some d => String (digit_char d) (to_ascii rest)
           | None => "?"
           end
  end.

Definition transform_decimal_and_space (s : string) : string :=
  if is_ascii s then s else to_ascii (code_points s).

Inductive prev_char := AtStart | AfterDigit | AfterUnderscore.

(** The run of digits and underscores at the head of [s]: the number read,
    how many digits it has, and what follows the run.  Two underscores in a
    row, or an underscore at the end of the run, are refused. *)
Fixpoint scan_digits (prev : prev_char) (acc : Z) (count : N) (s : string)
  : option (Z * N * string) :=
  let stop := match prev with
              | AfterUnderscore => None
              | _ => Some (acc, count, s)
              end in
  match s with
  | EmptyString => stop
  | String c s' =>
      if isdigit_char c
      then scan_digits AfterDigit (10 * acc + digit_value c) (count + 1)%N s'
      else if Ascii.eqb c "_" then
        match prev with
        | AfterUnderscore => None
        | _ => scan_digits AfterUnderscore acc count s'
        end
      else stop
  end.

Definition invalid_literal (s : string) : exn :=
  ValueError ("invalid literal for int() with base 10: " +:+ take_chars 200 (repr s)).

Definition exceeds_limit (count : N) : exn :=
  ValueError ("Exceeds the limit (4300 digits) for integer string conversion: value has "
              +:+ str (Z.of_N count)
              +:+ " digits; use sys.set_int_max_str_digits() to increase the limit").

(** [int(s)] for a string [s]: optional whitespace, an optional sign, digits
    with single underscores between them, optional whitespace.  The limit on
    the number of digits is checked as soon as the run of digits is read. *)
Definition int (s : string) : outcome Z :=
  let t := lstrip_by c_isspace (transform_decimal_and_space s) in
  let '(neg, t) :=
    match t with
    | String c r =>
        if Ascii.eqb c "-" then (true, r)
        else if Ascii.eqb c "+" then (false, r)
        else (false, t)
    | EmptyString => (false, t)
    end in
  if match t with String c _ => Ascii.eqb c "_" | EmptyString => false end
  then Raise (invalid_literal s)
  else
    match scan_digits AtStart 0 0 t with
    | None => Raise (invalid_literal s)
    | Some (n, count, rest) =>
        if (Z.to_N max_str_digits <? count)%N then Raise (exceeds_limit count)
        else if (count =? 0)%N then Raise (invalid_literal s)
        else if negb (is_empty (lstrip_by c_isspace rest)) then Raise (invalid_literal s)
        else Ret (if neg : bool then - n else n)
    end.

(** *** Letter case, for the ASCII month names *)

Definition upper_char (c : ascii) : ascii :=
  let n := code c in
  if ((97 <=? n) && (n <=? 122))%N then ascii_of_N (n - 32) else c.

Definition lower_char (c : ascii) : ascii :=
  let n := code c in
  if ((65 <=? n) && (n <=? 90))%N then ascii_of_N (n + 32) else c.

Fixpoint map_chars (f : ascii -> ascii) (s : string) : string :=
  match s with
  | EmptyString => EmptyString
  | String c s' => String (f c) (map_chars f s')
  end.

(** [s.capitalize()] *)
Definition capitalize (s : string) : string :=
  match s with
  | EmptyString => EmptyString
  | String c s' => String (upper_char c) (map_chars lower_char s')
  end.

(** [s.upper()] *)
Definition upper (s : string) : string := map_chars upper_char s.

(** [sep.join(parts)] for a one-character [sep]. *)
Fixpoint join (sep : ascii) (parts : list string) : string :=
  match parts with
  | [] => EmptyString
  | [p] => p
  | p :: rest => p +:+ String sep (join sep rest)
  end.

(** [needle in s] for strings: [needle] occurs in [s]. *)
Fixpoint is_prefix (p s : string) : bool :=
  match p, s with
  | EmptyString, _ => true
  | String a p', String b s' => Ascii.eqb a b && is_prefix p' s'
  | String _ _, EmptyString => false
  end.

Fixpoint occurs (needle s : string) : bool :=
  is_prefix needle s ||
  match s with
  | EmptyString => false
  | String _ s' => occurs needle s'
  end.

End PyStr.

(** ** [datetime.date] *)

Module Datetime.

Definition MINYEAR : Z := 1.
Definition MAXYEAR : Z := 9999.

Record date : Type := mkDate { year : Z; month : Z; day : Z }.

#[global] Instance date_eq_dec : EqDecision date.
Proof. solve_decision. Defined.

#[global] Instance date_countable : Countable date :=
  inj_countable' (fun d => (year d, month d, day d))
                 (fun t => mkDate t.1.1 t.1.2 t.2)
                 (fun d => match d with mkDate _ _ _ => eq_refl end).

Definition _is_leap (y : Z) : bool :=
  (y mod 4 =? 0) && (negb (y mod 100 =? 0) || (y mod 400 =? 0)).

Definition _DAYS_IN_MONTH : list Z :=
  [-1; 31; 28; 31; 30; 31; 30; 31; 31; 30; 31; 30; 31].

Definition _DAYS_BEFORE_MONTH : list Z :=
  [-1; 0; 31; 59; 90; 120; 151; 181; 212; 243; 273; 304; 334].

Definition _days_in_month (y m : Z) : Z :=
  if (m =? 2) && _is_leap y then 29
  else nth (Z.to_nat m) _DAYS_IN_MONTH 0.

Definition _days_before_year (year : Z) : Z :=
  let y := year - 1 in
  y * 365 + y / 4 - y / 100 + y / 400.

Definition _days_before_month (y m : Z) : Z :=
  nth (Z.to_nat m) _DAYS_BEFORE_MONTH 0
  + (if (2 <? m) && _is_leap y then 1 else 0).

Definition _ymd2ord (y m d : Z) : Z :=
  _days_before_year y + _days_before_month y m + d.

(** An argument converted to a C [int], as [date] does with each of its
    three arguments before it looks at their ranges. *)
Definition as_c_int (n : Z) : outcome Z :=
  if (n <? - 9223372036854775808) || (9223372036854775807 <? n) then
    Raise (OverflowError "Python int too large to convert to C long")
  else if n <? - 2147483648 then
    Raise (OverflowError "signed integer is less than minimum")
  else if 2147483647 <? n then
    Raise (OverflowError "signed integer is greater than maximum")
  else Ret n.

(** The constructor [date(y, m, d)]: the three conversions, then the range
    checks in order. *)
Definition new (y m d : Z) : outcome date :=
  obind (as_c_int y) (fun _ =>
  obind (as_c_int m) (fun _ =>
  obind (as_c_int d) (fun _ =>
  if negb ((MINYEAR <=? y) && (y <=? MAXYEAR)) then
    Raise (ValueError ("year " +:+ PyStr.str y +:+ " is out of range"))
  else if negb ((1 <=? m) && (m <=? 12)) then
    Raise (ValueError "month must be in 1..12")
  else if negb ((1 <=? d) && (d <=? _days_in_month y m)) then
    Raise (ValueError "day is out of range for month")
  else Ret (mkDate y m d)))).

Definition toordinal (dt : date) : Z := _ymd2ord (year dt) (month dt) (day dt).

(** [dt.weekday()]: Monday is 0, Sunday is 6. *)
Definition weekday (dt : date) : Z := (toordinal dt + 6) mod 7.

End Datetime.

(** ** [calendar] *)

Module Calendar.

Definition February : Z := 2.

Definition mdays : list Z := [0; 31; 28; 31; 30; 31; 30; 31; 31; 30; 31; 30; 31].

Definition isleap (y : Z) : bool :=
  (y mod 4 =? 0) && (negb (y mod 100 =? 0) || (y mod 400 =? 0)).

Definition weekday (y m d : Z) : outcome Z :=
  let y' :=
    if negb ((Datetime.MINYEAR <=? y) && (y <=? Datetime.MAXYEAR))
    then 2000 + y mod 400 else y in
  obind (Datetime.new y' m d) (fun dt => Ret (Datetime.weekday dt)).

Definition monthrange (y m : Z) : outcome (Z * Z) :=
  if negb ((1 <=? m) && (m <=? 12)) then Raise (IllegalMonthError m)
  else
    obind (weekday y m 1) (fun day1 =>
    let ndays := nth (Z.to_nat m) mdays 0
                 + (if (m =? February) && isleap y then 1 else 0) in
    Ret (day1, ndays)).

End Calendar.

(** ** python-docx: the document body and its tables *)

Module Docx.

(** [WD_ALIGN_PARAGRAPH]; the source only uses [CENTER]. *)
Inductive alignment : Type := CENTER.

Record Run : Type := mkRun {
  r_text : string;
  r_bold : bool;
  r_size : option Z            (* font size in points *)
}.

Record Paragraph : Type := mkParagraph {
  p_runs : list Run;
  p_alignment : option alignment
}.

(** A cell holds one paragraph throughout: the source only reaches it by
    [cell.text = ...] and [cell.paragraphs[0]].  [c_shd] collects the fills of
    the [w:shd] elements appended to the cell properties. *)
Record Cell : Type := mkCell {
  c_paragraph : Paragraph;
  c_shd : list string
}.

(** [t_merges] records the horizontal merges as (row, first column, last
    column); a grid position inside one denotes the merged cell, stored at the
    first column. *)
Record Table : Type := mkTable {
  t_style : option string;
  t_autofit : bool;
  t_rows : list (list Cell);
  t_merges : list (nat * nat * nat)
}.

Inductive Block : Type :=
  | BParagraph (p : Paragraph)
  | BTable (t : Table).

Abbreviation Document := (list Block).

(** Document-mutating code: the body is threaded through, and is kept when an
    exception is raised. *)
Definition M (A : Type) : Type := Document -> outcome A * Document.

#[global] Instance M_ret : MRet M := fun A a doc => (Ret a, doc).
#[global] Instance M_bind : MBind M := fun A B k m doc =>
  match m doc with
  | (Ret a, doc') => k a doc'
  | (Raise e, doc') => (Raise e, doc')
  end.

Definition raise {A} (e : exn) : M A := fun doc => (Raise e, doc).

(** Run a computation that does not touch the document. *)
Definition lift {A} (o : outcome A) : M A := fun doc => (o, doc).

(** [for x in xs: body(x)] *)
Fixpoint for_each {A} (xs : list A) (body : A -> M unit) : M unit :=
  match xs with
  | [] => mret tt
  | x :: xs' => body x ;; for_each xs' body
  end.

Definition text_run (s : string) : Run := mkRun s false None.

Definition blank_paragraph : Paragraph := mkParagraph [] None.
Definition blank_cell : Cell := mkCell blank_paragraph [].

Definition paragraph_text (p : Paragraph) : string :=
  foldr (fun r acc => r_text r +:+ acc) EmptyString (p_runs p).

(** [cell.text] (read) *)
Definition cell_text (c : Cell) : string := paragraph_text (c_paragraph c).

(** [doc.add_paragraph(text)]: a run is added only for a non-empty text.
    Returns the position of the new paragraph in the body. *)
Definition add_paragraph (text : string) : M nat := fun doc =>
  let p := mkParagraph (if PyStr.is_empty text then [] else [text_run text]) None in
  (Ret (length doc), doc ++ [BParagraph p]).

(** [doc.add_table(rows=rows, cols=cols)]; returns the position of the new
    table in the body, which stands for the table object. *)
Definition add_table (rows cols : Z) : M nat := fun doc =>
  let t := mkTable None true
             (replicate (Z.to_nat rows) (replicate (Z.to_nat cols) blank_cell)) [] in
  (Ret (length doc), doc ++ [BTable t]).

Definition index_error : exn := IndexError "list index out of range".

Definition with_paragraph (h : nat) (f : Paragraph -> outcome Paragraph) : M unit :=
  fun doc =>
    match doc !! h with
    | Some (BParagraph p) =>
        match f p with
        | Ret p' => (Ret tt, <[h := BParagraph p']> doc)
        | Raise e => (Raise e, doc)
        end
    | _ => (Raise index_error, doc)
    end.

Definition with_table (h : nat) (f : Table -> outcome Table) : M unit :=
  fun doc =>
    match doc !! h with
    | Some (BTable t) =>
        match f t with
        | Ret t' => (Ret tt, <[h := BTable t']> doc)
        | Raise e => (Raise e, doc)
        end
    | _ => (Raise index_error, doc)
    end.

Definition in_merge (r c : nat) (m : nat * nat * nat) : bool :=
  let '(mr, c1, c2) := m in
  (mr =? r)%nat && (c1 <=? c)%nat && (c <=? c2)%nat.

(** The column where the cell shown at grid position (r, c) is stored. *)
Definition resolve (merges : list (nat * nat * nat)) (r c : nat) : nat :=
  match List.find (in_merge r c) merges with
  | Some (_, c1, _) => c1
  | None => c
  end.

(** Apply [f] to [table.cell(r, c)] (also [table.rows[r].cells[c]]). *)
Definition table_cell (r c : nat) (f : Cell -> outcome Cell) (t : Table) : outcome Table :=
  let c' := resolve (t_merges t) r c in
  match t_rows t !! r with
  | Some row =>
      match row !! c' with
      | Some cell =>
          obind (f cell) (fun cell' =>
          Ret (mkTable (t_style t) (t_autofit t)
                       (<[r := <[c' := cell']> row]> (t_rows t)) (t_merges t)))
      | None => Raise index_error
      end
  | None => Raise index_error
  end.

(** [cell.text = s]: the content is replaced by one paragraph with one run;
    the cell properties (shading) stay. *)
Definition assign_text (s : string) (c : Cell) : outcome Cell :=
  Ret (mkCell (mkParagraph [text_run s] None) (c_shd c)).

(** [cell.paragraphs[0].alignment = a] *)
Definition assign_alignment (a : alignment) (c : Cell) : outcome Cell :=
  Ret (mkCell (mkParagraph (p_runs (c_paragraph c)) (Some a)) (c_shd c)).

(** [p.runs[0].bold = True], [p.runs[0].font.size = Pt(n)] *)
Definition paragraph_run0 (f : Run -> Run) (p : Paragraph) : outcome Paragraph :=
  match p_runs p with
  | r :: rs => Ret (mkParagraph (f r :: rs) (p_alignment p))
  | [] => Raise index_error
  end.

Definition cell_run0 (f : Run -> Run) (c : Cell) : outcome Cell :=
  obind (paragraph_run0 f (c_paragraph c)) (fun p => Ret (mkCell p (c_shd c))).

Definition make_bold (r : Run) : Run := mkRun (r_text r) true (r_size r).
Definition make_size (n : Z) (r : Run) : Run := mkRun (r_text r) (r_bold r) (Some n).

(** [run = cell.paragraphs[0].add_run(text)] followed by the assignments to
    that run's [bold] and [font.size]. *)
Definition append_run (r : Run) (c : Cell) : outcome Cell :=
  Ret (mkCell (mkParagraph (p_runs (c_paragraph c) ++ [r]) (p_alignment (c_paragraph c)))
              (c_shd c)).

(** [a.merge(b)] for two cells of row [r], at columns [c1] and [c2]; the
    merged cells are empty when the source merges them. *)
Definition merge (r c1 c2 : nat) (t : Table) : outcome Table :=
  match t_rows t !! r with
  | Some row =>
      if (c1 <? length row)%nat && (c2 <? length row)%nat then
        Ret (mkTable (t_style t) (t_autofit t) (t_rows t) (t_merges t ++ [(r, c1, c2)]))
      else Raise index_error
  | None => Raise index_error
  end.

Definition assign_style (s : string) (t : Table) : outcome Table :=
  Ret (mkTable (Some s) (t_autofit t) (t_rows t) (t_merges t)).

Definition assign_autofit (b : bool) (t : Table) : outcome Table :=
  Ret (mkTable (t_style t) b (t_rows t) (t_merges t)).

End Docx.

#[global] Instance outcome_ret : MRet outcome := fun A a => Ret a.
#[global] Instance outcome_bind : MBind outcome := fun A B k m => obind m k.

(** [t[i]] for a tuple [t] and a non-negative index [i]. *)
Definition tuple_index {A} (t : list A) (i : nat) : outcome A :=
  match t !! i with
  | Some x => Ret x
  | None => Raise (IndexError "tuple index out of range")
  end.

(** [str(e)] for an exception [e].  An [IllegalMonthError] prints its month,
    which [str] refuses to do for a number of more than 4300 digits. *)
Definition exn_str (e : exn) : outcome string :=
  match e with
  | ValueError msg | OverflowError msg | IndexError msg | OSError msg => Ret msg
  | IllegalMonthError m =>
      m_txt ← PyStr.format_int m;
      Ret ("bad month number " +:+ m_txt +:+ "; must be 1-12")
  end.

(** [tuple(int(x) for x in s.split(",") if x.strip() != "")]: blank items are
    passed over, the first item [int] rejects stops the conversion. *)
Definition extras_items (parts : list string) : outcome (list Z) :=
  foldr (fun x rest =>
           if PyStr.is_empty (PyStr.strip x) then rest
           else n ← PyStr.int x; ns ← rest; Ret (n :: ns))
        (Ret []) parts.

Definition parse_extras (s : string) : outcome (list Z) :=
  extras_items (PyStr.split "," s).

(** ** The file system seen by [doc.save] *)

Record FileSystem : Type := mkFS {
  fs_files : gmap string Docx.Document;
  fs_denied : gset string        (* paths that cannot be written *)
}.

(** [doc.save(path)] *)
Definition save (path : string) (doc : Docx.Document) (fs : FileSystem)
  : outcome unit * FileSystem :=
  if bool_decide (path ∈ fs_denied fs)
  then (Raise (OSError ("cannot write " +:+ path)), fs)
  else (Ret tt, mkFS (<[path := doc]> (fs_files fs)) (fs_denied fs)).

(** ** generar_planilla_word.py *)

Module Planilla.
Import Docx.
Export Datetime.

Definition month_name_es (m : Z) (upper : bool) : string :=
  let nombres : list (Z * string) :=
    [(1, "ENERO"); (2, "FEBRERO"); (3, "MARZO"); (4, "ABRIL");
     (5, "MAYO"); (6, "JUNIO"); (7, "JULIO"); (8, "AGOSTO");
     (9, "SEPTIEMBRE"); (10, "OCTUBRE"); (11, "NOVIEMBRE"); (12, "DICIEMBRE")] in
  let s := match List.find (fun kv => fst kv =? m) nombres with
           | Some (_, s) => s
           | None => ""
           end in
  if upper then s else PyStr.capitalize s.

Definition set_cell_shading (fill : string) (c : Cell) : outcome Cell :=
  Ret (mkCell (c_paragraph c) (c_shd c ++ [fill])).

(** [table.cell(r, c)] followed by one operation on that cell. *)
Definition cell (table r c : nat) (f : Cell -> outcome Cell) : M unit :=
  with_table table (table_cell r c f).

Definition add_header (nombre oficina empleado : string) (mes anio : Z) : M unit :=
  title ← add_paragraph "PLANILLAS PERSONAL DE HORARIOS";
  with_paragraph title (fun p => Ret (mkParagraph (p_runs p) (Some CENTER)));;
  with_paragraph title (paragraph_run0 make_bold);;
  with_paragraph title (paragraph_run0 (make_size 14));;
  tbl ← add_table 2 2;
  with_table tbl (assign_autofit false);;
  cell tbl 0 0 (append_run (mkRun "APELLIDO Y NOMBRE: " true (Some 11)));;
  cell tbl 0 0 (append_run (mkRun nombre false (Some 11)));;
  cell tbl 0 1 (append_run (mkRun "Oficina: " true (Some 11)));;
  cell tbl 0 1 (append_run (mkRun oficina false (Some 11)));;
  cell tbl 1 0 (append_run (mkRun "Mes: " true (Some 11)));;
  mes_anio ← lift (anio_txt ← PyStr.format_int anio;
                   Ret (month_name_es mes true +:+ " " +:+ anio_txt));
  cell tbl 1 0 (append_run (mkRun mes_anio false (Some 11)));;
  cell tbl 1 1 (append_run (mkRun "Empleado: " true (Some 11)));;
  cell tbl 1 1 (append_run (mkRun empleado false (Some 11)));;
  add_paragraph "";;
  mret tt.

Definition labels : list string :=
  ["DIAS"; "ENTRADA"; "FIRMA"; "SALIDA"; "FIRMA";
   "ENTRADA"; "FIRMA"; "SALIDA"; "FIRMA"].

(** [enumerate(xs)] *)
Definition enumerate {A} (xs : list A) : list (nat * A) := zip (seq 0 (length xs)) xs.

(** [c in (2, 4, 6, 8)] *)
Definition is_firma (c : nat) : bool := existsb (Nat.eqb c) [2; 4; 6; 8]%nat.

(** The closure [fill_dashes] of the day loop, over its [table] and [r]. *)
Definition fill_dashes (table r : nat) : M unit :=
  for_each (seq 1 8) (fun c =>
    (if is_firma c then cell table r c (assign_text "")
     else cell table r c (assign_text "---"));;
    cell table r c (assign_alignment CENTER)).

(** A note is used when [notas_por_dia.get(d)] is truthy. *)
Definition truthy (o : option string) : bool :=
  match o with
  | Some s => negb (PyStr.is_empty s)
  | None => false
  end.

(** The body of [for d in range(1, ndays + 1)]. *)
Definition day_body (table : nat) (mes anio : Z)
    (hora_maniana hora_tarde : list string) (extras_dow : list Z)
    (notas_por_dia : gmap Z string) (feriados : gset date) (d : Z) : M unit :=
  let r := Z.to_nat (1 + d) in
  dow ← lift (Calendar.weekday anio mes d);
  let is_weekend := 5 <=? dow in
  current_date ← lift (Datetime.new anio mes d);
  cell table r 0 (assign_text (PyStr.str d));;
  cell table r 0 (assign_alignment CENTER);;
  let special_note := notas_por_dia !! d in
  if is_weekend then
    let label := if dow =? 5 then "SÁBADO" else "DOMINGO" in
    cell table r 1 (assign_text label);;
    cell table r 1 (assign_alignment CENTER);;
    for_each (seq 2 7) (fun c =>
      (if is_firma c then cell table r c (assign_text "")
       else cell table r c (assign_text "---"));;
      cell table r c (assign_alignment CENTER));;
    for_each (seq 0 9) (fun c => cell table r c (set_cell_shading "F8F8F8"))
  else if bool_decide (current_date ∈ feriados) then
    cell table r 1 (assign_text "FERIADO");;
    cell table r 1 (assign_alignment CENTER);;
    fill_dashes table r;;
    for_each (seq 0 9) (fun c => cell table r c (set_cell_shading "FFF2CC"))
  else if truthy special_note then
    cell table r 1 (assign_text (default "" special_note));;
    cell table r 1 (assign_alignment CENTER);;
    fill_dashes table r
  else
    hm0 ← lift (tuple_index hora_maniana 0);
    cell table r 1 (assign_text hm0);;
    hm1 ← lift (tuple_index hora_maniana 1);
    cell table r 3 (assign_text hm1);;
    for_each [1; 3]%nat (fun c => cell table r c (assign_alignment CENTER));;
    for_each [2; 4; 6; 8]%nat (fun c => cell table r c (assign_text ""));;
    if existsb (Z.eqb dow) extras_dow then
      ht0 ← lift (tuple_index hora_tarde 0);
      cell table r 5 (assign_text ht0);;
      ht1 ← lift (tuple_index hora_tarde 1);
      cell table r 7 (assign_text ht1);;
      for_each [5; 7]%nat (fun c => cell table r c (assign_alignment CENTER))
    else
      cell table r 5 (assign_text "---");;
      cell table r 7 (assign_text "---");;
      for_each [5; 7]%nat (fun c => cell table r c (assign_alignment CENTER)).

Definition build_table (mes anio : Z)
    (hora_maniana hora_tarde : list string) (extras_dow : list Z)
    (notas_por_dia : option (gmap Z string))
    (feriados : option (gset date)) : M unit :=
  let notas_por_dia := default ∅ notas_por_dia in
  let feriados := default ∅ feriados in
  mr ← lift (Calendar.monthrange anio mes);
  let rows := 2 + mr.2 in
  let cols := 9 in
  table ← add_table rows cols;
  with_table table (assign_style "Table Grid");;
  cell table 0 0 (assign_text "");;
  with_table table (merge 0 1 4);;
  cell table 0 1 (assign_text "MAÑANA");;
  with_table table (merge 0 5 8);;
  cell table 0 5 (assign_text "TARDE");;
  for_each [1; 5]%nat (fun j =>
    cell table 0 j (cell_run0 make_bold);;
    cell table 0 j (assign_alignment CENTER));;
  for_each (enumerate labels) (fun '(c, txt) =>
    cell table 1 c (assign_text txt);;
    cell table 1 c (cell_run0 make_bold);;
    cell table 1 c (assign_alignment CENTER);;
    cell table 1 c (set_cell_shading "EFEFEF"));;
  mr' ← lift (Calendar.monthrange anio mes);
  let ndays := mr'.2 in
  for_each (seqZ 1 ndays)
    (day_body table mes anio hora_maniana hora_tarde extras_dow notas_por_dia feriados);;
  add_paragraph "\";;
  mret tt.

(** The document built by [generar_planilla_word] before it is saved. *)
Definition build_document (nombre oficina empleado : string) (mes anio : Z)
    (hora_maniana hora_tarde : list string) (extras_dow : list Z)
    (notas_por_dia : option (gmap Z string))
    (feriados : option (gset date)) : M unit :=
  add_header nombre oficina empleado mes anio;;
  add_paragraph "";;
  build_table mes anio hora_maniana hora_tarde extras_dow notas_por_dia feriados.

Definition generar_planilla_word (out_path nombre oficina empleado : string)
    (mes anio : Z) (hora_maniana hora_tarde : list string) (extras_dow : list Z)
    (notas_por_dia : option (gmap Z string)) (feriados : option (gset date))
    (fs : FileSystem) : outcome unit * FileSystem :=
  match build_document nombre oficina empleado mes anio hora_maniana hora_tarde
          extras_dow notas_por_dia feriados [] with
  | (Ret _, doc) => save out_path doc fs
  | (Raise e, _) => (Raise e, fs)
  end.

(** [y, m, d = map(int, segs)]: the conversions run as the unpacking asks for
    the items, one more than three when there are that many. *)
Definition unpack3_int (segs : list string) : outcome (Z * Z * Z) :=
  match segs with
  | a :: b :: c :: rest =>
      y ← PyStr.int a; m ← PyStr.int b; d ← PyStr.int c;
      match rest with
      | [] => Ret (y, m, d)
      | x :: _ =>
          PyStr.int x;;
          Raise (ValueError "too many values to unpack (expected 3)")
      end
  | _ =>
      foldr (fun s k => PyStr.int s;; k)
        (Raise (ValueError "not enough values to unpack (expected 3)")) segs
  end.

(** The body of the [try] of [parse_date_list]. *)
Definition parse_date_token (tok : string) : outcome date :=
  '(y, m, d) ← unpack3_int (PyStr.split "-" tok);
  Datetime.new y m d.

(** One pass of the loop of [parse_date_list]: [except Exception: pass]
    drops whatever the [try] body raised. *)
Definition date_step (out : gset date) (tok : string) : gset date :=
  let tok := PyStr.strip tok in
  match parse_date_token tok with
  | Ret dt => out ∪ {[dt]}
  | Raise _ => out
  end.

Definition parse_date_list (text : option string) : gset date :=
  let out : gset date := ∅ in
  match text with
  | None | Some EmptyString => out
  | Some text => foldl date_step out (PyStr.split "," text)
  end.

(** One pass of the loop of [parse_notes]. *)
Definition note_step (out : gmap Z string) (tok : string) : gmap Z string :=
  let tok := PyStr.strip tok in
  if PyStr.contains ":" tok then
    match PyStr.split1 ":" tok with
    | [k; v] =>
        match PyStr.int k with
        | Ret n => <[n := PyStr.strip v]> out
        | Raise _ => out
        end
    | _ => out
    end
  else out.

Definition parse_notes (text : option string) : gmap Z string :=
  let out : gmap Z string := ∅ in
  match text with
  | None | Some EmptyString => out
  | Some text => foldl note_step out (PyStr.split "," text)
  end.

End Planilla.

(** ** gui_planilla.py *)

Module Gui.

Definition formato_invalido : string :=
  "Formato de hora inválido. Use HH:MM,HH:MM (ej: 06:30,13:00)".

(** The checks of one pass of [for hhmm in (h1, h2)]. *)
Definition check_hhmm (hhmm : string) : outcome unit :=
  let hhmm_parts := PyStr.split ":" hhmm in
  match hhmm_parts with
  | [hh; mm] =>
      if negb (PyStr.isdigit hh && PyStr.isdigit mm) then
        Raise (ValueError ("Hora inválida: " +:+ hhmm))
      else
        (* [0 <= int(hh) <= 23 and 0 <= int(mm) <= 59], left to right *)
        h ← PyStr.int hh;
        in_range ←
          (if (0 <=? h) && (h <=? 23)
           then m ← PyStr.int mm; Ret ((0 <=? m) && (m <=? 59))
           else Ret false);
        if negb in_range then
          Raise (ValueError ("Hora fuera de rango: " +:+ hhmm))
        else Ret tt
  | _ => Raise (ValueError ("Hora inválida: " +:+ hhmm))
  end.

Definition _parse_horas (text : string) : outcome (string * string) :=
  let parts := map PyStr.strip (PyStr.split "," text) in
  if negb (length parts =? 2)%nat
     || existsb (fun p => negb (PyStr.contains ":" p)) parts then
    Raise (ValueError formato_invalido)
  else
    h1 ← tuple_index parts 0;
    h2 ← tuple_index parts 1;
    foldr (fun hhmm k => check_hhmm hhmm;; k) (Ret (h1, h2)) [h1; h2].

End Gui.

(** ** The command line: [main] after [parse_args] *)

Module Cli.
Import Planilla.

(** The namespace [ap.parse_args()] returns, [--mes] and [--anio] already
    converted by [type=int]. *)
Record Args : Type := mkArgs {
  out : string;
  nombre : string;
  oficina : string;
  empleado : string;
  mes : Z;
  anio : Z;
  hora_m : string;
  hora_t : string;
  extras_dow : string;
  feriados : string;
  notas : string
}.

Definition main (args : Args) (fs : FileSystem) : outcome unit * FileSystem :=
  let hm := PyStr.split "," (hora_m args) in
  let ht := PyStr.split "," (hora_t args) in
  match parse_extras (extras_dow args) with
  | Raise e => (Raise e, fs)
  | Ret extras =>
      let feriados := parse_date_list (Some (feriados args)) in
      let notas := parse_notes (Some (notas args)) in
      generar_planilla_word (out args) (nombre args) (oficina args) (empleado args)
        (mes args) (anio args) hm ht extras (Some notas) (Some feriados) fs
  end.

End Cli.

(** ** The form: [PlanillaApp.generate] *)

Module PlanillaApp.
Import Planilla.

(** What the widgets hold when the button is pressed. *)
Record Form : Type := mkForm {
  nombre_edit : string;
  oficina_edit : string;
  empleado_edit : string;
  mes_combo_index : Z;        (* mes_combo.currentIndex() *)
  anio_spin : Z;              (* anio_spin.value() *)
  hora_m_edit : string;
  hora_t_edit : string;
  extras_dow_edit : string;
  feriados_edit : string;
  notas_edit : string;
  out_path_edit : string
}.

(** What the combo box of the twelve months and the spin box of the year can
    hold: an index from -1 (nothing selected) to 11, and a year in the range
    given to [setRange]. *)
Definition widgets_ok (f : Form) : Prop :=
  -1 <= mes_combo_index f <= 11 /\ 2020 <= anio_spin f <= 2100.

(** The message box shown: [QMessageBox.warning], [.information], [.critical],
    with its title and text. *)
Inductive Dialog : Type :=
  | Warning (title text : string)
  | Information (title text : string)
  | Critical (title text : string).

Definition nombres_mes : list string :=
  ["Enero"; "Febrero"; "Marzo"; "Abril"; "Mayo"; "Junio";
   "Julio"; "Agosto"; "Septiembre"; "Octubre"; "Noviembre"; "Diciembre"].

Definition newline : string := String "010" EmptyString.

(** The file name proposed by [browse_output_file], before [os.path.join]
    puts the documents directory in front of it. *)
Definition nombre_sugerido (mes_nombre : string) (anio : Z) : string :=
  "PLANILLA-" +:+ PyStr.upper mes_nombre +:+ "-" +:+ PyStr.str anio +:+ ".docx".

(** The body of the [try] of [generate]. *)
Definition generate_try (f : Form) (nombre oficina empleado out_path : string)
    (fs : FileSystem) : outcome unit * FileSystem :=
  let mes := mes_combo_index f + 1 in
  let anio := anio_spin f in
  match Gui._parse_horas (hora_m_edit f) with
  | Raise e => (Raise e, fs)
  | Ret (h_m_entrada, h_m_salida) =>
      match Gui._parse_horas (hora_t_edit f) with
      | Raise e => (Raise e, fs)
      | Ret (h_t_entrada, h_t_salida) =>
          let extras_str := PyStr.strip (extras_dow_edit f) in
          match (if PyStr.is_empty extras_str then Ret [] else parse_extras extras_str) with
          | Raise e => (Raise e, fs)
          | Ret extras =>
              let feriados := parse_date_list (Some (feriados_edit f)) in
              let notas := parse_notes (Some (notas_edit f)) in
              generar_planilla_word out_path nombre oficina empleado mes anio
                [h_m_entrada; h_m_salida] [h_t_entrada; h_t_salida] extras
                (Some notas) (Some feriados) fs
          end
      end
  end.

(** [generate]: the message box it shows.  The handler of the [try] prints
    the exception it caught, and what that raises is not caught. *)
Definition generate (f : Form) (fs : FileSystem) : outcome Dialog * FileSystem :=
  let nombre := PyStr.strip (nombre_edit f) in
  let oficina := PyStr.strip (oficina_edit f) in
  let empleado := PyStr.strip (empleado_edit f) in
  let out_path := PyStr.strip (out_path_edit f) in
  if negb (forallb (fun s => negb (PyStr.is_empty s)) [nombre; oficina; empleado; out_path])
  then
    (Ret (Warning "Campos incompletos"
            "Por favor, complete todos los datos principales y seleccione una ruta de salida."),
     fs)
  else
    match generate_try f nombre oficina empleado out_path fs with
    | (Ret _, fs') =>
        (Ret (Information "Éxito"
                ("Planilla generada correctamente en:" +:+ newline +:+ out_path)), fs')
    | (Raise e, fs') =>
        match exn_str e with
        | Ret text =>
            (Ret (Critical "Error"
                    ("Ocurrió un error al generar la planilla:" +:+ newline +:+ text)), fs')
        | Raise e' => (Raise e', fs')
        end
    end.

End PlanillaApp.

(** ** The rows of a finished sheet, as values

    What [build_table] leaves in the table, written as data; the lemmas of
    the second part show that the cell-by-cell writes of the source produce
    exactly these rows. *)

Module Sheet.
Import Docx Planilla.

Definition centered (shd : list string) (s : string) : Cell :=
  mkCell (mkParagraph [text_run s] (Some CENTER)) shd.

Definition plain (s : string) : Cell :=
  mkCell (mkParagraph [text_run s] None) [].

Definition bold_centered (shd : list string) (s : string) : Cell :=
  mkCell (mkParagraph [mkRun s true None] (Some CENTER)) shd.

Definition header0 : list Cell :=
  [plain ""; bold_centered [] "MAÑANA"; blank_cell; blank_cell; blank_cell;
   bold_centered [] "TARDE"; blank_cell; blank_cell; blank_cell].

Definition header1 : list Cell := map (bold_centered ["EFEFEF"]) labels.

Definition header_merges : list (nat * nat * nat) := [(0, 1, 4); (0, 5, 8)]%nat.

Definition blank_row : list Cell := replicate 9 blank_cell.

(** The texts left by [fill_dashes] in columns 1 to 8. *)
Definition dashes : list string := ["---"; ""; "---"; ""; "---"; ""; "---"; ""].

Definition weekend_label (dow : Z) : string :=
  if dow =? 5 then "SÁBADO" else "DOMINGO".

(** The row of day [d], whose weekday is [dow]. *)
Definition day_cells (hora_maniana hora_tarde : list string) (extras_dow : list Z)
    (notas_por_dia : gmap Z string) (feriados : gset date)
    (mes anio d dow : Z) : list Cell :=
  if 5 <=? dow then
    map (centered ["F8F8F8"])
        (PyStr.str d :: weekend_label dow :: ["" ; "---"; ""; "---"; ""; "---"; ""])
  else if bool_decide (mkDate anio mes d ∈ feriados) then
    map (centered ["FFF2CC"]) (PyStr.str d :: dashes)
  else if truthy (notas_por_dia !! d) then
    map (centered []) (PyStr.str d :: dashes)
  else
    let hm0 := nth 0 hora_maniana "" in
    let hm1 := nth 1 hora_maniana "" in
    let tarde := existsb (Z.eqb dow) extras_dow in
    [centered [] (PyStr.str d);
     centered [] hm0; plain ""; centered [] hm1; plain "";
     centered [] (if tarde then nth 0 hora_tarde "" else "---"); plain "";
     centered [] (if tarde then nth 1 hora_tarde "" else "---"); plain ""].

Definition day_row (hora_maniana hora_tarde : list string) (extras_dow : list Z)
    (notas_por_dia : gmap Z string) (feriados : gset date)
    (mes anio d : Z) : list Cell :=
  day_cells hora_maniana hora_tarde extras_dow notas_por_dia feriados
            mes anio d (Datetime.weekday (mkDate anio mes d)).

(** Number of days of a month, by the usual rule. *)
Definition days_in_month (anio mes : Z) : Z :=
  if mes =? 2 then
    if (anio mod 4 =? 0) && (negb (anio mod 100 =? 0) || (anio mod 400 =? 0))
    then 29 else 28
  else if (mes =? 4) || (mes =? 6) || (mes =? 9) || (mes =? 11) then 30
  else 31.

(** The table of a finished sheet. *)
Definition sheet_table (hora_maniana hora_tarde : list string) (extras_dow : list Z)
    (notas_por_dia : gmap Z string) (feriados : gset date)
    (mes anio : Z) : Table :=
  mkTable (Some "Table Grid") true
    (header0 :: header1 ::
     map (day_row hora_maniana hora_tarde extras_dow notas_por_dia feriados mes anio)
         (seqZ 1 (days_in_month anio mes)))
    header_merges.

(** The table when the loop over the days has not written anything yet. *)
Definition header_only_table (ndays : Z) : Table :=
  mkTable (Some "Table Grid") true
    (header0 :: header1 :: replicate (Z.to_nat ndays) blank_row)
    header_merges.

(** The blocks [add_header] puts at the top of an empty body: the title, the
    two-by-two identification table and an empty paragraph. *)
Definition identification_block (nombre oficina empleado : string) (mes anio : Z)
  : Document :=
  let field label value :=
    mkCell (mkParagraph [mkRun label true (Some 11); mkRun value false (Some 11)] None) [] in
  [BParagraph (mkParagraph [mkRun "PLANILLAS PERSONAL DE HORARIOS" true (Some 14)]
                           (Some CENTER));
   BTable (mkTable None false
             [[field "APELLIDO Y NOMBRE: " nombre; field "Oficina: " oficina];
              [field "Mes: " (month_name_es mes true +:+ " " +:+ PyStr.str anio);
               field "Empleado: " empleado]]
             []);
   BParagraph blank_paragraph].

(** The blocks [add_header] has appended when the f-string of the month and
    year raises: the title and the identification table, whose second row
    only holds the label "Mes: ". *)
Definition unfinished_identification (nombre oficina : string) : Document :=
  let field label value :=
    mkCell (mkParagraph [mkRun label true (Some 11); mkRun value false (Some 11)] None) [] in
  [BParagraph (mkParagraph [mkRun "PLANILLAS PERSONAL DE HORARIOS" true (Some 14)]
                           (Some CENTER));
   BTable (mkTable None false
             [[field "APELLIDO Y NOMBRE: " nombre; field "Oficina: " oficina];
              [mkCell (mkParagraph [mkRun "Mes: " true (Some 11)] None) []; blank_cell]]
             [])].

(** The weekend label in the words of the specification. *)
Definition spec_weekend_label (dow : Z) : string :=
  if dow =? 5 then "SATURDAY" else "SUNDAY".

Definition closing_paragraph : Block :=
  BParagraph (mkParagraph [text_run "\"] None).

(** Observations on a table: the texts of row [r], and its shadings. *)
Definition row_texts (t : Table) (r : nat) : option (list string) :=
  map cell_text <$> t_rows t !! r.

Definition row_shadings (t : Table) (r : nat) : option (list (list string)) :=
  map c_shd <$> t_rows t !! r.



End Sheet.

(** A regular workday of the month: Monday to Friday, not in the holiday set,
    and with no note in use. *)
Definition regular_day (notas_por_dia : gmap Z string) (feriados : gset Datetime.date)
    (mes anio d : Z) : bool :=
  negb (5 <=? Datetime.weekday (Datetime.mkDate anio mes d))
  && negb (bool_decide (Datetime.mkDate anio mes d ∈ feriados))
  && negb (Planilla.truthy (notas_por_dia !! d)).

(** ** The parsers in the words of the specification

    Declarative readings of the three input formats, against which the
    parsers above are compared. *)

Module Format.
Import Datetime.

Definition free_of (sep : ascii) (s : string) : Prop := PyStr.contains sep s = false.

(** A time [HH:MM]: two segments around one colon, both numeric (made of
    digits, and read by [int] as the numbers [h] and [m]), the hour in 0..23
    and the minute in 0..59. *)
Definition hhmm_ok (part : string) : Prop :=
  exists (hh mm : string) (h m : Z),
    part = hh +:+ String ":" mm
    /\ free_of ":" hh /\ free_of ":" mm
    /\ PyStr.isdigit hh = true /\ PyStr.isdigit mm = true
    /\ PyStr.int hh = Ret h /\ PyStr.int mm = Ret m
    /\ 0 <= h <= 23 /\ 0 <= m <= 59.

(** [text] is two comma-separated parts which, trimmed, are the valid times
    [h1] and [h2]. *)
Definition time_pair_ok (text h1 h2 : string) : Prop :=
  exists a b : string,
    text = a +:+ String "," b
    /\ free_of "," a /\ free_of "," b
    /\ h1 = PyStr.strip a /\ h2 = PyStr.strip b
    /\ hhmm_ok h1 /\ hhmm_ok h2.

(** [text] does not even have the shape of two parts with a colon each. *)
Definition two_parts_with_colon (text : string) : Prop :=
  exists a b : string,
    text = a +:+ String "," b
    /\ free_of "," a /\ free_of "," b
    /\ PyStr.contains ":" (PyStr.strip a) = true
    /\ PyStr.contains ":" (PyStr.strip b) = true.

(** A token [Y-M-D] of three numeric segments naming the calendar date [dt]. *)
Definition date_token (tok : string) (dt : date) : Prop :=
  exists (a b c : string) (y m d : Z),
    tok = a +:+ String "-" (b +:+ String "-" c)
    /\ free_of "-" a /\ free_of "-" b /\ free_of "-" c
    /\ PyStr.int a = Ret y /\ PyStr.int b = Ret m /\ PyStr.int c = Ret d
    /\ 1 <= y <= 9999 /\ 1 <= m <= 12 /\ 1 <= d <= Sheet.days_in_month y m
    /\ dt = mkDate y m d.

(** A token [day:text], cut at its first colon, with a numeric day [n] and
    the trimmed text [v]. *)
Definition note_token (tok : string) (n : Z) (v : string) : Prop :=
  exists k rest : string,
    tok = k +:+ String ":" rest
    /\ free_of ":" k
    /\ PyStr.int k = Ret n
    /\ v = PyStr.strip rest.

(** No token of [toks] is a note for day [n]. *)
Definition no_note_for (n : Z) (toks : list string) : Prop :=
  forall t, In t toks -> forall v, ~ note_token (PyStr.strip t) n v.

End Format.

(** * Part II: properties

    First the calendar, then the symbolic execution of [build_table] down to
    the rows of [Sheet], then the parsers. *)

Section Calendar_facts.
Import Datetime.

Lemma month_cases (m : Z) :
  1 <= m <= 12 ->
  m = 1 \/ m = 2 \/ m = 3 \/ m = 4 \/ m = 5 \/ m = 6 \/
  m = 7 \/ m = 8 \/ m = 9 \/ m = 10 \/ m = 11 \/ m = 12.
Proof. lia. Qed.

Ltac each_month H :=
  apply month_cases in H;
  repeat (destruct H as [H | H]); subst.

Lemma days_in_month_datetime y m :
  1 <= m <= 12 -> Datetime._days_in_month y m = Sheet.days_in_month y m.
Proof.
  intros H. unfold Datetime._days_in_month, Sheet.days_in_month, Datetime._is_leap.
  each_month H; cbn; try reflexivity;
    destruct ((y mod 4 =? 0) && (negb (y mod 100 =? 0) || (y mod 400 =? 0))); reflexivity.
Qed.

Lemma days_in_month_range y m : 28 <= Sheet.days_in_month y m <= 31.
Proof.
  unfold Sheet.days_in_month.
  repeat match goal with |- context [if ?b then _ else _] => destruct b end; lia.
Qed.

Lemma calendar_days y m :
  1 <= m <= 12 ->
  nth (Z.to_nat m) Calendar.mdays 0
  + (if (m =? Calendar.February) && Calendar.isleap y then 1 else 0)
  = Sheet.days_in_month y m.
Proof.
  intros H. unfold Sheet.days_in_month, Calendar.isleap, Calendar.February.
  each_month H; cbn; try reflexivity;
    destruct ((y mod 4 =? 0) && (negb (y mod 100 =? 0) || (y mod 400 =? 0))); reflexivity.
Qed.

Lemma as_c_int_ok n :
  - 2147483648 <= n <= 2147483647 -> Datetime.as_c_int n = Ret n.
Proof.
  intros H. unfold Datetime.as_c_int.
  repeat match goal with
         | |- context [?a <? ?b] => destruct (Z.ltb_spec a b); [exfalso; lia|]
         end.
  reflexivity.
Qed.


Lemma as_c_int_inv n k :
  Datetime.as_c_int n = Ret k -> k = n /\ - 2147483648 <= n <= 2147483647.
Proof.
  unfold Datetime.as_c_int.
  repeat match goal with
         | |- context [?a <? ?b] => destruct (Z.ltb_spec a b)
         end; cbn [orb]; try discriminate.
  intros [= <-]. split; [reflexivity | lia].
Qed.

Lemma date_new_ok y m d :
  1 <= y <= 9999 -> 1 <= m <= 12 -> 1 <= d <= Sheet.days_in_month y m ->
  Datetime.new y m d = Ret (mkDate y m d).
Proof.
  intros Hy Hm Hd. unfold Datetime.new, MINYEAR, MAXYEAR.
  pose proof (days_in_month_range y m) as Hr.
  rewrite !as_c_int_ok by lia. cbn [obind].
  rewrite days_in_month_datetime by assumption.
  replace ((1 <=? y) && (y <=? 9999)) with true by (symmetry; apply andb_true_iff; lia).
  replace ((1 <=? m) && (m <=? 12)) with true by (symmetry; apply andb_true_iff; lia).
  replace ((1 <=? d) && (d <=? Sheet.days_in_month y m)) with true
    by (symmetry; apply andb_true_iff; lia).
  reflexivity.
Qed.



Lemma date_new_inv y m d dt :
  Datetime.new y m d = Ret dt ->
  dt = mkDate y m d /\ 1 <= y <= 9999 /\ 1 <= m <= 12 /\ 1 <= d <= Sheet.days_in_month y m.
Proof.
  unfold Datetime.new, MINYEAR, MAXYEAR.
  destruct (Datetime.as_c_int y); [|discriminate].
  destruct (Datetime.as_c_int m); [|discriminate].
  destruct (Datetime.as_c_int d); [|discriminate]. cbn [obind].
  destruct ((1 <=? y) && (y <=? 9999)) eqn:Ey; [|discriminate].
  destruct ((1 <=? m) && (m <=? 12)) eqn:Em; [|discriminate].
  apply andb_true_iff in Ey, Em.
  assert (Hm : 1 <= m <= 12) by lia.
  rewrite days_in_month_datetime by assumption.
  destruct ((1 <=? d) && (d <=? Sheet.days_in_month y m)) eqn:Ed; [|discriminate].
  apply andb_true_iff in Ed. cbn. intros [= <-]. repeat split; lia.
Qed.

Lemma calendar_weekday_ok y m d :
  1 <= y <= 9999 -> 1 <= m <= 12 -> 1 <= d <= Sheet.days_in_month y m ->
  Calendar.weekday y m d = Ret (Datetime.weekday (mkDate y m d)).
Proof.
  intros Hy Hm Hd. unfold Calendar.weekday, MINYEAR, MAXYEAR.
  replace ((1 <=? y) && (y <=? 9999)) with true by (symmetry; apply andb_true_iff; lia).
  cbn [negb]. rewrite date_new_ok by assumption. reflexivity.
Qed.

(** Whatever the year, [calendar.weekday] answers for the first of a month. *)
Lemma calendar_weekday_first y m :
  1 <= m <= 12 -> exists w, Calendar.weekday y m 1 = Ret w.
Proof.
  intros Hm. unfold Calendar.weekday, MINYEAR, MAXYEAR.
  destruct ((1 <=? y) && (y <=? 9999)) eqn:Ey; cbn [negb].
  - apply andb_true_iff in Ey.
    rewrite date_new_ok; try lia; [eexists; reflexivity|].
    pose proof (days_in_month_range y m); lia.
  - assert (0 <= y mod 400 < 400) by (apply Z.mod_pos_bound; lia).
    rewrite date_new_ok; try lia; [eexists; reflexivity|].
    pose proof (days_in_month_range (2000 + y mod 400) m); lia.
Qed.

Lemma monthrange_ok y m :
  1 <= m <= 12 ->
  exists w, Calendar.monthrange y m = Ret (w, Sheet.days_in_month y m).
Proof.
  intros Hm. unfold Calendar.monthrange.
  replace ((1 <=? m) && (m <=? 12)) with true by (symmetry; apply andb_true_iff; lia).
  cbn [negb]. destruct (calendar_weekday_first y m Hm) as [w ->].
  exists w. cbn [obind]. rewrite calendar_days by assumption. reflexivity.
Qed.

Lemma monthrange_bad_month y m :
  ~ (1 <= m <= 12) -> Calendar.monthrange y m = Raise (IllegalMonthError m).
Proof.
  intros Hm. unfold Calendar.monthrange.
  replace ((1 <=? m) && (m <=? 12)) with false; [reflexivity|].
  symmetry. apply andb_false_iff. lia.
Qed.

Lemma weekday_range dt : 0 <= Datetime.weekday dt <= 6.
Proof.
  unfold Datetime.weekday.
  pose proof (Z.mod_pos_bound (toordinal dt + 6) 7). lia.
Qed.

End Calendar_facts.

Section Document_steps.
Import Docx Planilla Sheet.

Lemma bind_run {A B} (m : M A) (k : A -> M B) (doc : Document) :
  (m ≫= k) doc =
  match m doc with
  | (Ret a, doc') => k a doc'
  | (Raise e, doc') => (Raise e, doc')
  end.
Proof. reflexivity. Qed.

Lemma lift_run {A} (o : outcome A) (doc : Document) : lift o doc = (o, doc).
Proof. reflexivity. Qed.

Lemma ret_run {A} (a : A) (doc : Document) : mret (M := M) a doc = (Ret a, doc).
Proof. reflexivity. Qed.

Lemma with_paragraph_last (pre : Document) (p : Paragraph) f :
  with_paragraph (length pre) f (pre ++ [BParagraph p]) =
  match f p with
  | Ret p' => (Ret tt, pre ++ [BParagraph p'])
  | Raise e => (Raise e, pre ++ [BParagraph p])
  end.
Proof.
  unfold with_paragraph.
  rewrite lookup_app_r by lia. rewrite Nat.sub_diag. cbn [lookup list_lookup].
  destruct (f p); [|reflexivity].
  rewrite insert_app_r_alt by lia. rewrite Nat.sub_diag. reflexivity.
Qed.

(** An operation on the table appended last to the body. *)
Lemma with_table_last (pre : Document) (t : Table) f :
  with_table (length pre) f (pre ++ [BTable t]) =
  match f t with
  | Ret t' => (Ret tt, pre ++ [BTable t'])
  | Raise e => (Raise e, pre ++ [BTable t])
  end.
Proof.
  unfold with_table.
  rewrite lookup_app_r by lia. rewrite Nat.sub_diag. cbn [lookup list_lookup].
  destruct (f t); [|reflexivity].
  rewrite insert_app_r_alt by lia. rewrite Nat.sub_diag. reflexivity.
Qed.

Lemma resolve_day_row (r c : nat) :
  (2 <= r)%nat -> resolve header_merges r c = c.
Proof.
  intros Hr. unfold resolve, header_merges. cbn [List.find in_merge].
  destruct r as [|[|r]]; [lia|lia|]. reflexivity.
Qed.

(** A write to a cell of a day row, the row being located by the rows above
    it. *)
Lemma cell_day_row (pre : Document) st af (top bot : list (list Cell)) row
    (r c : nat) f cl cl' :
  length top = r -> (2 <= r)%nat ->
  row !! c = Some cl -> f cl = Ret cl' ->
  cell (length pre) r c f
       (pre ++ [BTable (mkTable st af (top ++ row :: bot) header_merges)]) =
  (Ret tt, pre ++ [BTable (mkTable st af (top ++ <[c := cl']> row :: bot) header_merges)]).
Proof.
  intros Htop Hr Hc Hf. unfold cell. rewrite with_table_last.
  unfold table_cell. cbn [t_merges t_rows t_style t_autofit].
  rewrite resolve_day_row by assumption.
  rewrite lookup_app_r by lia. rewrite Htop, Nat.sub_diag. cbn [lookup list_lookup].
  change (list_lookup c row) with (row !! c). rewrite Hc, Hf. cbn [obind].
  rewrite insert_app_r_alt by lia. rewrite Htop, Nat.sub_diag. reflexivity.
Qed.

End Document_steps.

Section Day_loop.
Import Docx Planilla Sheet.

(** Symbolic execution of the writes of a day body: expose the first
    operation, run it with [cell_day_row], and go on with the new body. *)
Ltac run_cell :=
  rewrite ?bind_run;
  first
    [ erewrite cell_day_row by (first [eassumption | reflexivity | lia])
    | rewrite ret_run
    | rewrite lift_run ];
  cbn [insert list_insert is_firma existsb Nat.eqb orb for_each seq tuple_index
       lookup list_lookup].

Lemma day_body_spec (pre : Document) st af (top bot : list (list Cell))
    hm ht extras notas fer mes anio d :
  1 <= anio <= 9999 -> 1 <= mes <= 12 -> 1 <= d <= days_in_month anio mes ->
  (2 <= length hm)%nat -> (2 <= length ht)%nat ->
  length top = Z.to_nat (1 + d) ->
  day_body (length pre) mes anio hm ht extras notas fer d
    (pre ++ [BTable (mkTable st af (top ++ blank_row :: bot) header_merges)]) =
  (Ret tt,
   pre ++ [BTable (mkTable st af
                     (top ++ day_row hm ht extras notas fer mes anio d :: bot)
                     header_merges)]).
Proof.
  intros Hy Hm Hd Hhm Hht Htop.
  assert (Hr : (2 <= Z.to_nat (1 + d))%nat) by lia.
  destruct hm as [|hm0 [|hm1 hm']]; [cbn in Hhm; lia | cbn in Hhm; lia |].
  destruct ht as [|ht0 [|ht1 ht']]; [cbn in Hht; lia | cbn in Hht; lia |].
  unfold day_body, day_row, day_cells.
  rewrite bind_run, lift_run, calendar_weekday_ok by assumption.
  rewrite bind_run, lift_run, date_new_ok by assumption.
  set (dow := Datetime.weekday (mkDate anio mes d)).
  set (r := Z.to_nat (1 + d)) in *.
  unfold blank_row, fill_dashes. cbn [replicate].
  destruct (5 <=? dow) eqn:Ewk; [repeat run_cell; reflexivity|].
  destruct (bool_decide (mkDate anio mes d ∈ fer)) eqn:Efer;
    [repeat run_cell; reflexivity|].
  destruct (truthy (notas !! d)) eqn:Enote; [repeat run_cell; reflexivity|].
  destruct (existsb (Z.eqb dow) extras) eqn:Eex; repeat run_cell; reflexivity.
Qed.

(** The loop over the days, started after [j] days have been written. *)
Lemma days_loop (pre : Document) st af hm ht extras notas fer mes anio
    (k : nat) : forall (j : Z) (above : list (list Cell)),
  1 <= anio <= 9999 -> 1 <= mes <= 12 ->
  (2 <= length hm)%nat -> (2 <= length ht)%nat ->
  0 <= j -> j + Z.of_nat k <= days_in_month anio mes ->
  length above = Z.to_nat (2 + j) ->
  for_each (seqZ (j + 1) (Z.of_nat k))
           (day_body (length pre) mes anio hm ht extras notas fer)
    (pre ++ [BTable (mkTable st af (above ++ replicate k blank_row) header_merges)]) =
  (Ret tt,
   pre ++ [BTable (mkTable st af
             (above ++ map (day_row hm ht extras notas fer mes anio)
                           (seqZ (j + 1) (Z.of_nat k)))
             header_merges)]).
Proof.
  induction k as [|k IH]; intros j above Hy Hm Hhm Hht Hj Hjk Hab.
  - reflexivity.
  - rewrite seqZ_cons by lia.
    replace (Z.pred (Z.of_nat (S k))) with (Z.of_nat k) by lia.
    replace (Z.succ (j + 1)) with ((j + 1) + 1) by lia.
    cbn [for_each replicate map]. rewrite bind_run.
    rewrite day_body_spec; try assumption; try lia.
    rewrite (cons_middle _ above), (cons_middle (day_row _ _ _ _ _ _ _ _) above).
    rewrite !app_assoc.
    apply IH; try assumption; try lia.
    rewrite length_app. cbn [length]. lia.
Qed.

Ltac run_header :=
  rewrite ?bind_run;
  first [ rewrite with_table_last | rewrite ret_run | rewrite lift_run ];
  cbn [table_cell merge assign_style assign_text assign_alignment cell_run0
       paragraph_run0 set_cell_shading make_bold obind resolve List.find in_merge
       t_rows t_merges t_style t_autofit c_paragraph c_shd p_runs p_alignment
       lookup list_lookup insert list_insert Nat.eqb Nat.leb Nat.ltb andb
       length for_each fst snd app].

(** [build_table] up to the loop over the days: the table is appended with
    its two header rows filled in and one blank row per day. *)
Lemma build_table_header (doc : Document) hm ht extras notas fer mes anio :
  1 <= mes <= 12 ->
  build_table mes anio hm ht extras notas fer doc =
  (for_each (seqZ 1 (days_in_month anio mes))
            (day_body (length doc) mes anio hm ht extras
                      (default ∅ notas) (default ∅ fer));;
   add_paragraph "\";;
   mret tt)
    (doc ++ [BTable (header_only_table (days_in_month anio mes))]).
Proof.
  intros Hm. unfold build_table.
  destruct (monthrange_ok anio mes Hm) as [w Hmr].
  pose proof (days_in_month_range anio mes) as Hnd.
  set (nd := days_in_month anio mes) in *.
  rewrite bind_run, lift_run, Hmr. cbn [snd].
  rewrite bind_run. unfold add_table at 1. cbn beta iota.
  replace (Z.to_nat (2 + nd)) with (S (S (Z.to_nat nd))) by lia.
  change (Z.to_nat 9) with 9%nat.
  cbn [replicate].
  unfold cell, enumerate, labels.
  cbn [length seq zip zip_with].
  repeat run_header.
  reflexivity.
Qed.

Lemma build_table_spec (doc : Document) hm ht extras notas fer mes anio :
  1 <= anio <= 9999 -> 1 <= mes <= 12 ->
  (2 <= length hm)%nat -> (2 <= length ht)%nat ->
  build_table mes anio hm ht extras notas fer doc =
  (Ret tt,
   doc ++ [BTable (sheet_table hm ht extras (default ∅ notas) (default ∅ fer) mes anio);
           closing_paragraph]).
Proof.
  intros Hy Hm Hhm Hht. rewrite build_table_header by assumption.
  pose proof (days_in_month_range anio mes) as Hnd.
  set (nd := days_in_month anio mes) in *.
  rewrite bind_run.
  replace (seqZ 1 nd) with (seqZ (0 + 1) (Z.of_nat (Z.to_nat nd)))
    by (f_equal; lia).
  unfold header_only_table.
  change (header0 :: header1 :: replicate (Z.to_nat nd) blank_row)
    with ([header0; header1] ++ replicate (Z.to_nat nd) blank_row).
  rewrite days_loop by (first [assumption | reflexivity | lia]).
  rewrite bind_run. unfold add_paragraph. cbn [PyStr.is_empty].
  rewrite ret_run. unfold sheet_table, closing_paragraph.
  rewrite <- app_assoc.
  replace (seqZ (0 + 1) (Z.of_nat (Z.to_nat nd))) with (seqZ 1 nd)
    by (f_equal; lia).
  reflexivity.
Qed.

(** A month outside 1..12 stops [build_table] at its first line. *)
Lemma build_table_bad_month (doc : Document) hm ht extras notas fer mes anio :
  ~ (1 <= mes <= 12) ->
  build_table mes anio hm ht extras notas fer doc = (Raise (IllegalMonthError mes), doc).
Proof.
  intros Hm. unfold build_table.
  rewrite bind_run, lift_run, monthrange_bad_month by assumption. reflexivity.
Qed.


End Day_loop.

Section Sheet_rows.
Import Docx Planilla Sheet.

Lemma append_empty_r (s : string) : s +:+ "" = s.
Proof.
  induction s as [|c s IH]; [reflexivity|].
  change (String c (s +:+ "") = String c s). now rewrite IH.
Qed.

Lemma cell_text_centered shd s : cell_text (centered shd s) = s.
Proof. unfold cell_text, paragraph_text. cbn. apply append_empty_r. Qed.

Lemma cell_text_plain s : cell_text (plain s) = s.
Proof. unfold cell_text, paragraph_text. cbn. apply append_empty_r. Qed.

Lemma texts_centered shd (l : list string) :
  map cell_text (map (centered shd) l) = l.
Proof.
  induction l as [|s l IH]; [reflexivity|].
  cbn [map]. now rewrite cell_text_centered, IH.
Qed.

Lemma shadings_centered shd (l : list string) :
  map c_shd (map (centered shd) l) = replicate (length l) shd.
Proof. induction l as [|s l IH]; [reflexivity|]. cbn. now rewrite IH. Qed.

Lemma lookup_map {A B} (f : A -> B) (l : list A) (i : nat) :
  map f l !! i = f <$> l !! i.
Proof.
  revert i. induction l as [|x l IH]; intros [|i]; try reflexivity. apply IH.
Qed.

(** Row [1 + d] of a finished sheet is the row of day [d]. *)
Lemma sheet_day_row hm ht extras notas fer mes anio d :
  1 <= d <= days_in_month anio mes ->
  t_rows (sheet_table hm ht extras notas fer mes anio) !! Z.to_nat (1 + d) =
  Some (day_row hm ht extras notas fer mes anio d).
Proof.
  intros Hd. unfold sheet_table. cbn [t_rows].
  replace (Z.to_nat (1 + d)) with (S (S (Z.to_nat (d - 1)))) by lia.
  change (map (day_row hm ht extras notas fer mes anio)
              (seqZ 1 (days_in_month anio mes)) !! Z.to_nat (d - 1) =
          Some (day_row hm ht extras notas fer mes anio d)).
  rewrite lookup_map, lookup_seqZ_lt by lia.
  cbn. f_equal. f_equal. lia.
Qed.

Lemma sheet_length hm ht extras notas fer mes anio :
  length (t_rows (sheet_table hm ht extras notas fer mes anio)) =
  Z.to_nat (2 + days_in_month anio mes).
Proof.
  unfold sheet_table. cbn [t_rows length].
  rewrite length_map, length_seqZ.
  pose proof (days_in_month_range anio mes). lia.
Qed.

Lemma date_new_is_Ret y m d :
  1 <= y <= 9999 -> 1 <= m <= 12 ->
  is_Ret (Datetime.new y m d) = true <-> 1 <= d <= days_in_month y m.
Proof.
  intros Hy Hm. split.
  - destruct (Datetime.new y m d) as [dt|e] eqn:E; [|discriminate].
    intros _. apply date_new_inv in E. tauto.
  - intros Hd. now rewrite date_new_ok.
Qed.

End Sheet_rows.

Section Claims_sheet.
Import Docx Planilla Sheet.

Lemma format_int_ok (n : Z) :
  Z.abs n < 10 ^ PyStr.max_str_digits -> PyStr.format_int n = Ret (PyStr.str n).
Proof.
  intros H. unfold PyStr.format_int.
  destruct (Z.leb_spec (10 ^ PyStr.max_str_digits) (Z.abs n)); [lia | reflexivity].
Qed.

Lemma format_int_limit (n : Z) :
  10 ^ PyStr.max_str_digits <= Z.abs n ->
  exists msg, PyStr.format_int n = Raise (ValueError msg).
Proof.
  intros H. unfold PyStr.format_int.
  destruct (Z.leb_spec (10 ^ PyStr.max_str_digits) (Z.abs n)); [|lia].
  eexists. reflexivity.
Qed.

(** A year [date] accepts has four digits at most. *)
Lemma year_digits (anio : Z) :
  - 2147483648 <= anio <= 2147483647 -> Z.abs anio < 10 ^ PyStr.max_str_digits.
Proof.
  intros H. apply Z.lt_le_trans with (10 ^ 10).
  - change (10 ^ 10) with 10000000000. lia.
  - apply Z.pow_le_mono_r; unfold PyStr.max_str_digits; lia.
Qed.

Ltac run_header_cells :=
  repeat (rewrite ?bind_run; rewrite with_table_last;
          cbn [table_cell assign_autofit append_run obind resolve List.find
               t_rows t_merges t_style t_autofit c_paragraph c_shd p_runs p_alignment
               lookup list_lookup insert list_insert app blank_cell blank_paragraph]).

Ltac run_header_title :=
  unfold add_header; rewrite bind_run; unfold add_paragraph at 1;
  cbn [PyStr.is_empty]; cbn beta iota;
  rewrite bind_run, with_paragraph_last; cbn beta iota;
  rewrite bind_run, with_paragraph_last; cbn [paragraph_run0 p_runs p_alignment];
  rewrite bind_run, with_paragraph_last; cbn [paragraph_run0 p_runs p_alignment];
  rewrite bind_run; unfold add_table; cbn beta iota;
  change (Z.to_nat 2) with 2%nat; cbn [replicate];
  unfold cell.

(** [add_header] when the year can be printed. *)
Lemma add_header_spec (doc : Document) nombre oficina empleado mes anio :
  Z.abs anio < 10 ^ PyStr.max_str_digits ->
  add_header nombre oficina empleado mes anio doc =
  (Ret tt, doc ++ identification_block nombre oficina empleado mes anio).
Proof.
  intros H. run_header_title. rewrite (format_int_ok anio H).
  run_header_cells.
  rewrite bind_run, lift_run. cbn [mbind outcome_bind obind].
  run_header_cells.
  rewrite bind_run. unfold add_paragraph. cbn [PyStr.is_empty].
  rewrite ret_run. unfold identification_block.
  rewrite <- !app_assoc. reflexivity.
Qed.

(** [add_header] when the year has more digits than [str] writes. *)
Lemma add_header_limit (doc : Document) nombre oficina empleado mes anio :
  10 ^ PyStr.max_str_digits <= Z.abs anio ->
  exists msg,
    add_header nombre oficina empleado mes anio doc =
    (Raise (ValueError msg), doc ++ unfinished_identification nombre oficina).
Proof.
  intros H. destruct (format_int_limit anio H) as [msg E]. exists msg.
  run_header_title. rewrite E.
  run_header_cells.
  rewrite bind_run, lift_run. cbn [mbind outcome_bind obind].
  unfold unfinished_identification. rewrite <- !app_assoc. reflexivity.
Qed.

Lemma add_header_run nombre oficina empleado mes anio :
  Z.abs anio < 10 ^ PyStr.max_str_digits ->
  add_header nombre oficina empleado mes anio [] =
  (Ret tt, identification_block nombre oficina empleado mes anio).
Proof. intros H. now rewrite add_header_spec. Qed.

Lemma build_document_run nombre oficina empleado mes anio hm ht extras notas fer :
  Z.abs anio < 10 ^ PyStr.max_str_digits ->
  build_document nombre oficina empleado mes anio hm ht extras notas fer [] =
  build_table mes anio hm ht extras notas fer
    (identification_block nombre oficina empleado mes anio ++ [BParagraph blank_paragraph]).
Proof.
  intros H. unfold build_document. rewrite bind_run, add_header_run by exact H. reflexivity.
Qed.

Lemma day_range_cases (d : Z) :
  1 <= d <= 31 ->
  d = 1 \/ d = 2 \/ d = 3 \/ d = 4 \/ d = 5 \/ d = 6 \/ d = 7 \/ d = 8 \/
  d = 9 \/ d = 10 \/ d = 11 \/ d = 12 \/ d = 13 \/ d = 14 \/ d = 15 \/
  d = 16 \/ d = 17 \/ d = 18 \/ d = 19 \/ d = 20 \/ d = 21 \/ d = 22 \/
  d = 23 \/ d = 24 \/ d = 25 \/ d = 26 \/ d = 27 \/ d = 28 \/ d = 29 \/
  d = 30 \/ d = 31.
Proof. lia. Qed.

(** The text written in column 0 reads back as the day number. *)
Lemma int_str_day (d : Z) : 1 <= d <= 31 -> PyStr.int (PyStr.str d) = Ret d.
Proof.
  intros H. apply day_range_cases in H.
  repeat (destruct H as [H | H]); subst; reflexivity.
Qed.

Lemma day_row_length hm ht extras notas fer mes anio d :
  length (day_row hm ht extras notas fer mes anio d) = 9%nat.
Proof.
  unfold day_row, day_cells.
  repeat match goal with |- context [if ?b then _ else _] => destruct b end;
    reflexivity.
Qed.

Lemma day_row_first hm ht extras notas fer mes anio d :
  exists rest,
    map cell_text (day_row hm ht extras notas fer mes anio d) = PyStr.str d :: rest
    /\ length rest = 8%nat.
Proof.
  unfold day_row, day_cells.
  destruct (5 <=? _).
  { rewrite texts_centered. eexists; split; reflexivity. }
  destruct (bool_decide _).
  { rewrite texts_centered. eexists; split; reflexivity. }
  destruct (truthy _).
  { rewrite texts_centered. eexists; split; reflexivity. }
  cbn [map]. rewrite cell_text_centered. eexists; split; reflexivity.
Qed.

(** C1. For every month in 1..12 and every year that [datetime.date] accepts,
    [build_table] succeeds and appends one table (and the closing paragraph):
    the table has the two header rows followed by exactly one row per
    calendar day of the month, between 28 and 31 of them, and row [1 + d]
    is the row of day [d], for [d] from 1 up to the number of days. *)
Theorem C1_header_rows_then_one_row_per_day
    (doc : Document) (hm0 hm1 ht0 ht1 : string) (extras : list Z)
    (notas : option (gmap Z string)) (fer : option (gset date)) (mes anio : Z) :
  1 <= mes <= 12 -> 1 <= anio <= 9999 ->
  exists (T : Table) (ndays : Z),
    build_table mes anio [hm0; hm1] [ht0; ht1] extras notas fer doc
      = (Ret tt, doc ++ [BTable T; closing_paragraph])
    /\ 28 <= ndays <= 31
    /\ (forall d, is_Ret (Datetime.new anio mes d) = true <-> 1 <= d <= ndays)
    /\ length (t_rows T) = Z.to_nat (2 + ndays)
    /\ row_texts T 0 = Some [""; "MAÑANA"; ""; ""; ""; "TARDE"; ""; ""; ""]
    /\ t_merges T = [(0, 1, 4); (0, 5, 8)]%nat
    /\ row_texts T 1 = Some labels
    /\ (forall d, 1 <= d <= ndays ->
          exists rest, row_texts T (Z.to_nat (1 + d)) = Some (PyStr.str d :: rest)
                       /\ length rest = 8%nat).
Proof.
  intros Hm Hy.
  exists (sheet_table [hm0; hm1] [ht0; ht1] extras (default ∅ notas) (default ∅ fer) mes anio),
         (days_in_month anio mes).
  split; [apply build_table_spec; cbn; lia|].
  split; [apply days_in_month_range|].
  split; [intros d; apply date_new_is_Ret; assumption|].
  split; [apply sheet_length|].
  split; [reflexivity|].
  split; [reflexivity|].
  split; [reflexivity|].
  intros d Hd. unfold row_texts. rewrite sheet_day_row by assumption.
  destruct (day_row_first [hm0; hm1] [ht0; ht1] extras (default ∅ notas)
              (default ∅ fer) mes anio d) as (rest & E & L).
  exists rest. cbn [fmap option_fmap option_map]. now rewrite E.
Qed.

Lemma C1_witness :
  exists T : Table,
    build_table 9 2025 ["6:30"; "13:00"] ["16:00"; "19:00"] [1; 3] None None []
      = (Ret tt, [BTable T; closing_paragraph])
    /\ length (t_rows T) = 32%nat.
Proof.
  destruct (C1_header_rows_then_one_row_per_day
              [] "6:30" "13:00" "16:00" "19:00" [1; 3] None None 9 2025)
    as (T & nd & Hrun & _ & Hdays & Hlen & _); [lia | lia |].
  exists T. split; [exact Hrun|].
  assert (Hnd : nd = 30).
  { assert (H30 : 1 <= 30 <= nd) by (apply Hdays; reflexivity).
    assert (H31 : ~ 1 <= 31 <= nd) by (rewrite <- Hdays; discriminate).
    lia. }
  subst nd. exact Hlen.
Defined.

(** C2, as amended.  For every day of the generated month whose weekday index
    is 5 or more, whatever the holiday set and the note map hold, the row is
    the weekend row: column 0 has the day number, column 1 (the
    morning-entry column) has the label "SÁBADO" for index 5 and "DOMINGO"
    for index 6, the other three time columns (3, 5, 7) have dashes, the four
    signature columns are blank, and the nine cells are shaded "F8F8F8". *)
Theorem C2_weekend_row
    (doc : Document) (hm0 hm1 ht0 ht1 : string) (extras : list Z)
    (notas : option (gmap Z string)) (fer : option (gset date)) (mes anio : Z) :
  1 <= mes <= 12 -> 1 <= anio <= 9999 ->
  exists T : Table,
    build_table mes anio [hm0; hm1] [ht0; ht1] extras notas fer doc
      = (Ret tt, doc ++ [BTable T; closing_paragraph])
    /\ forall d dow,
         1 <= d <= days_in_month anio mes ->
         Calendar.weekday anio mes d = Ret dow -> 5 <= dow ->
         (dow = 5 \/ dow = 6)
         /\ row_texts T (Z.to_nat (1 + d)) =
              Some [PyStr.str d; (if dow =? 5 then "SÁBADO" else "DOMINGO");
                    ""; "---"; ""; "---"; ""; "---"; ""]
         /\ row_shadings T (Z.to_nat (1 + d)) = Some (replicate 9 ["F8F8F8"]).
Proof.
  intros Hm Hy.
  exists (sheet_table [hm0; hm1] [ht0; ht1] extras (default ∅ notas) (default ∅ fer) mes anio).
  split; [apply build_table_spec; cbn; lia|].
  intros d dow Hd Hdow Hwk.
  rewrite calendar_weekday_ok in Hdow by assumption. injection Hdow as Hdow.
  pose proof (weekday_range (mkDate anio mes d)) as Hrange. rewrite Hdow in Hrange.
  split; [lia|].
  unfold row_texts, row_shadings. rewrite sheet_day_row by assumption.
  unfold day_row, day_cells. rewrite Hdow.
  replace (5 <=? dow) with true by (symmetry; apply Z.leb_le; exact Hwk).
  cbn [fmap option_fmap option_map].
  rewrite texts_centered, shadings_centered. split; reflexivity.
Qed.

Lemma C2_witness :
  exists T : Table,
    build_table 9 2025 ["6:30"; "13:00"] ["16:00"; "19:00"] [1; 3] None
                (Some {[mkDate 2025 9 6]}) []
      = (Ret tt, [BTable T; closing_paragraph])
    /\ row_texts T 7 = Some ["6"; "SÁBADO"; ""; "---"; ""; "---"; ""; "---"; ""].
Proof.
  destruct (C2_weekend_row [] "6:30" "13:00" "16:00" "19:00" [1; 3] None
              (Some {[mkDate 2025 9 6]}) 9 2025)
    as (T & Hrun & Hrow); [lia | lia |].
  exists T. split; [exact Hrun|].
  destruct (Hrow 6 5) as (_ & Htexts & _); [vm_compute; split; discriminate | reflexivity | lia |].
  exact Htexts.
Defined.

(** C2 as stated fails: on Saturday 6 September 2025 no cell of the row reads
    "SATURDAY", and the morning-entry column is not dashed (it has the
    label). *)
Lemma C2_counterexample :
  exists T : Table,
    build_table 9 2025 ["6:30"; "13:00"] ["16:00"; "19:00"] [1; 3] None None []
      = (Ret tt, [BTable T; closing_paragraph])
    /\ Calendar.weekday 2025 9 6 = Ret 5
    /\ exists texts,
         row_texts T 7 = Some texts
         /\ ~ In (spec_weekend_label 5) texts
         /\ texts !! 1%nat <> Some "---".
Proof.
  eexists. split; [rewrite build_table_spec by (cbn; lia); reflexivity|].
  split; [reflexivity|].
  eexists. split; [reflexivity|].
  split.
  - cbn. intros H. repeat (destruct H as [H | H]; [discriminate H|]). exact H.
  - discriminate.
Qed.

(** C4. On a regular workday (weekday index below 5, date not in the holiday
    set, no note for the day: no key, or an empty text) the morning-entry
    and morning-exit columns have the two morning times; the afternoon
    columns have the two afternoon times when the weekday index is in
    [extras_dow] and dashes otherwise; the four signature columns are blank
    in both cases. *)
Theorem C4_regular_workday_row
    (doc : Document) (hm0 hm1 ht0 ht1 : string) (extras : list Z)
    (notas : option (gmap Z string)) (fer : option (gset date)) (mes anio : Z) :
  1 <= mes <= 12 -> 1 <= anio <= 9999 ->
  exists T : Table,
    build_table mes anio [hm0; hm1] [ht0; ht1] extras notas fer doc
      = (Ret tt, doc ++ [BTable T; closing_paragraph])
    /\ forall d dow,
         1 <= d <= days_in_month anio mes ->
         Calendar.weekday anio mes d = Ret dow -> dow < 5 ->
         mkDate anio mes d ∉ default ∅ fer ->
         truthy (default ∅ notas !! d) = false ->
         row_texts T (Z.to_nat (1 + d)) =
           Some [PyStr.str d; hm0; ""; hm1; "";
                 (if bool_decide (dow ∈ extras) then ht0 else "---"); "";
                 (if bool_decide (dow ∈ extras) then ht1 else "---"); ""].
Proof.
  intros Hm Hy.
  exists (sheet_table [hm0; hm1] [ht0; ht1] extras (default ∅ notas) (default ∅ fer) mes anio).
  split; [apply build_table_spec; cbn; lia|].
  intros d dow Hd Hdow Hwk Hfer Hnote.
  rewrite calendar_weekday_ok in Hdow by assumption. injection Hdow as Hdow.
  unfold row_texts. rewrite sheet_day_row by assumption.
  unfold day_row, day_cells. rewrite Hdow, Hnote.
  replace (5 <=? dow) with false by (symmetry; apply Z.leb_gt; exact Hwk).
  rewrite bool_decide_eq_false_2 by exact Hfer.
  replace (existsb (Z.eqb dow) extras) with (bool_decide (dow ∈ extras)).
  2:{ destruct (existsb (Z.eqb dow) extras) eqn:E.
      - apply bool_decide_eq_true_2. apply existsb_exists in E as (x & Hx & Ex).
        apply Z.eqb_eq in Ex. subst x. now apply list_elem_of_In.
      - apply bool_decide_eq_false_2. intros Hin. apply list_elem_of_In in Hin.
        assert (existsb (Z.eqb dow) extras = true)
          by (apply existsb_exists; exists dow; split; [exact Hin | apply Z.eqb_refl]).
        congruence. }
  cbn [fmap option_fmap option_map map nth].
  rewrite !cell_text_centered, !cell_text_plain. reflexivity.
Qed.

Lemma C4_witness :
  exists T : Table,
    build_table 9 2025 ["6:30"; "13:00"] ["16:00"; "19:00"] [1; 3] None None []
      = (Ret tt, [BTable T; closing_paragraph])
    /\ row_texts T 2 = Some ["1"; "6:30"; ""; "13:00"; ""; "---"; ""; "---"; ""]
    /\ row_texts T 3 = Some ["2"; "6:30"; ""; "13:00"; ""; "16:00"; ""; "19:00"; ""].
Proof.
  destruct (C4_regular_workday_row [] "6:30" "13:00" "16:00" "19:00" [1; 3] None None
              9 2025) as (T & Hrun & Hrow); [lia | lia |].
  exists T. split; [exact Hrun|]. split.
  - apply (Hrow 1 0); [vm_compute; split; discriminate | reflexivity | lia
                      | apply not_elem_of_empty | reflexivity].
  - apply (Hrow 2 1); [vm_compute; split; discriminate | reflexivity | lia
                      | apply not_elem_of_empty | reflexivity].
Defined.

(** C10. Whatever the classification of a day (weekend, holiday, note or
    regular), column 0 of its row holds the decimal numeral of the day
    number, and nothing else. *)
Theorem C10_day_number_in_column_0
    (doc : Document) (hm0 hm1 ht0 ht1 : string) (extras : list Z)
    (notas : option (gmap Z string)) (fer : option (gset date)) (mes anio : Z) :
  1 <= mes <= 12 -> 1 <= anio <= 9999 ->
  exists T : Table,
    build_table mes anio [hm0; hm1] [ht0; ht1] extras notas fer doc
      = (Ret tt, doc ++ [BTable T; closing_paragraph])
    /\ forall d,
         1 <= d <= days_in_month anio mes ->
         exists row c0,
           t_rows T !! Z.to_nat (1 + d) = Some row
           /\ row !! 0%nat = Some c0
           /\ cell_text c0 = PyStr.str d
           /\ PyStr.int (cell_text c0) = Ret d.
Proof.
  intros Hm Hy.
  exists (sheet_table [hm0; hm1] [ht0; ht1] extras (default ∅ notas) (default ∅ fer) mes anio).
  split; [apply build_table_spec; cbn; lia|].
  intros d Hd. rewrite sheet_day_row by assumption.
  pose proof (days_in_month_range anio mes) as Hnd.
  assert (Hc0 : exists c0 rest,
             day_row [hm0; hm1] [ht0; ht1] extras (default ∅ notas) (default ∅ fer)
                     mes anio d = c0 :: rest /\ cell_text c0 = PyStr.str d).
  { unfold day_row, day_cells.
    repeat match goal with |- context [if ?b then _ else _] => destruct b end;
      cbn [map]; eexists _, _; (split; [reflexivity | apply cell_text_centered]). }
  destruct Hc0 as (c0 & rest & Erow & Etext).
  exists (c0 :: rest), c0. rewrite Erow, Etext.
  repeat split. apply int_str_day. lia.
Qed.

Lemma C10_witness :
  exists T : Table,
    build_table 2 2024 ["6:30"; "13:00"] ["16:00"; "19:00"] [1; 3] None None []
      = (Ret tt, [BTable T; closing_paragraph])
    /\ exists row c0, t_rows T !! 30%nat = Some row /\ row !! 0%nat = Some c0
                      /\ cell_text c0 = "29".
Proof.
  destruct (C10_day_number_in_column_0 [] "6:30" "13:00" "16:00" "19:00" [1; 3]
              None None 2 2024) as (T & Hrun & Hrow); [lia | lia |].
  exists T. split; [exact Hrun|].
  destruct (Hrow 29) as (row & c0 & H1 & H2 & H3 & _); [vm_compute; split; discriminate|].
  exists row, c0. repeat split; assumption.
Defined.

(** What the source leaves in the row of a holiday on a working day, and in
    the row of a day with a note: [fill_dashes] runs over columns 1 to 8
    after the label was written in column 1, so column 1 ends as dashes. *)
Lemma holiday_or_note_row
    (doc : Document) (hm0 hm1 ht0 ht1 : string) (extras : list Z)
    (notas : option (gmap Z string)) (fer : option (gset date)) (mes anio : Z) :
  1 <= mes <= 12 -> 1 <= anio <= 9999 ->
  exists T : Table,
    build_table mes anio [hm0; hm1] [ht0; ht1] extras notas fer doc
      = (Ret tt, doc ++ [BTable T; closing_paragraph])
    /\ forall d dow,
         1 <= d <= days_in_month anio mes ->
         Calendar.weekday anio mes d = Ret dow -> dow < 5 ->
         mkDate anio mes d ∈ default ∅ fer \/ truthy (default ∅ notas !! d) = true ->
         row_texts T (Z.to_nat (1 + d)) = Some (PyStr.str d :: dashes).
Proof.
  intros Hm Hy.
  exists (sheet_table [hm0; hm1] [ht0; ht1] extras (default ∅ notas) (default ∅ fer) mes anio).
  split; [apply build_table_spec; cbn; lia|].
  intros d dow Hd Hdow Hwk Hcase.
  rewrite calendar_weekday_ok in Hdow by assumption. injection Hdow as Hdow.
  unfold row_texts. rewrite sheet_day_row by assumption.
  unfold day_row, day_cells. rewrite Hdow.
  replace (5 <=? dow) with false by (symmetry; apply Z.leb_gt; exact Hwk).
  destruct (bool_decide (mkDate anio mes d ∈ default ∅ fer)) eqn:Efer.
  - cbn [fmap option_fmap option_map]. now rewrite texts_centered.
  - destruct Hcase as [Hin | Hnote].
    + apply bool_decide_eq_false_1 in Efer. contradiction.
    + rewrite Hnote. cbn [fmap option_fmap option_map]. now rewrite texts_centered.
Qed.

(** C3, the code at a failing input.  Monday 15 September 2025 is in the
    holiday set: the row is shaded as a holiday, but column 1 reads "---";
    the label "FERIADO" written there first has been overwritten. *)
Theorem C3_holiday_label_overwritten :
  exists T : Table,
    build_table 9 2025 ["6:30"; "13:00"] ["16:00"; "19:00"] [1; 3] None
                (Some {[mkDate 2025 9 15]}) []
      = (Ret tt, [BTable T; closing_paragraph])
    /\ Calendar.weekday 2025 9 15 = Ret 0
    /\ row_texts T 16 = Some ["15"; "---"; ""; "---"; ""; "---"; ""; "---"; ""]
    /\ row_shadings T 16 = Some (replicate 9 ["FFF2CC"]).
Proof.
  eexists. split; [rewrite build_table_spec by (cbn; lia); reflexivity|].
  split; [reflexivity|]. split; vm_compute; reflexivity.
Qed.

(** C5, the code at a failing input.  Tuesday 16 September 2025 has the note
    "LICENCIA": every column from 1 to 8 holds dashes or nothing, and the
    note text written in column 1 first has been overwritten. *)
Theorem C5_note_text_overwritten :
  exists T : Table,
    build_table 9 2025 ["6:30"; "13:00"] ["16:00"; "19:00"] [1; 3]
                (Some {[16 := "LICENCIA"]}) None []
      = (Ret tt, [BTable T; closing_paragraph])
    /\ Calendar.weekday 2025 9 16 = Ret 1
    /\ exists texts,
         row_texts T 17 = Some texts
         /\ texts = ["16"; "---"; ""; "---"; ""; "---"; ""; "---"; ""]
         /\ ~ In "LICENCIA" texts.
Proof.
  eexists. split; [rewrite build_table_spec by (cbn; lia); reflexivity|].
  split; [reflexivity|].
  eexists. split; [vm_compute; reflexivity|]. split; [reflexivity|].
  cbn. intros H. repeat (destruct H as [H | H]; [discriminate H|]). exact H.
Qed.







End Claims_sheet.

Section String_facts.
Import PyStr.

Lemma append_cons (c : ascii) (s t : string) : String c s +:+ t = String c (s +:+ t).
Proof. reflexivity. Qed.

Lemma append_nil_l (t : string) : "" +:+ t = t.
Proof. reflexivity. Qed.

Lemma append_assoc (s t u : string) : (s +:+ t) +:+ u = s +:+ (t +:+ u).
Proof.
  induction s as [|c s IH]; [reflexivity|].
  rewrite !append_cons. now rewrite IH.
Qed.

Lemma split_nonempty sep s : split sep s <> [].
Proof.
  destruct s as [|c s]; cbn [split]; [discriminate|].
  destruct (Ascii.eqb c sep); [discriminate|].
  destruct (split sep s); discriminate.
Qed.

Lemma join_cons sep p q rest :
  join sep (p :: q :: rest) = p +:+ String sep (join sep (q :: rest)).
Proof. reflexivity. Qed.

Lemma split_join sep s : join sep (split sep s) = s.
Proof.
  induction s as [|c s IH]; [reflexivity|].
  cbn [split]. pose proof (split_nonempty sep s) as Hne.
  destruct (Ascii.eqb c sep) eqn:E.
  - apply Ascii.eqb_eq in E. subst c.
    destruct (split sep s) as [|q rest]; [contradiction|].
    rewrite join_cons, IH. reflexivity.
  - destruct (split sep s) as [|q rest]; [contradiction|].
    destruct rest as [|q' rest].
    + cbn [join] in *. now rewrite IH.
    + rewrite join_cons in *. rewrite append_cons, IH. reflexivity.
Qed.

Lemma split_free sep s : Forall (fun p => contains sep p = false) (split sep s).
Proof.
  induction s as [|c s IH]; [repeat constructor|].
  cbn [split]. destruct (Ascii.eqb c sep) eqn:E.
  - constructor; [reflexivity | exact IH].
  - destruct (split sep s) as [|q rest]; [repeat constructor; cbn; now rewrite E|].
    inversion IH as [|? ? Hq Hrest]; subst.
    constructor; [cbn; now rewrite E, Hq | exact Hrest].
Qed.

Lemma split_free_id sep p : contains sep p = false -> split sep p = [p].
Proof.
  induction p as [|c p IH]; [reflexivity|].
  cbn [contains split]. intros H. apply orb_false_iff in H as [E Hp].
  rewrite E, IH by exact Hp. reflexivity.
Qed.

Lemma split_app sep p s :
  contains sep p = false -> split sep (p +:+ String sep s) = p :: split sep s.
Proof.
  induction p as [|c p IH]; intros H.
  - rewrite append_nil_l. cbn [split]. now rewrite Ascii.eqb_refl.
  - cbn [contains] in H. apply orb_false_iff in H as [E Hp].
    rewrite append_cons. cbn [split]. rewrite E, IH by exact Hp. reflexivity.
Qed.

Lemma split_of_join sep l :
  l <> [] -> Forall (fun p => contains sep p = false) l -> split sep (join sep l) = l.
Proof.
  induction l as [|p l IH]; [contradiction|].
  intros _ H. inversion H as [|? ? Hp Hl]; subst.
  destruct l as [|q rest].
  - cbn [join]. now apply split_free_id.
  - rewrite join_cons, split_app by exact Hp. f_equal. apply IH; [discriminate | exact Hl].
Qed.

(** [split] yields exactly two parts when the text is two separator-free
    parts around one separator. *)
Lemma split_two sep s a b :
  split sep s = [a; b] <->
  s = a +:+ String sep b /\ contains sep a = false /\ contains sep b = false.
Proof.
  split.
  - intros E. pose proof (split_join sep s) as J. pose proof (split_free sep s) as F.
    rewrite E in J, F. cbn [join] in J. split; [now rewrite <- J|].
    inversion F as [|? ? Ha F']. inversion F' as [|? ? Hb _]. split; assumption.
  - intros (-> & Ha & Hb). rewrite split_app by exact Ha.
    now rewrite split_free_id.
Qed.

Lemma split_three sep s a b c :
  split sep s = [a; b; c] <->
  s = a +:+ String sep (b +:+ String sep c)
  /\ contains sep a = false /\ contains sep b = false /\ contains sep c = false.
Proof.
  split.
  - intros E. pose proof (split_join sep s) as J. pose proof (split_free sep s) as F.
    rewrite E in J, F. cbn [join] in J. split; [now rewrite <- J|].
    inversion F as [|? ? Ha F1]. inversion F1 as [|? ? Hb F2].
    inversion F2 as [|? ? Hc _]. repeat split; assumption.
  - intros (-> & Ha & Hb & Hc). rewrite !split_app by assumption.
    now rewrite split_free_id.
Qed.

(** A separator-free token appended after a separator is one more part. *)
Lemma split_snoc sep s tok :
  contains sep tok = false ->
  split sep (s +:+ String sep tok) = split sep s ++ [tok].
Proof.
  intros Htok. induction s as [|c s IH].
  - rewrite append_nil_l. cbn [split]. rewrite Ascii.eqb_refl.
    now rewrite split_free_id.
  - rewrite append_cons. cbn [split]. rewrite IH.
    destruct (Ascii.eqb c sep); [reflexivity|].
    pose proof (split_nonempty sep s) as Hne.
    destruct (split sep s) as [|q rest]; [contradiction|]. reflexivity.
Qed.

(** [split(sep, 1)] cuts at the first separator. *)
Lemma split1_cut sep k rest :
  contains sep k = false -> split1 sep (k +:+ String sep rest) = [k; rest].
Proof.
  induction k as [|c k IH]; intros H.
  - rewrite append_nil_l. cbn [split1]. now rewrite Ascii.eqb_refl.
  - cbn [contains] in H. apply orb_false_iff in H as [E Hk].
    rewrite append_cons. cbn [split1]. rewrite E, IH by exact Hk. reflexivity.
Qed.

Lemma contains_cut sep s :
  contains sep s = true ->
  exists k rest, s = k +:+ String sep rest /\ contains sep k = false.
Proof.
  induction s as [|c s IH]; [discriminate|].
  cbn [contains]. destruct (Ascii.eqb c sep) eqn:E.
  - intros _. apply Ascii.eqb_eq in E. subst c. exists "", s. split; reflexivity.
  - cbn [orb]. intros H. destruct (IH H) as (k & rest & -> & Hk).
    exists (String c k), rest. split; [reflexivity|]. cbn [contains]. now rewrite E, Hk.
Qed.

Lemma contains_app_sep sep k rest : contains sep (k +:+ String sep rest) = true.
Proof.
  induction k as [|c k IH].
  - rewrite append_nil_l. cbn [contains]. now rewrite Ascii.eqb_refl.
  - rewrite append_cons. cbn [contains]. rewrite IH. apply orb_true_r.
Qed.

(** Cutting at the first separator is unambiguous. *)
Lemma cut_unique sep k rest k' rest' :
  contains sep k = false -> contains sep k' = false ->
  k +:+ String sep rest = k' +:+ String sep rest' -> k = k' /\ rest = rest'.
Proof.
  intros Hk Hk' E.
  assert (H : split1 sep (k +:+ String sep rest) = split1 sep (k' +:+ String sep rest'))
    by now rewrite E.
  rewrite !split1_cut in H by assumption. injection H as -> ->. split; reflexivity.
Qed.

End String_facts.

Section Characters.
Import PyStr.

Lemma first_char_nonempty (c : ascii) (s : string) :
  exists n r, first_char (String c s) = Some (n, r).
Proof.
  unfold first_char. cbv zeta.
  repeat match goal with
         | |- context [if ?b then _ else _] => destruct b
         | |- context [match ?x with EmptyString => _ | String _ _ => _ end] => destruct x
         end; eexists _, _; reflexivity.
Qed.

Lemma first_char_shorter (s : string) (n : N) (r : string) :
  first_char s = Some (n, r) -> (String.length r < String.length s)%nat.
Proof.
  unfold first_char. cbv zeta.
  repeat match goal with
         | |- context [if ?b then _ else _] => destruct b
         | |- context [match ?x with EmptyString => _ | String _ _ => _ end] => destruct x
         end; try discriminate; intros [= <- <-]; cbn [String.length]; lia.
Qed.

Lemma chars_fuel_enough (k1 k2 : nat) (s : string) :
  (String.length s <= k1)%nat -> (String.length s <= k2)%nat ->
  chars_fuel k1 s = chars_fuel k2 s.
Proof.
  revert k2 s. induction k1 as [|k1 IH]; intros k2 s H1 H2.
  - destruct s; [|cbn in H1; lia]. destruct k2; reflexivity.
  - destruct k2 as [|k2].
    + destruct s; [reflexivity | cbn in H2; lia].
    + cbn [chars_fuel]. destruct (first_char s) as [[n r]|] eqn:E; [|reflexivity].
      apply first_char_shorter in E. f_equal. apply IH; lia.
Qed.

Lemma code_points_nil : code_points "" = [].
Proof. reflexivity. Qed.

Lemma code_points_step (s : string) (n : N) (r : string) :
  first_char s = Some (n, r) -> code_points s = n :: code_points r.
Proof.
  intros E. unfold code_points, chars.
  destruct s as [|c s]; [discriminate|]. cbn [String.length chars_fuel]. rewrite E.
  cbn [map fst]. f_equal. f_equal.
  apply first_char_shorter in E. cbn [String.length] in E.
  apply chars_fuel_enough; lia.
Qed.

Lemma all_space_step (s : string) (n : N) (r : string) :
  first_char s = Some (n, r) -> all_space s = isspace_cp n && all_space r.
Proof. intros E. unfold all_space. now rewrite (code_points_step s n r E). Qed.

Lemma lstrip_fuel_enough (k1 k2 : nat) (s : string) :
  (String.length s <= k1)%nat -> (String.length s <= k2)%nat ->
  lstrip_fuel k1 s = lstrip_fuel k2 s.
Proof.
  revert k2 s. induction k1 as [|k1 IH]; intros k2 s H1 H2.
  - destruct s; [|cbn in H1; lia]. destruct k2; reflexivity.
  - destruct k2 as [|k2].
    + destruct s; [reflexivity | cbn in H2; lia].
    + cbn [lstrip_fuel]. destruct (first_char s) as [[n r]|] eqn:E; [|reflexivity].
      apply first_char_shorter in E. destruct (isspace_cp n); [|reflexivity].
      apply IH; lia.
Qed.

Lemma lstrip_step (s : string) (n : N) (r : string) :
  first_char s = Some (n, r) -> lstrip s = if isspace_cp n then lstrip r else s.
Proof.
  intros E. unfold lstrip.
  destruct s as [|c s]; [discriminate|]. cbn [String.length lstrip_fuel]. rewrite E.
  destruct (isspace_cp n); [|reflexivity].
  apply first_char_shorter in E. cbn [String.length] in E.
  apply lstrip_fuel_enough; lia.
Qed.

Lemma isspace_cp_small (n : N) : isspace_cp n = true -> (n <= 0x3000)%N.
Proof.
  unfold isspace_cp, in_ranges, space_ranges. cbn [existsb fst snd]. intros H.
  repeat (apply orb_true_iff in H as [H | H];
          [apply andb_true_iff in H as [_ H]; apply N.leb_le in H; lia|]).
  discriminate H.
Qed.

(** A whitespace character at the head of a text is read the same whatever
    follows the text. *)
Lemma first_char_space_app (a b : string) (n : N) (r : string) :
  first_char a = Some (n, r) -> isspace_cp n = true ->
  first_char (a +:+ b) = Some (n, r +:+ b).
Proof.
  intros H Hs.
  assert (Hst : forall c r', Some (n, r) = Some ((0xDC00 + code c)%N, r') -> False).
  { intros c r' [= -> _]. apply isspace_cp_small in Hs. lia. }
  destruct a as [|c0 a]; [discriminate|]. rewrite append_cons.
  unfold first_char in *. cbv zeta in *.
  destruct (code c0 <? 128)%N; [injection H as <- <-; reflexivity|].
  destruct (code c0 <? 192)%N; [exfalso; eapply Hst; symmetry; exact H|].
  destruct a as [|c1 a]; [exfalso; eapply Hst; symmetry; exact H|]. rewrite append_cons.
  destruct (is_cont c1); cbn [negb] in *; [|exfalso; eapply Hst; symmetry; exact H].
  destruct (code c0 <? 224)%N; [injection H as <- <-; reflexivity|].
  destruct a as [|c2 a]; [exfalso; eapply Hst; symmetry; exact H|]. rewrite append_cons.
  destruct (is_cont c2); cbn [negb] in *; [|exfalso; eapply Hst; symmetry; exact H].
  destruct (code c0 <? 240)%N; [injection H as <- <-; reflexivity|].
  destruct a as [|c3 a]; [exfalso; eapply Hst; symmetry; exact H|]. rewrite append_cons.
  destruct (is_cont c3); cbn [negb] in *; [|exfalso; eapply Hst; symmetry; exact H].
  injection H as <- <-. reflexivity.
Qed.

Lemma string_length_ind (P : string -> Prop) :
  (forall s, (forall t, (String.length t < String.length s)%nat -> P t) -> P s) ->
  forall s, P s.
Proof.
  intros Hind s. remember (String.length s) as k eqn:Ek.
  revert s Ek. induction k as [k IH] using lt_wf_ind. intros s ->.
  apply Hind. intros t Ht. exact (IH _ Ht t eq_refl).
Qed.

Lemma all_space_app (a b : string) :
  all_space a = true -> all_space b = true -> all_space (a +:+ b) = true.
Proof.
  intros Ha Hb. induction a as [a IH] using string_length_ind.
  destruct a as [|c a]; [now rewrite append_nil_l|].
  destruct (first_char_nonempty c a) as (n & r & E).
  rewrite (all_space_step _ _ _ E) in Ha. apply andb_true_iff in Ha as [Hn Hr].
  rewrite (all_space_step _ _ _ (first_char_space_app _ b _ _ E Hn)), Hn.
  apply IH; [now apply first_char_shorter in E | exact Hr].
Qed.

(** What [rstrip] takes away is whitespace. *)
Lemma rstrip_split (s : string) :
  exists w, s = rstrip s +:+ w /\ all_space w = true.
Proof.
  induction s as [|c s (w & Ew & Hw)].
  - exists "". split; reflexivity.
  - cbn [rstrip]. destruct (all_space (String c s)) eqn:E.
    + exists (String c s). split; [now rewrite append_nil_l | exact E].
    + exists w. split; [|exact Hw]. rewrite append_cons. now rewrite <- Ew.
Qed.

Lemma rstrip_idem (s : string) : rstrip (rstrip s) = rstrip s.
Proof.
  induction s as [|c s IH]; [reflexivity|].
  cbn [rstrip]. destruct (all_space (String c s)) eqn:E; [reflexivity|].
  cbn [rstrip]. rewrite IH.
  destruct (all_space (String c (rstrip s))) eqn:E'; [|reflexivity].
  exfalso. destruct (rstrip_split s) as (w & Ew & Hw).
  pose proof (all_space_app _ _ E' Hw) as A.
  rewrite append_cons, <- Ew in A. congruence.
Qed.

Lemma first_char_prefix (s : string) (n : N) (r : string) :
  first_char s = Some (n, r) -> exists p, s = p +:+ r.
Proof.
  unfold first_char. cbv zeta.
  repeat match goal with
         | |- context [if ?b then _ else _] => destruct b
         | |- context [match ?x with EmptyString => _ | String _ _ => _ end] => destruct x
         end; try discriminate; intros [= <- <-];
    match goal with
    | |- exists p, String ?a ?r = _ => exists (String a ""); reflexivity
    | |- exists p, String ?a (String ?b ?r) = _ => exists (String a (String b "")); reflexivity
    | |- exists p, String ?a (String ?b (String ?c ?r)) = _ =>
        exists (String a (String b (String c ""))); reflexivity
    | |- exists p, String ?a (String ?b (String ?c (String ?d ?r))) = _ =>
        exists (String a (String b (String c (String d "")))); reflexivity
    end.
Qed.

(** What [lstrip] takes away is in front, and what is left does not start
    with whitespace. *)
Lemma lstrip_split (s : string) :
  exists l, s = l +:+ lstrip s
            /\ forall n r, first_char (lstrip s) = Some (n, r) -> isspace_cp n = false.
Proof.
  induction s as [s IH] using string_length_ind.
  destruct s as [|c s].
  - exists "". split; [reflexivity | discriminate].
  - destruct (first_char_nonempty c s) as (n & r & E).
    rewrite (lstrip_step _ _ _ E). destruct (isspace_cp n) eqn:Hn.
    + destruct (IH r (first_char_shorter _ _ _ E)) as (l & El & Hl).
      pose proof (first_char_prefix (String c s) n r E) as (p & Ep).
      exists (p +:+ l). split; [|exact Hl].
      rewrite append_assoc, <- El. exact Ep.
    + exists "". split; [reflexivity|].
      intros n' r' E'. rewrite E in E'. injection E' as <- _. exact Hn.
Qed.

Lemma contains_app (sep : ascii) (a b : string) :
  contains sep (a +:+ b) = contains sep a || contains sep b.
Proof.
  induction a as [|c a IH]; [now rewrite append_nil_l|].
  rewrite append_cons. cbn [contains]. rewrite IH. apply orb_assoc.
Qed.

(** Trimming twice is trimming once. *)
Lemma strip_idem (s : string) : strip (strip s) = strip s.
Proof.
  unfold strip.
  destruct (lstrip_split s) as (l & _ & Hl).
  set (t := lstrip s) in *.
  assert (E : lstrip (rstrip t) = rstrip t).
  { destruct (rstrip t) as [|c p] eqn:Ep; [reflexivity|].
    destruct (first_char_nonempty c p) as (n & r & E).
    rewrite (lstrip_step _ _ _ E).
    destruct (isspace_cp n) eqn:Hn; [|reflexivity].
    exfalso. destruct (rstrip_split t) as (w & Ew & _). rewrite Ep in Ew.
    pose proof (first_char_space_app _ w _ _ E Hn) as E'. rewrite <- Ew in E'.
    rewrite (Hl _ _ E') in Hn. discriminate. }
  rewrite E. apply rstrip_idem.
Qed.

(** A trimmed text is a piece of the text. *)
Lemma strip_split (s : string) : exists l w, s = l +:+ strip s +:+ w.
Proof.
  unfold strip. destruct (lstrip_split s) as (l & El & _).
  destruct (rstrip_split (lstrip s)) as (w & Ew & _).
  exists l, w. now rewrite <- Ew.
Qed.

Lemma strip_free (sep : ascii) (s : string) :
  contains sep s = false -> contains sep (strip s) = false.
Proof.
  intros H. destruct (strip_split s) as (l & w & E). rewrite E in H.
  rewrite !contains_app in H.
  apply orb_false_iff in H as [_ H]. now apply orb_false_iff in H as [H _].
Qed.

End Characters.

Section Parse_horas.
Import PyStr Gui Format.

Lemma outcome_bind_run {A B} (m : outcome A) (k : A -> outcome B) :
  (m ≫= k) = obind m k.
Proof. reflexivity. Qed.

(** Whatever [int] raises is a [ValueError]. *)
Lemma int_raises_ValueError x e : int x = Raise e -> exists msg, e = ValueError msg.
Proof.
  unfold int.
  destruct (lstrip_by c_isspace (transform_decimal_and_space x)) as [|c r].
  - cbn. intros [= <-]. eexists. reflexivity.
  - repeat match goal with
           | |- context [if ?b then _ else _] => destruct b
           | |- context [match scan_digits ?a ?b ?c ?s with _ => _ end] =>
               destruct (scan_digits a b c s) as [[[? ?] ?]|]
           end; try discriminate; intros [= <-]; eexists; reflexivity.
Qed.

Lemma check_hhmm_ok part : check_hhmm part = Ret tt <-> hhmm_ok part.
Proof.
  unfold check_hhmm, hhmm_ok. split.
  - destruct (split ":" part) as [|hh [|mm [|x rest]]] eqn:E; try discriminate.
    apply split_two in E as (-> & Fh & Fm).
    destruct (isdigit hh && isdigit mm) eqn:Ed; cbn [negb]; [|discriminate].
    apply andb_true_iff in Ed as [Hh Hm].
    rewrite !outcome_bind_run.
    destruct (int hh) as [h|] eqn:Eh; [|discriminate]. cbn [obind].
    destruct ((0 <=? h) && (h <=? 23)) eqn:Rh.
    + rewrite outcome_bind_run.
      destruct (int mm) as [m|] eqn:Em; [|discriminate]. cbn [obind].
      destruct ((0 <=? m) && (m <=? 59)) eqn:Rm; cbn [negb]; [|discriminate].
      intros _. exists hh, mm, h, m. apply andb_true_iff in Rh, Rm.
      unfold free_of. repeat split; try assumption; lia.
    + cbn [obind negb]. discriminate.
  - intros (hh & mm & h & m & -> & Fh & Fm & Hh & Hm & Eh & Em & Rh & Rm).
    assert (E : split ":" (hh +:+ String ":" mm) = [hh; mm]).
    { apply split_two. repeat split; assumption. }
    rewrite E, Hh, Hm. cbn [andb negb].
    rewrite !outcome_bind_run, Eh. cbn [obind].
    replace ((0 <=? h) && (h <=? 23)) with true by (symmetry; apply andb_true_iff; lia).
    rewrite outcome_bind_run, Em. cbn [obind].
    replace ((0 <=? m) && (m <=? 59)) with true by (symmetry; apply andb_true_iff; lia).
    reflexivity.
Qed.

(** How a part is rejected: with its own text at the end of the message, or
    with what [int] raises on a segment that [isdigit] lets through. *)
Lemma check_hhmm_cases part :
  check_hhmm part = Ret tt
  \/ check_hhmm part = Raise (ValueError ("Hora inválida: " +:+ part))
  \/ check_hhmm part = Raise (ValueError ("Hora fuera de rango: " +:+ part))
  \/ exists seg e,
       In seg (split ":" part) /\ isdigit seg = true
       /\ int seg = Raise e /\ check_hhmm part = Raise e.
Proof.
  unfold check_hhmm.
  destruct (split ":" part) as [|hh [|mm [|x rest]]] eqn:E; try (right; left; reflexivity).
  destruct (isdigit hh && isdigit mm) eqn:Ed; cbn [negb]; [|right; left; reflexivity].
  apply andb_true_iff in Ed as [Hh Hm].
  rewrite !outcome_bind_run.
  destruct (int hh) as [h|e] eqn:Eh; cbn [obind].
  - destruct ((0 <=? h) && (h <=? 23)).
    + rewrite outcome_bind_run. destruct (int mm) as [m|e] eqn:Em; cbn [obind].
      * destruct ((0 <=? m) && (m <=? 59)); cbn [negb]; auto.
      * right. right. right. exists mm, e. cbn [In]. auto.
    + cbn [obind negb]. auto.
  - right. right. right. exists hh, e. cbn [In]. auto.
Qed.

Lemma check_hhmm_raises part e :
  check_hhmm part = Raise e -> exists msg, e = ValueError msg.
Proof.
  intros H. destruct (check_hhmm_cases part) as [O | [O | [O | (seg & e' & _ & _ & Hint & O)]]];
    rewrite O in H; try discriminate; injection H as <-; try (eexists; reflexivity).
  exact (int_raises_ValueError seg e' Hint).
Qed.

(** The two stages of [_parse_horas]: the shape test, then the two parts. *)
Lemma parse_horas_stages text :
  (~ two_parts_with_colon text
   /\ _parse_horas text = Raise (ValueError formato_invalido))
  \/ (exists a b,
        text = a +:+ String "," b /\ free_of "," a /\ free_of "," b
        /\ contains ":" (strip a) = true /\ contains ":" (strip b) = true
        /\ _parse_horas text =
             obind (check_hhmm (strip a)) (fun _ =>
             obind (check_hhmm (strip b)) (fun _ => Ret (strip a, strip b)))).
Proof.
  unfold _parse_horas.
  destruct (split "," text) as [|a [|b [|c rest]]] eqn:E.
  - left. split; [|reflexivity].
    intros (a & b & -> & Ha & Hb & _). rewrite split_app, split_free_id in E by assumption.
    discriminate.
  - left. split; [|reflexivity].
    intros (a' & b & -> & Ha & Hb & _). rewrite split_app, split_free_id in E by assumption.
    discriminate.
  - pose proof E as E'. apply split_two in E' as (-> & Ha & Hb).
    cbn [map length Nat.eqb negb orb existsb].
    destruct (contains ":" (strip a)) eqn:Ca; cbn [negb orb].
    + destruct (contains ":" (strip b)) eqn:Cb; cbn [negb orb].
      * right. exists a, b. repeat split; try assumption.
      * left. split; [|reflexivity].
        intros (a' & b' & E2 & Ha' & Hb' & _ & Cb').
        destruct (cut_unique "," a b a' b' Ha Ha' E2) as [-> ->]. congruence.
    + left. split; [|reflexivity].
      intros (a' & b' & E2 & Ha' & Hb' & Ca' & _).
      destruct (cut_unique "," a b a' b' Ha Ha' E2) as [-> ->]. congruence.
  - left. split; [|reflexivity].
    intros (a' & b' & -> & Ha & Hb & _). rewrite split_app, split_free_id in E by assumption.
    discriminate.
Qed.

Lemma hhmm_ok_colon part : hhmm_ok part -> contains ":" part = true.
Proof. intros (hh & mm & h & m & -> & _). apply contains_app_sep. Qed.

(** What [_parse_horas] accepts, it returns trimmed. *)
Lemma parse_horas_accepts text h1 h2 :
  time_pair_ok text h1 h2 -> _parse_horas text = Ret (h1, h2).
Proof.
  intros (a & b & -> & Ha & Hb & -> & -> & O1 & O2).
  destruct (parse_horas_stages (a +:+ String "," b))
    as [[N _] | (a' & b' & Et & Ha' & Hb' & _ & _ & E)].
  - exfalso. apply N. exists a, b. repeat split; try assumption; now apply hhmm_ok_colon.
  - destruct (cut_unique "," a b a' b' Ha Ha' Et) as [<- <-].
    rewrite E. apply check_hhmm_ok in O1, O2. now rewrite O1, O2.
Qed.

Lemma parse_horas_returns text h1 h2 :
  _parse_horas text = Ret (h1, h2) -> time_pair_ok text h1 h2.
Proof.
  intros H.
  destruct (parse_horas_stages text) as [[_ E] | (a & b & Et & Ha & Hb & Ca & Cb & E)];
    [congruence|].
  rewrite E in H.
  destruct (check_hhmm (strip a)) as [[]|] eqn:E1; [|discriminate].
  destruct (check_hhmm (strip b)) as [[]|] eqn:E2; [|discriminate].
  cbn [obind] in H. injection H as <- <-.
  exists a, b. repeat split; try assumption; now apply check_hhmm_ok.
Qed.

(** Whatever [_parse_horas] raises is a [ValueError]. *)
Lemma parse_horas_raises text e :
  _parse_horas text = Raise e -> exists msg, e = ValueError msg.
Proof.
  intros H.
  destruct (parse_horas_stages text) as [[_ E] | (a & b & _ & _ & _ & _ & _ & E)];
    rewrite E in H; [injection H as <-; eexists; reflexivity|].
  destruct (check_hhmm (strip a)) as [[]|e1] eqn:E1; cbn [obind] in H.
  - destruct (check_hhmm (strip b)) as [[]|e2] eqn:E2; cbn [obind] in H; [discriminate|].
    injection H as <-. exact (check_hhmm_raises _ _ E2).
  - injection H as <-. exact (check_hhmm_raises _ _ E1).
Qed.

(** C6, as amended.  [_parse_horas] returns the trimmed pair (entry, exit)
    exactly when the text is two comma-separated parts, each of them, once
    trimmed, two numeric segments around one colon with the hour in 0..23
    and the minute in 0..59; a segment is numeric when [isdigit] is true of
    it and [int] reads it.  Every other text raises a [ValueError]: with
    the fixed message [formato_invalido] when the text is not two parts with
    a colon each; otherwise for a rejected part, with a message that ends
    with that part or, when a segment of the part passes [isdigit] and [int]
    refuses it, with the exception of [int].  The samples behave as listed. *)
Theorem C6_parse_horas_validates :
  (forall text h1 h2, _parse_horas text = Ret (h1, h2) <-> time_pair_ok text h1 h2)
  /\ (forall text e, _parse_horas text = Raise e -> is_ValueError e = true)
  /\ (forall text, ~ two_parts_with_colon text ->
        _parse_horas text = Raise (ValueError formato_invalido))
  /\ (forall text, two_parts_with_colon text ->
        (forall h1 h2, ~ time_pair_ok text h1 h2) ->
        exists part,
          In part (map strip (split "," text))
          /\ ~ hhmm_ok part
          /\ (_parse_horas text = Raise (ValueError ("Hora inválida: " +:+ part))
              \/ _parse_horas text = Raise (ValueError ("Hora fuera de rango: " +:+ part))
              \/ exists seg e,
                   In seg (split ":" part) /\ isdigit seg = true
                   /\ int seg = Raise e /\ _parse_horas text = Raise e))
  /\ _parse_horas "06:30,13:00" = Ret ("06:30", "13:00")
  /\ _parse_horas "6:30-13:00" = Raise (ValueError formato_invalido)
  /\ _parse_horas "25:00,13:00" = Raise (ValueError "Hora fuera de rango: 25:00")
  /\ _parse_horas "٣:30,13:00" = Ret ("٣:30", "13:00")
  /\ _parse_horas "²:30,13:00"
     = Raise (ValueError "invalid literal for int() with base 10: '²'").
Proof.
  split; [|split; [|split; [|split; [|repeat split; vm_compute; reflexivity]]]].
  - intros text h1 h2. split; [apply parse_horas_returns | apply parse_horas_accepts].
  - intros text e H. destruct (parse_horas_raises text e H) as [msg ->]. reflexivity.
  - intros text N. destruct (parse_horas_stages text) as [[_ E] | (a & b & Et & Ha & Hb & Ca & Cb & E)];
      [exact E|].
    exfalso. apply N. exists a, b. repeat split; assumption.
  - intros text H Hno.
    destruct (parse_horas_stages text) as [[N E] | (a & b & -> & Ha & Hb & Ca & Cb & E)].
    + exfalso. destruct H as (a & b & Et & Ha & Hb & Ca & Cb).
      apply N. exists a, b. repeat split; assumption.
    + rewrite split_app, split_free_id by assumption. cbn [map In].
      destruct (check_hhmm_cases (strip a)) as [O1 | B1].
      * destruct (check_hhmm_cases (strip b)) as [O2 | B2].
        { exfalso. apply (Hno (strip a) (strip b)).
          exists a, b. repeat split; try assumption; now apply check_hhmm_ok. }
        exists (strip b). split; [auto|]. split.
        { intros O. apply check_hhmm_ok in O.
          destruct B2 as [B2 | [B2 | (seg & e & _ & _ & _ & B2)]]; congruence. }
        rewrite E, O1. cbn [obind].
        destruct B2 as [-> | [-> | (seg & e & Hseg & Hd & Hi & ->)]]; cbn [obind]; auto.
        right. right. exists seg, e. auto.
      * exists (strip a). split; [auto|]. split.
        { intros O. apply check_hhmm_ok in O.
          destruct B1 as [B1 | [B1 | (seg & e & _ & _ & _ & B1)]]; congruence. }
        rewrite E.
        destruct B1 as [-> | [-> | (seg & e & Hseg & Hd & Hi & ->)]]; cbn [obind]; auto.
        right. right. exists seg, e. auto.
Qed.

(** C6 as stated fails: the text "6:30-13:00" is rejected with the fixed
    message, in which the offending text does not occur. *)
Lemma C6_counterexample :
  _parse_horas "6:30-13:00" = Raise (ValueError formato_invalido)
  /\ occurs "6:30-13:00" formato_invalido = false
  /\ occurs "-" formato_invalido = false.
Proof. repeat split. Qed.

End Parse_horas.

Section Parse_dates.
Import PyStr Planilla Format.

Lemma unpack3_int_Ret segs y m d :
  unpack3_int segs = Ret (y, m, d) <->
  exists a b c, segs = [a; b; c] /\ int a = Ret y /\ int b = Ret m /\ int c = Ret d.
Proof.
  unfold unpack3_int. split.
  - destruct segs as [|a [|b [|c [|x rest]]]];
      cbn [foldr]; unfold mbind, outcome_bind;
      repeat match goal with
             | |- context [obind (int ?s)] => destruct (int s) eqn:?; cbn [obind]
             end;
      try discriminate.
    intros [= -> -> ->]. exists a, b, c. repeat split; assumption.
  - intros (a & b & c & -> & Ea & Eb & Ec).
    unfold mbind, outcome_bind. rewrite Ea. cbn [obind]. rewrite Eb. cbn [obind].
    rewrite Ec. reflexivity.
Qed.

(** The [try] body succeeds on a token exactly when the token is a date in
    the sense of the specification. *)
Lemma parse_date_token_iff tok dt :
  parse_date_token tok = Ret dt <-> date_token tok dt.
Proof.
  unfold parse_date_token, date_token. rewrite outcome_bind_run. split.
  - destruct (unpack3_int (split "-" tok)) as [[[y m] d]|] eqn:E; [|discriminate].
    cbn [obind]. apply unpack3_int_Ret in E as (a & b & c & E & Ea & Eb & Ec).
    apply split_three in E as (-> & Fa & Fb & Fc).
    intros H. apply date_new_inv in H as (-> & Hy & Hm & Hd).
    exists a, b, c, y, m, d. unfold free_of. repeat split; first [assumption | lia].
  - intros (a & b & c & y & m & d & -> & Fa & Fb & Fc & Ea & Eb & Ec & Hy & Hm & Hd & ->).
    assert (E : unpack3_int (split "-" (a +:+ String "-" (b +:+ String "-" c)))
                = Ret (y, m, d)).
    { apply unpack3_int_Ret. exists a, b, c. repeat split; try assumption.
      apply split_three. repeat split; assumption. }
    rewrite E. cbn [obind]. now apply date_new_ok.
Qed.

Lemma date_fold toks : forall (out : gset date) dt,
  dt ∈ foldl date_step out toks <->
  dt ∈ out \/ exists tok, In tok toks /\ parse_date_token (strip tok) = Ret dt.
Proof.
  induction toks as [|tok toks IH]; intros out dt; cbn [foldl].
  - split; [auto|]. intros [H | (tok & [] & _)]. exact H.
  - rewrite IH. unfold date_step.
    destruct (parse_date_token (strip tok)) as [dt'|e] eqn:E.
    + rewrite elem_of_union, elem_of_singleton. split.
      * intros [[H | ->] | (t & Ht & Et)]; [auto | right; exists tok; cbn; auto
                                           | right; exists t; cbn; auto].
      * intros [H | (t & [<- | Ht] & Et)]; [auto | left; right; congruence
                                           | right; exists t; auto].
    + split.
      * intros [H | (t & Ht & Et)]; [auto | right; exists t; cbn; auto].
      * intros [H | (t & [<- | Ht] & Et)]; [auto | congruence | right; exists t; auto].
Qed.

Lemma parse_date_list_fold text :
  parse_date_list (Some text) = foldl date_step ∅ (split "," text).
Proof.
  destruct text as [|c text]; [|reflexivity].
  cbn [parse_date_list split foldl]. unfold date_step. reflexivity.
Qed.

(** C7.  [parse_date_list] never raises (it is a total function to sets);
    absent or empty text gives the empty set; a date is in the result
    exactly when one of the comma-separated tokens, trimmed, is three
    numeric segments (segments that [int] reads) that name that calendar
    date, so tokens with another number of segments, a non-numeric segment
    or an impossible date contribute nothing; and the sample text gives its
    two dates.  Trimming and reading numbers are those of the runtime: a
    token after a no-break space is read as well. *)
Theorem C7_parse_date_list_skips_malformed :
  parse_date_list None = ∅
  /\ parse_date_list (Some "") = ∅
  /\ (forall text dt,
        dt ∈ parse_date_list (Some text) <->
        exists tok, In tok (split "," text) /\ date_token (strip tok) dt)
  /\ (forall text tok,
        free_of "," tok -> (forall dt, ~ date_token (strip tok) dt) ->
        parse_date_list (Some (text +:+ String "," tok)) = parse_date_list (Some text))
  /\ parse_date_list (Some "2025-07-09,bad,2025-07-19")
     = {[mkDate 2025 7 9; mkDate 2025 7 19]}
  /\ parse_date_list (Some ("2025-07-09," +:+ String "194" (String "160" "2025-07-19")))
     = {[mkDate 2025 7 9; mkDate 2025 7 19]}.
Proof.
  split; [reflexivity|]. split; [reflexivity|]. split; [|split; [|split]].
  - intros text dt. rewrite parse_date_list_fold, date_fold. split.
    + intros [H | (tok & Ht & E)]; [now apply not_elem_of_empty in H|].
      exists tok. split; [exact Ht | now apply parse_date_token_iff].
    + intros (tok & Ht & D). right. exists tok. split; [exact Ht|].
      now apply parse_date_token_iff.
  - intros text tok Hfree Hbad.
    apply set_eq. intros dt. rewrite !parse_date_list_fold, !date_fold.
    rewrite (split_snoc "," text tok Hfree). split.
    + intros [H | (t & Ht & E)]; [auto|]. apply in_app_or in Ht as [Ht | [<- | []]].
      * right. eauto.
      * exfalso. apply (Hbad dt). now apply parse_date_token_iff.
    + intros [H | (t & Ht & E)]; [auto|]. right. exists t. split; [|exact E].
      apply in_or_app. auto.
  - apply set_eq. intros dt. rewrite parse_date_list_fold, date_fold.
    replace (split "," "2025-07-09,bad,2025-07-19")
      with ["2025-07-09"; "bad"; "2025-07-19"] by (vm_compute; reflexivity).
    rewrite elem_of_union, !elem_of_singleton. split.
    + intros [H | (tok & Ht & E)]; [now apply not_elem_of_empty in H|].
      cbn [In] in Ht. destruct Ht as [<- | [<- | [<- | []]]]; vm_compute in E.
      * left. congruence.
      * discriminate.
      * right. congruence.
    + intros [-> | ->]; right.
      * exists "2025-07-09". split; [cbn; auto | vm_compute; reflexivity].
      * exists "2025-07-19". split; [cbn; auto | vm_compute; reflexivity].
  - apply set_eq. intros dt. rewrite parse_date_list_fold, date_fold.
    replace (split "," ("2025-07-09," +:+ String "194" (String "160" "2025-07-19")))
      with ["2025-07-09"; String "194" (String "160" "2025-07-19")]
      by (vm_compute; reflexivity).
    rewrite elem_of_union, !elem_of_singleton. split.
    + intros [H | (tok & Ht & E)]; [now apply not_elem_of_empty in H|].
      cbn [In] in Ht. destruct Ht as [<- | [<- | []]]; vm_compute in E.
      * left. congruence.
      * right. congruence.
    + intros [-> | ->]; right.
      * exists "2025-07-09". split; [cbn; auto | vm_compute; reflexivity].
      * exists (String "194" (String "160" "2025-07-19")).
        split; [cbn; auto | vm_compute; reflexivity].
Qed.

End Parse_dates.

Section Parse_notes.
Import PyStr Planilla Format.

Lemma parse_notes_fold text :
  parse_notes (Some text) = foldl note_step ∅ (split "," text).
Proof. destruct text as [|c text]; reflexivity. Qed.

Lemma note_token_functional tok n v n' v' :
  note_token tok n v -> note_token tok n' v' -> n = n' /\ v = v'.
Proof.
  intros (k & r & -> & Fk & Ek & ->) (k' & r' & E & Fk' & Ek' & ->).
  destruct (cut_unique ":" k r k' r' Fk Fk' E) as [<- <-].
  split; congruence.
Qed.

(** One token either sets the entry of its day, or changes nothing. *)
Lemma note_step_cases out tok :
  (exists n v, note_token (strip tok) n v /\ note_step out tok = <[n := v]> out)
  \/ ((forall n v, ~ note_token (strip tok) n v) /\ note_step out tok = out).
Proof.
  unfold note_step.
  destruct (contains ":" (strip tok)) eqn:C.
  - destruct (contains_cut ":" _ C) as (k & r & E & Fk).
    rewrite E, split1_cut by exact Fk.
    destruct (int k) as [n|e] eqn:Ek.
    + left. exists n, (strip r). split; [|reflexivity].
      exists k, r. repeat split; assumption.
    + right. split; [|reflexivity].
      intros n v (k' & r' & E' & Fk' & Ek' & _).
      destruct (cut_unique ":" k r k' r' Fk Fk' E') as [<- <-]. congruence.
  - right. split; [|reflexivity].
    intros n v (k & r & E & _). rewrite E, contains_app_sep in C. discriminate.
Qed.

(** The entry of day [n] comes from the last token for that day. *)
Lemma note_fold toks : forall (out : gmap Z string) n v,
  foldl note_step out toks !! n = Some v <->
  (exists before tok after,
      toks = before ++ tok :: after
      /\ note_token (strip tok) n v /\ no_note_for n after)
  \/ (out !! n = Some v /\ no_note_for n toks).
Proof.
  induction toks as [|tok toks IH]; intros out n v; cbn [foldl].
  - split.
    + intros H. right. split; [exact H|]. intros t [].
    + intros [(before & t & after & E & _) | [H _]]; [|exact H].
      destruct before; discriminate.
  - rewrite IH. split.
    + intros [(before & t & after & -> & Ht & Hafter) | [Hout Hno]].
      * left. exists (tok :: before), t, after. repeat split; assumption.
      * destruct (note_step_cases out tok) as [(n0 & v0 & Htok & E) | [Hbad E]];
          rewrite E in Hout.
        -- destruct (decide (n0 = n)) as [-> | Hne].
           ++ rewrite lookup_insert_eq in Hout. injection Hout as ->.
              left. exists [], tok, toks. repeat split; assumption.
           ++ rewrite lookup_insert_ne in Hout by exact Hne.
              right. split; [exact Hout|]. intros t [<- | Ht] v' Hv'.
              ** destruct (note_token_functional _ _ _ _ _ Htok Hv'). contradiction.
              ** exact (Hno t Ht v' Hv').
        -- right. split; [exact Hout|]. intros t [<- | Ht] v' Hv'.
           ** exact (Hbad n v' Hv').
           ** exact (Hno t Ht v' Hv').
    + intros [(before & t & after & E & Ht & Hafter) | [Hout Hno]].
      * destruct before as [|b before]; cbn [app] in E; injection E as -> ->.
        -- right. split; [|exact Hafter].
           destruct (note_step_cases out t) as [(n0 & v0 & Htok & E) | [Hbad E]].
           ++ destruct (note_token_functional _ _ _ _ _ Htok Ht) as [-> ->].
              rewrite E. apply lookup_insert_eq.
           ++ exfalso. exact (Hbad n v Ht).
        -- left. exists before, t, after. repeat split; assumption.
      * right. split.
        -- destruct (note_step_cases out tok) as [(n0 & v0 & Htok & E) | [Hbad E]];
             rewrite E; [|exact Hout].
           rewrite lookup_insert_ne; [exact Hout|].
           intros ->. exact (Hno tok (or_introl eq_refl) v0 Htok).
        -- intros t Ht. apply Hno. now right.
Qed.

(** C8.  [parse_notes] never raises; absent or empty text gives the empty
    mapping; the entry of an integer day is the trimmed text of the last
    comma-separated token that, cut at its first colon, has that day as its
    numeric first segment (a segment [int] reads), so tokens without a colon
    or with a non-numeric day contribute nothing; and the sample text gives
    its two entries.  Trimming and reading numbers are those of the runtime:
    a no-break space is trimmed, and a day in full-width digits is read. *)
Theorem C8_parse_notes_first_colon_and_skips :
  parse_notes None = ∅
  /\ parse_notes (Some "") = ∅
  /\ (forall text n v,
        parse_notes (Some text) !! n = Some v <->
        exists before tok after,
          split "," text = before ++ tok :: after
          /\ note_token (strip tok) n v
          /\ no_note_for n after)
  /\ (forall text tok,
        free_of "," tok ->
        (contains ":" (strip tok) = false
         \/ exists k rest e, strip tok = k +:+ String ":" rest
                             /\ free_of ":" k /\ int k = Raise e) ->
        parse_notes (Some (text +:+ String "," tok)) = parse_notes (Some text))
  /\ parse_notes (Some "16:LICENCIA,notanumber:X,17:CAPACITACION")
     = {[16 := "LICENCIA"; 17 := "CAPACITACION"]}
  /\ parse_notes (Some "8: A:B ") = {[8 := "A:B"]}
  /\ parse_notes (Some ("16:" +:+ String "194" (String "160" "LICENCIA")))
     = {[16 := "LICENCIA"]}
  /\ parse_notes (Some "１６:X") = {[16 := "X"]}.
Proof.
  split; [reflexivity|]. split; [reflexivity|]. split; [|split; [|split; [|split; [|split]]]].
  - intros text n v. rewrite parse_notes_fold, note_fold. split.
    + intros [H | [H _]]; [exact H|]. rewrite lookup_empty in H. discriminate.
    + intros H. left. exact H.
  - intros text tok Hfree Hbad.
    rewrite !parse_notes_fold, (split_snoc "," text tok Hfree), foldl_app.
    cbn [foldl].
    destruct (note_step_cases (foldl note_step ∅ (split "," text)) tok)
      as [(n & v & (k & r & E & Fk & Ek & _) & _) | [_ E]]; [|exact E].
    exfalso. destruct Hbad as [C | (k' & r' & e & E' & Fk' & Ek')].
    + rewrite E, contains_app_sep in C. discriminate.
    + rewrite E in E'. destruct (cut_unique ":" k r k' r' Fk Fk' E') as [<- _].
      congruence.
  - vm_compute. reflexivity.
  - vm_compute. reflexivity.
  - vm_compute. reflexivity.
  - vm_compute. reflexivity.
Qed.

End Parse_notes.

(** * Part III: further properties of the code

    The header, the saved file, the inputs that cannot apply, the shape of
    the rows, unchecked time tuples, how the parsers compose, the form's
    button, the command line, the month names and the shading. *)

Section Header_and_file.
Import Docx Planilla Sheet.

(** X1. [add_header] raises for no text and for no month: only for a year
    that [str] refuses to print, one of more than 4300 digits.  For any
    other year, whatever the body already holds, it appends
    the title, the two-by-two identification table and one empty paragraph,
    and touches no earlier block; the cell for the month reads "Mes: ", the
    month name (empty outside 1..12), a space and the year.  For a year of
    more than 4300 digits it raises a [ValueError] when it comes to the
    year, and leaves the title and the table filled up to "Mes: ". *)
Theorem X1_add_header_appends_identification
    (doc : Document) (nombre oficina empleado : string) (mes anio : Z) :
  (Z.abs anio < 10 ^ PyStr.max_str_digits ->
   add_header nombre oficina empleado mes anio doc
     = (Ret tt, doc ++ identification_block nombre oficina empleado mes anio))
  /\ (10 ^ PyStr.max_str_digits <= Z.abs anio ->
      exists msg,
        add_header nombre oficina empleado mes anio doc
          = (Raise (ValueError msg), doc ++ unfinished_identification nombre oficina))
  /\ (exists title T tail,
        identification_block nombre oficina empleado mes anio
          = [BParagraph title; BTable T; BParagraph tail]
        /\ paragraph_text title = "PLANILLAS PERSONAL DE HORARIOS"
        /\ row_texts T 0 = Some ["APELLIDO Y NOMBRE: " +:+ nombre; "Oficina: " +:+ oficina]
        /\ row_texts T 1 =
             Some ["Mes: " +:+ month_name_es mes true +:+ " " +:+ PyStr.str anio;
                   "Empleado: " +:+ empleado]
        /\ length (t_rows T) = 2%nat
        /\ paragraph_text tail = "")
  /\ add_header "Benitez Wilson" "CPI" "32.746.256" 9 2025 []
     = (Ret tt, identification_block "Benitez Wilson" "CPI" "32.746.256" 9 2025).
Proof.
  split; [apply add_header_spec|]. split; [apply add_header_limit|]. split.
  - unfold identification_block. eexists _, _, _. split; [reflexivity|].
    unfold row_texts, cell_text, paragraph_text.
    cbn [t_rows lookup list_lookup fmap option_fmap option_map map foldr c_paragraph
         p_runs r_text length blank_paragraph].
    rewrite !append_empty_r. repeat split; reflexivity.
  - apply add_header_run. apply year_digits. lia.
Qed.

(** X2. With a month in 1..12, a year in 1..9999, two-component time pairs and
    a path that can be written, [generar_planilla_word] returns normally and
    the file at [out_path] is, in order: the identification block, one more
    empty paragraph, the sheet table of 2 + days-of-the-month rows, and a last
    paragraph whose text is a single backslash.  Files at other paths keep
    their content. *)
Theorem X2_generar_planilla_word_writes_document
    (out_path nombre oficina empleado : string) (mes anio : Z)
    (hm0 hm1 ht0 ht1 : string) (extras : list Z)
    (notas : option (gmap Z string)) (fer : option (gset date)) (fs : FileSystem) :
  1 <= mes <= 12 -> 1 <= anio <= 9999 -> out_path ∉ fs_denied fs ->
  exists (T : Table) (last : Paragraph) (fs' : FileSystem),
    generar_planilla_word out_path nombre oficina empleado mes anio
      [hm0; hm1] [ht0; ht1] extras notas fer fs = (Ret tt, fs')
    /\ fs_files fs' !! out_path =
         Some (identification_block nombre oficina empleado mes anio
               ++ [BParagraph blank_paragraph; BTable T; BParagraph last])
    /\ length (t_rows T) = Z.to_nat (2 + days_in_month anio mes)
    /\ paragraph_text last = "\"
    /\ (forall p, p <> out_path -> fs_files fs' !! p = fs_files fs !! p)
    /\ fs_denied fs' = fs_denied fs.
Proof.
  intros Hm Hy Hpath.
  exists (sheet_table [hm0; hm1] [ht0; ht1] extras (default ∅ notas) (default ∅ fer) mes anio),
         (mkParagraph [text_run "\"] None).
  eexists. unfold generar_planilla_word.
  rewrite build_document_run by (apply year_digits; lia).
  rewrite build_table_spec by (cbn; lia).
  unfold save. rewrite bool_decide_eq_false_2 by exact Hpath.
  split; [reflexivity|]. cbn [fs_files fs_denied].
  split; [rewrite lookup_insert_eq, <- app_assoc; reflexivity|].
  split; [apply sheet_length|].
  split; [reflexivity|].
  split; [|reflexivity].
  intros p Hp. now rewrite lookup_insert_ne.
Qed.

Lemma X2_witness :
  exists fs' doc,
    generar_planilla_word "planilla.docx" "Benitez Wilson" "CPI" "32.746.256" 9 2025
      ["6:30"; "13:00"] ["16:00"; "19:00"] [1; 3] None None (mkFS ∅ ∅) = (Ret tt, fs')
    /\ fs_files fs' !! "planilla.docx" = Some doc
    /\ length doc = 6%nat.
Proof.
  destruct (X2_generar_planilla_word_writes_document
              "planilla.docx" "Benitez Wilson" "CPI" "32.746.256" 9 2025
              "6:30" "13:00" "16:00" "19:00" [1; 3] None None (mkFS ∅ ∅))
    as (T & last & fs' & Hrun & Hfile & _); [lia | lia | apply not_elem_of_empty |].
  exists fs'. eexists. split; [exact Hrun|]. split; [exact Hfile|]. reflexivity.
Defined.

End Header_and_file.

Section Inputs_that_cannot_apply.
Import Docx Planilla Sheet.

(** Two settings give the same row for a day when they agree on what the
    branches of the day body look at. *)
Lemma day_row_agree hm ht extras extras' (notas notas' : gmap Z string)
    (fer fer' : gset date) mes anio d :
  (forall w, 0 <= w < 5 -> existsb (Z.eqb w) extras = existsb (Z.eqb w) extras') ->
  truthy (notas !! d) = truthy (notas' !! d) ->
  (Datetime.weekday (mkDate anio mes d) < 5 ->
   bool_decide (mkDate anio mes d ∈ fer) = bool_decide (mkDate anio mes d ∈ fer')) ->
  day_row hm ht extras notas fer mes anio d = day_row hm ht extras' notas' fer' mes anio d.
Proof.
  intros Hex Hnote Hfer. unfold day_row, day_cells.
  pose proof (weekday_range (mkDate anio mes d)) as Hw.
  destruct (5 <=? Datetime.weekday (mkDate anio mes d)) eqn:E; [reflexivity|].
  apply Z.leb_gt in E. rewrite <- Hfer, <- Hnote, <- Hex by lia. reflexivity.
Qed.

Lemma sheet_table_agree hm ht extras extras' (notas notas' : gmap Z string)
    (fer fer' : gset date) mes anio :
  (forall d, 1 <= d <= days_in_month anio mes ->
     day_row hm ht extras notas fer mes anio d
     = day_row hm ht extras' notas' fer' mes anio d) ->
  sheet_table hm ht extras notas fer mes anio
  = sheet_table hm ht extras' notas' fer' mes anio.
Proof.
  intros H. unfold sheet_table. do 3 f_equal.
  apply map_ext_in. intros d Hd. apply H.
  apply list_elem_of_In, elem_of_seqZ in Hd. lia.
Qed.

Lemma existsb_filter_range (w : Z) (l : list Z) :
  0 <= w < 5 ->
  existsb (Z.eqb w) l
  = existsb (Z.eqb w) (List.filter (fun x => (0 <=? x) && (x <=? 4)) l).
Proof.
  intros Hw. induction l as [|x l IH]; [reflexivity|].
  cbn [existsb List.filter].
  destruct ((0 <=? x) && (x <=? 4)) eqn:E; cbn [existsb]; rewrite IH; [reflexivity|].
  replace (w =? x) with false; [reflexivity|].
  symmetry. apply Z.eqb_neq. intros <-.
  apply andb_false_iff in E as [E | E]; [apply Z.leb_gt in E | apply Z.leb_gt in E]; lia.
Qed.

(** X3. Only the entries 0..4 of [extras_dow] count: dropping every other
    entry (Saturday, Sunday, numbers that are no weekday) gives the same
    document.  Weekend rows never get afternoon times. *)
Theorem X3_extras_outside_monday_to_friday_ignored
    (doc : Document) (hm0 hm1 ht0 ht1 : string) (extras : list Z)
    (notas : option (gmap Z string)) (fer : option (gset date)) (mes anio : Z) :
  1 <= mes <= 12 -> 1 <= anio <= 9999 ->
  build_table mes anio [hm0; hm1] [ht0; ht1] extras notas fer doc
  = build_table mes anio [hm0; hm1] [ht0; ht1]
      (List.filter (fun x => (0 <=? x) && (x <=? 4)) extras) notas fer doc.
Proof.
  intros Hm Hy. rewrite !build_table_spec by (cbn; lia).
  do 4 f_equal. apply sheet_table_agree. intros d Hd.
  apply day_row_agree; [|reflexivity|reflexivity].
  intros w Hw. now apply existsb_filter_range.
Qed.

Lemma X3_witness :
  build_table 9 2025 ["6:30"; "13:00"] ["16:00"; "19:00"] [1; 5; 3; 6; 7; -1] None None []
  = build_table 9 2025 ["6:30"; "13:00"] ["16:00"; "19:00"] [1; 3] None None [].
Proof.
  apply (X3_extras_outside_monday_to_friday_ignored
           [] "6:30" "13:00" "16:00" "19:00" [1; 5; 3; 6; 7; -1] None None 9 2025); lia.
Defined.

(** X4. A note whose key is not a day of the month, or whose text is empty,
    changes nothing: the document is the one built from the note map without
    those entries.  No exception is raised for a key out of range. *)
Theorem X4_notes_out_of_range_or_empty_ignored
    (doc : Document) (hm0 hm1 ht0 ht1 : string) (extras : list Z)
    (notas : gmap Z string) (fer : option (gset date)) (mes anio : Z) :
  1 <= mes <= 12 -> 1 <= anio <= 9999 ->
  build_table mes anio [hm0; hm1] [ht0; ht1] extras (Some notas) fer doc
  = build_table mes anio [hm0; hm1] [ht0; ht1] extras
      (Some (filter (fun kv : Z * string =>
                       1 <= kv.1 <= days_in_month anio mes /\ kv.2 <> "") notas))
      fer doc.
Proof.
  intros Hm Hy. rewrite !build_table_spec by (cbn; lia).
  do 4 f_equal. apply sheet_table_agree. intros d Hd.
  apply day_row_agree; [reflexivity| |reflexivity].
  cbn [default from_option]. unfold id, truthy.
  destruct (notas !! d) as [s|] eqn:E.
  - destruct s as [|c s].
    + rewrite (proj2 (map_lookup_filter_None _ _ _)); [reflexivity|].
      right. intros x Hx [_ Hne]. cbn in Hne. congruence.
    + rewrite (map_lookup_filter_Some_2 _ _ _ _ E); [reflexivity|].
      cbn. split; [lia | discriminate].
  - rewrite (proj2 (map_lookup_filter_None _ _ _)); [reflexivity|]. now left.
Qed.

Lemma X4_witness :
  build_table 9 2025 ["6:30"; "13:00"] ["16:00"; "19:00"] [1; 3]
    (Some {[31 := "LICENCIA"; 0 := "X"; 16 := ""]}) None []
  = build_table 9 2025 ["6:30"; "13:00"] ["16:00"; "19:00"] [1; 3] (Some ∅) None [].
Proof.
  rewrite (X4_notes_out_of_range_or_empty_ignored
             [] "6:30" "13:00" "16:00" "19:00" [1; 3]
             {[31 := "LICENCIA"; 0 := "X"; 16 := ""]} None 9 2025) by lia.
  reflexivity.
Defined.

(** X5. A holiday of another month or year, or one that falls on a Saturday
    or Sunday, changes nothing: the document is the one built from the
    holidays of the month that fall on Monday to Friday. *)
Theorem X5_holidays_elsewhere_or_on_weekends_ignored
    (doc : Document) (hm0 hm1 ht0 ht1 : string) (extras : list Z)
    (notas : option (gmap Z string)) (fer : gset date) (mes anio : Z) :
  1 <= mes <= 12 -> 1 <= anio <= 9999 ->
  build_table mes anio [hm0; hm1] [ht0; ht1] extras notas (Some fer) doc
  = build_table mes anio [hm0; hm1] [ht0; ht1] extras notas
      (Some (filter (fun dt : date =>
                       year dt = anio /\ month dt = mes /\ Datetime.weekday dt < 5) fer))
      doc.
Proof.
  intros Hm Hy. rewrite !build_table_spec by (cbn; lia).
  do 4 f_equal. apply sheet_table_agree. intros d Hd.
  apply day_row_agree; [reflexivity|reflexivity|].
  intros Hw. cbn [default from_option]. unfold id. apply bool_decide_ext.
  rewrite elem_of_filter. cbn [year month]. tauto.
Qed.

Lemma X5_witness :
  build_table 9 2025 ["6:30"; "13:00"] ["16:00"; "19:00"] [1; 3] None
    (Some {[mkDate 2025 9 6; mkDate 2025 10 15; mkDate 2024 9 16]}) []
  = build_table 9 2025 ["6:30"; "13:00"] ["16:00"; "19:00"] [1; 3] None (Some ∅) [].
Proof.
  rewrite (X5_holidays_elsewhere_or_on_weekends_ignored
             [] "6:30" "13:00" "16:00" "19:00" [1; 3] None
             {[mkDate 2025 9 6; mkDate 2025 10 15; mkDate 2024 9 16]} 9 2025) by lia.
  reflexivity.
Defined.

End Inputs_that_cannot_apply.

Section Row_shape.
Import Docx Planilla Sheet.

(** X6. In every row of every day, whatever its classification, there are
    exactly nine cells and the four signature columns (2, 4, 6, 8) are
    empty. *)
Theorem X6_nine_columns_and_blank_signatures
    (doc : Document) (hm0 hm1 ht0 ht1 : string) (extras : list Z)
    (notas : option (gmap Z string)) (fer : option (gset date)) (mes anio : Z) :
  1 <= mes <= 12 -> 1 <= anio <= 9999 ->
  exists T : Table,
    build_table mes anio [hm0; hm1] [ht0; ht1] extras notas fer doc
      = (Ret tt, doc ++ [BTable T; closing_paragraph])
    /\ forall d, 1 <= d <= days_in_month anio mes ->
         exists texts,
           row_texts T (Z.to_nat (1 + d)) = Some texts
           /\ length texts = 9%nat
           /\ forall c, In c [2; 4; 6; 8]%nat -> texts !! c = Some "".
Proof.
  intros Hm Hy.
  exists (sheet_table [hm0; hm1] [ht0; ht1] extras (default ∅ notas) (default ∅ fer) mes anio).
  split; [apply build_table_spec; cbn; lia|].
  intros d Hd. unfold row_texts. rewrite sheet_day_row by assumption.
  eexists. split; [reflexivity|].
  unfold day_row, day_cells.
  repeat match goal with |- context [if ?b then _ else _] => destruct b end;
    rewrite ?texts_centered; cbn [map length];
    (split; [reflexivity|]);
    intros c Hc; cbn [In] in Hc;
    repeat (destruct Hc as [<- | Hc]; [cbn; now rewrite ?cell_text_plain|]);
    contradiction.
Qed.

Lemma X6_witness :
  exists T texts,
    build_table 2 2024 ["6:30"; "13:00"] ["16:00"; "19:00"] [1; 3]
                (Some {[29 := "LICENCIA"]}) None []
      = (Ret tt, [BTable T; closing_paragraph])
    /\ row_texts T 30 = Some texts /\ length texts = 9%nat.
Proof.
  destruct (X6_nine_columns_and_blank_signatures [] "6:30" "13:00" "16:00" "19:00" [1; 3]
              (Some {[29 := "LICENCIA"]}) None 2 2024) as (T & Hrun & Hrow); [lia | lia |].
  destruct (Hrow 29) as (texts & H1 & H2 & _); [vm_compute; split; discriminate|].
  exists T, texts. repeat split; assumption.
Defined.

(** X7. On Monday to Friday a holiday wins over a note, and it shows in the
    shading only: the nine cells of a holiday row are shaded "FFF2CC" and
    those of a row with a note (and no holiday) are not shaded; in both the
    columns 1 to 8 hold dashes and blanks, so neither "FERIADO" nor the note
    text is left in the row. *)
Theorem X7_holiday_and_note_rows
    (doc : Document) (hm0 hm1 ht0 ht1 : string) (extras : list Z)
    (notas : option (gmap Z string)) (fer : option (gset date)) (mes anio : Z) :
  1 <= mes <= 12 -> 1 <= anio <= 9999 ->
  exists T : Table,
    build_table mes anio [hm0; hm1] [ht0; ht1] extras notas fer doc
      = (Ret tt, doc ++ [BTable T; closing_paragraph])
    /\ forall d dow,
         1 <= d <= days_in_month anio mes ->
         Calendar.weekday anio mes d = Ret dow -> dow < 5 ->
         (mkDate anio mes d ∈ default ∅ fer ->
            row_texts T (Z.to_nat (1 + d)) = Some (PyStr.str d :: dashes)
            /\ row_shadings T (Z.to_nat (1 + d)) = Some (replicate 9 ["FFF2CC"]))
         /\ (mkDate anio mes d ∉ default ∅ fer ->
             truthy (default ∅ notas !! d) = true ->
               row_texts T (Z.to_nat (1 + d)) = Some (PyStr.str d :: dashes)
               /\ row_shadings T (Z.to_nat (1 + d)) = Some (replicate 9 [])).
Proof.
  intros Hm Hy.
  exists (sheet_table [hm0; hm1] [ht0; ht1] extras (default ∅ notas) (default ∅ fer) mes anio).
  split; [apply build_table_spec; cbn; lia|].
  intros d dow Hd Hdow Hwk.
  rewrite calendar_weekday_ok in Hdow by assumption. injection Hdow as Hdow.
  unfold row_texts, row_shadings. rewrite sheet_day_row by assumption.
  unfold day_row, day_cells. rewrite Hdow.
  replace (5 <=? dow) with false by (symmetry; apply Z.leb_gt; exact Hwk).
  split.
  - intros Hin. rewrite bool_decide_eq_true_2 by exact Hin.
    cbn [fmap option_fmap option_map].
    rewrite texts_centered, shadings_centered. split; reflexivity.
  - intros Hnin Hnote. rewrite bool_decide_eq_false_2 by exact Hnin. rewrite Hnote.
    cbn [fmap option_fmap option_map].
    rewrite texts_centered, shadings_centered. split; reflexivity.
Qed.

Lemma X7_witness :
  exists T : Table,
    build_table 9 2025 ["6:30"; "13:00"] ["16:00"; "19:00"] [1; 3]
                (Some {[15 := "LICENCIA"]}) (Some {[mkDate 2025 9 15]}) []
      = (Ret tt, [BTable T; closing_paragraph])
    /\ row_shadings T 16 = Some (replicate 9 ["FFF2CC"]).
Proof.
  destruct (X7_holiday_and_note_rows [] "6:30" "13:00" "16:00" "19:00" [1; 3]
              (Some {[15 := "LICENCIA"]}) (Some {[mkDate 2025 9 15]}) 9 2025)
    as (T & Hrun & Hrow); [lia | lia |].
  exists T. split; [exact Hrun|].
  destruct (Hrow 15 0) as [Hhol _]; [vm_compute; split; discriminate | reflexivity | lia |].
  apply Hhol. cbn [default from_option]. apply elem_of_singleton. reflexivity.
Defined.

End Row_shape.

Section Short_time_tuples.
Import Docx Planilla Sheet.

Ltac run_day :=
  rewrite ?bind_run;
  first
    [ erewrite cell_day_row by (first [eassumption | reflexivity | lia])
    | rewrite ret_run
    | rewrite lift_run ];
  cbn [insert list_insert is_firma existsb Nat.eqb orb for_each seq tuple_index
       lookup list_lookup].

(** A day that is not a regular workday is written without looking at the
    time tuples. *)
Lemma day_body_not_regular (pre : Document) st af (top bot : list (list Cell))
    hm ht extras notas fer mes anio d :
  1 <= anio <= 9999 -> 1 <= mes <= 12 -> 1 <= d <= days_in_month anio mes ->
  regular_day notas fer mes anio d = false ->
  length top = Z.to_nat (1 + d) ->
  day_body (length pre) mes anio hm ht extras notas fer d
    (pre ++ [BTable (mkTable st af (top ++ blank_row :: bot) header_merges)]) =
  (Ret tt,
   pre ++ [BTable (mkTable st af
                     (top ++ day_row hm ht extras notas fer mes anio d :: bot)
                     header_merges)]).
Proof.
  intros Hy Hm Hd Hreg Htop.
  assert (Hr : (2 <= Z.to_nat (1 + d))%nat) by lia.
  unfold regular_day in Hreg.
  unfold day_body, day_row, day_cells.
  rewrite bind_run, lift_run, calendar_weekday_ok by assumption.
  rewrite bind_run, lift_run, date_new_ok by assumption.
  set (dow := Datetime.weekday (mkDate anio mes d)) in *.
  set (r := Z.to_nat (1 + d)) in *.
  unfold blank_row, fill_dashes. cbn [replicate].
  destruct (5 <=? dow) eqn:Ewk; [repeat run_day; reflexivity|].
  destruct (bool_decide (mkDate anio mes d ∈ fer)) eqn:Efer;
    [repeat run_day; reflexivity|].
  destruct (truthy (notas !! d)) eqn:Enote; [repeat run_day; reflexivity|].
  discriminate Hreg.
Qed.

(** A regular workday asks for [hora_maniana[0]] and [hora_maniana[1]]. *)
Lemma day_body_regular_short (pre : Document) st af (top bot : list (list Cell))
    hm ht extras notas fer mes anio d :
  1 <= anio <= 9999 -> 1 <= mes <= 12 -> 1 <= d <= days_in_month anio mes ->
  regular_day notas fer mes anio d = true ->
  (length hm < 2)%nat ->
  length top = Z.to_nat (1 + d) ->
  exists doc',
    day_body (length pre) mes anio hm ht extras notas fer d
      (pre ++ [BTable (mkTable st af (top ++ blank_row :: bot) header_merges)]) =
    (Raise (IndexError "tuple index out of range"), doc').
Proof.
  intros Hy Hm Hd Hreg Hhm Htop.
  assert (Hr : (2 <= Z.to_nat (1 + d))%nat) by lia.
  unfold regular_day in Hreg.
  apply andb_true_iff in Hreg as [Hreg Hnote].
  apply andb_true_iff in Hreg as [Hwk Hfer].
  apply negb_true_iff in Hwk, Hfer, Hnote.
  unfold day_body.
  rewrite bind_run, lift_run, calendar_weekday_ok by assumption.
  rewrite bind_run, lift_run, date_new_ok by assumption.
  set (r := Z.to_nat (1 + d)) in *.
  rewrite Hwk, Hfer, Hnote.
  unfold blank_row. cbn [replicate].
  destruct hm as [|hm0 [|hm1 hm']]; [| |cbn in Hhm; lia].
  - do 2 run_day. rewrite bind_run, lift_run. cbn [tuple_index lookup list_lookup].
    eexists. reflexivity.
  - do 3 run_day. rewrite bind_run. run_day. eexists. reflexivity.
Qed.

(** With a short [hora_maniana], the loop stops at the first regular workday. *)
Lemma days_loop_short (pre : Document) st af hm ht extras notas fer mes anio
    (k : nat) : forall (j : Z) (above : list (list Cell)),
  1 <= anio <= 9999 -> 1 <= mes <= 12 ->
  (length hm < 2)%nat ->
  0 <= j -> j + Z.of_nat k <= days_in_month anio mes ->
  length above = Z.to_nat (2 + j) ->
  (exists d, j + 1 <= d <= j + Z.of_nat k /\ regular_day notas fer mes anio d = true) ->
  exists doc',
    for_each (seqZ (j + 1) (Z.of_nat k))
             (day_body (length pre) mes anio hm ht extras notas fer)
      (pre ++ [BTable (mkTable st af (above ++ replicate k blank_row) header_merges)]) =
    (Raise (IndexError "tuple index out of range"), doc').
Proof.
  induction k as [|k IH]; intros j above Hy Hm Hhm Hj Hjk Hab (d & Hd & Hreg).
  - lia.
  - rewrite seqZ_cons by lia.
    replace (Z.pred (Z.of_nat (S k))) with (Z.of_nat k) by lia.
    replace (Z.succ (j + 1)) with ((j + 1) + 1) by lia.
    cbn [for_each replicate]. rewrite bind_run.
    destruct (regular_day notas fer mes anio (j + 1)) eqn:E1.
    + destruct (day_body_regular_short pre st af above (replicate k blank_row)
                  hm ht extras notas fer mes anio (j + 1)) as [doc' ->];
        try assumption; try lia.
      exists doc'. reflexivity.
    + rewrite day_body_not_regular; try assumption; try lia.
      rewrite (cons_middle (day_row _ _ _ _ _ _ _ _) above), app_assoc.
      apply IH; try assumption; try lia.
      * rewrite length_app. cbn [length]. lia.
      * exists d. split; [|exact Hreg].
        assert (d <> j + 1) by (intros ->; congruence). lia.
Qed.

(** X8. The time tuples are not checked: when [hora_maniana] has fewer than
    two components and the month has a regular workday (Monday to Friday, no
    holiday, no note), [generar_planilla_word] stops with
    [IndexError] "tuple index out of range" and writes no file. *)
Theorem X8_short_hora_maniana_raises_IndexError
    (out_path nombre oficina empleado : string) (mes anio : Z)
    (hm ht : list string) (extras : list Z)
    (notas : option (gmap Z string)) (fer : option (gset date)) (fs : FileSystem) :
  1 <= mes <= 12 -> 1 <= anio <= 9999 ->
  (length hm < 2)%nat ->
  (exists d, 1 <= d <= days_in_month anio mes
             /\ regular_day (default ∅ notas) (default ∅ fer) mes anio d = true) ->
  generar_planilla_word out_path nombre oficina empleado mes anio
    hm ht extras notas fer fs
  = (Raise (IndexError "tuple index out of range"), fs).
Proof.
  intros Hm Hy Hhm (d & Hd & Hreg). unfold generar_planilla_word.
  rewrite build_document_run by (apply year_digits; lia).
  rewrite build_table_header by assumption.
  pose proof (days_in_month_range anio mes) as Hnd.
  set (nd := days_in_month anio mes) in *.
  rewrite bind_run.
  replace (seqZ 1 nd) with (seqZ (0 + 1) (Z.of_nat (Z.to_nat nd))) by (f_equal; lia).
  unfold header_only_table.
  change (header0 :: header1 :: replicate (Z.to_nat nd) blank_row)
    with ([header0; header1] ++ replicate (Z.to_nat nd) blank_row).
  edestruct days_loop_short as [doc' ->];
    [exact Hy | exact Hm | exact Hhm | | | | exists d; split; [|exact Hreg] | reflexivity];
    try reflexivity; lia.
Qed.

Lemma X8_witness :
  generar_planilla_word "planilla.docx" "Benitez Wilson" "CPI" "32.746.256" 9 2025
    ["6:30"] ["16:00"; "19:00"] [1; 3] None None (mkFS ∅ ∅)
  = (Raise (IndexError "tuple index out of range"), mkFS ∅ ∅).
Proof.
  apply (X8_short_hora_maniana_raises_IndexError
           "planilla.docx" "Benitez Wilson" "CPI" "32.746.256" 9 2025
           ["6:30"] ["16:00"; "19:00"] [1; 3] None None (mkFS ∅ ∅));
    [lia | lia | cbn; lia |].
  exists 1. split; [vm_compute; split; discriminate | reflexivity].
Defined.

End Short_time_tuples.

Section Parsers_compose.
Import PyStr Planilla Format.

(** [split] distributes over a separator. *)
Lemma split_sep_app sep a b :
  split sep (a +:+ String sep b) = split sep a ++ split sep b.
Proof.
  induction a as [|c a IH].
  - rewrite append_nil_l. cbn [split]. now rewrite Ascii.eqb_refl.
  - rewrite append_cons. cbn [split]. rewrite IH.
    destruct (Ascii.eqb c sep); [reflexivity|].
    pose proof (split_nonempty sep a) as Hne.
    destruct (split sep a) as [|q rest]; [contradiction|]. reflexivity.
Qed.

(** X9. [parse_date_list] treats its items independently: the dates of two
    lists joined by a comma are the union of the dates of each, so order
    and repetition of items do not matter. *)
Theorem X9_parse_date_list_union :
  forall a b : string,
    parse_date_list (Some (a +:+ String "," b))
    = parse_date_list (Some a) ∪ parse_date_list (Some b).
Proof.
  intros a b. apply set_eq. intros dt.
  rewrite elem_of_union, !parse_date_list_fold, !date_fold, split_sep_app.
  split.
  - intros [H | (t & Ht & E)]; [now apply not_elem_of_empty in H|].
    apply in_app_or in Ht as [Ht | Ht]; [left | right]; right; eauto.
  - intros [[H | (t & Ht & E)] | [H | (t & Ht & E)]];
      try (now apply not_elem_of_empty in H);
      right; exists t; (split; [apply in_or_app; auto | exact E]).
Qed.

Lemma note_step_union (out : gmap Z string) tok :
  note_step out tok = note_step ∅ tok ∪ out.
Proof.
  unfold note_step.
  destruct (contains ":" (strip tok)); [|now rewrite (left_id_L ∅ (∪))].
  destruct (split1 ":" (strip tok)) as [|k [|v [|x r]]];
    try now rewrite (left_id_L ∅ (∪)).
  destruct (int k); [|now rewrite (left_id_L ∅ (∪))].
  now rewrite insert_union_singleton_l, insert_empty.
Qed.

Lemma note_fold_union toks : forall out : gmap Z string,
  foldl note_step out toks = foldl note_step ∅ toks ∪ out.
Proof.
  induction toks as [|tok toks IH]; intros out; cbn [foldl].
  - now rewrite (left_id_L ∅ (∪)).
  - rewrite IH, (IH (note_step ∅ tok)), (note_step_union out tok).
    now rewrite (assoc_L (∪)).
Qed.

(** X10. In [parse_notes] a later item for a day replaces an earlier one and
    items for other days accumulate: the notes of two lists joined by a comma
    are those of the second list, completed by those of the first. *)
Theorem X10_parse_notes_later_item_wins :
  forall a b : string,
    parse_notes (Some (a +:+ String "," b))
    = parse_notes (Some b) ∪ parse_notes (Some a).
Proof.
  intros a b. rewrite !parse_notes_fold, split_sep_app, foldl_app.
  apply note_fold_union.
Qed.

Lemma note_values_trimmed toks : forall (out : gmap Z string),
  (forall n v, out !! n = Some v -> strip v = v) ->
  forall n v, foldl note_step out toks !! n = Some v -> strip v = v.
Proof.
  induction toks as [|tok toks IH]; intros out Hout; cbn [foldl]; [exact Hout|].
  apply IH. intros n v. unfold note_step.
  destruct (contains ":" (strip tok)); [|apply Hout].
  destruct (split1 ":" (strip tok)) as [|k [|x [|y r]]]; try apply Hout.
  destruct (int k) as [m|]; [|apply Hout].
  destruct (decide (m = n)) as [-> | Hne].
  - rewrite lookup_insert_eq. intros [= <-]. apply strip_idem.
  - rewrite lookup_insert_ne by exact Hne. apply Hout.
Qed.

(** X11. Every text [parse_notes] stores is trimmed: stripping it again
    changes nothing.  (The text may still be empty, as for the item "5:".) *)
Theorem X11_parse_notes_texts_are_trimmed :
  (forall text n v, parse_notes text !! n = Some v -> strip v = v)
  /\ parse_notes (Some "5: ") = {[5 := ""]}.
Proof.
  split; [|vm_compute; reflexivity].
  intros [text|] n v.
  - rewrite parse_notes_fold. apply note_values_trimmed.
    intros n' v'. rewrite lookup_empty. discriminate.
  - cbn [parse_notes]. rewrite lookup_empty. discriminate.
Qed.

End Parsers_compose.

Section Horas_normal_form.
Import PyStr Gui Format.

(** X12. The pair [_parse_horas] returns is in normal form: neither time has
    a blank at either end or a comma, and the two joined by a comma are
    accepted again and returned unchanged. *)
Theorem X12_parse_horas_result_is_normal (text h1 h2 : string) :
  _parse_horas text = Ret (h1, h2) ->
  strip h1 = h1 /\ strip h2 = h2
  /\ contains "," h1 = false /\ contains "," h2 = false
  /\ _parse_horas (h1 +:+ String "," h2) = Ret (h1, h2).
Proof.
  intros H. apply parse_horas_returns in H.
  destruct H as (a & b & -> & Ha & Hb & E1 & E2 & O1 & O2).
  assert (S1 : strip h1 = h1) by (rewrite E1; apply strip_idem).
  assert (S2 : strip h2 = h2) by (rewrite E2; apply strip_idem).
  assert (F1 : contains "," h1 = false) by (rewrite E1; apply strip_free; exact Ha).
  assert (F2 : contains "," h2 = false) by (rewrite E2; apply strip_free; exact Hb).
  repeat split; try assumption.
  apply parse_horas_accepts. exists h1, h2. repeat split; try assumption; congruence.
Qed.

Lemma X12_witness :
  _parse_horas " 06:30 ,13:00  " = Ret ("06:30", "13:00")
  /\ _parse_horas "06:30,13:00" = Ret ("06:30", "13:00").
Proof.
  split; [reflexivity|].
  apply (X12_parse_horas_result_is_normal " 06:30 ,13:00  " "06:30" "13:00"). reflexivity.
Defined.

End Horas_normal_form.

Section Extras_conversion.
Import PyStr.

Lemma extras_items_Ret parts : forall l,
  extras_items parts = Ret l <->
  Forall2 (fun x n => int x = Ret n)
          (List.filter (fun x => negb (is_empty (strip x))) parts) l.
Proof.
  induction parts as [|x parts IH]; intros l; cbn [extras_items foldr List.filter].
  - split; [intros [= <-]; constructor | intros H; inversion H; reflexivity].
  - fold (extras_items parts).
    destruct (is_empty (strip x)); cbn [negb]; [apply IH|].
    unfold mbind, outcome_bind. split.
    + destruct (int x) as [n|] eqn:En; [|discriminate]. cbn [obind].
      destruct (extras_items parts) as [ns|] eqn:Ens; [|discriminate]. cbn [obind].
      intros [= <-]. constructor; [exact En|]. now apply IH.
    + intros H. inversion H as [|? n ? ns Hx Hrest]; subst.
      rewrite Hx. cbn [obind]. apply IH in Hrest. rewrite Hrest. reflexivity.
Qed.

Lemma extras_items_Raise parts e :
  extras_items parts = Raise e ->
  exists x, In x parts /\ strip x <> "" /\ int x = Raise e.
Proof.
  induction parts as [|x parts IH]; cbn [extras_items foldr]; [discriminate|].
  fold (extras_items parts).
  destruct (is_empty (strip x)) eqn:Ee.
  - intros H. destruct (IH H) as (y & Hy & Hrest). exists y. split; [now right | exact Hrest].
  - unfold mbind, outcome_bind.
    destruct (int x) as [n|e'] eqn:En; cbn [obind].
    + destruct (extras_items parts) as [ns|e''] eqn:Ens; cbn [obind]; [discriminate|].
      intros [= <-]. destruct (IH eq_refl) as (y & Hy & Hrest).
      exists y. split; [now right | exact Hrest].
    + intros [= <-]. exists x. split; [now left|]. split; [|exact En].
      intros E. rewrite E in Ee. discriminate.
Qed.

Lemma parse_extras_raises s e :
  parse_extras s = Raise e -> exists msg, e = ValueError msg.
Proof.
  intros H. apply extras_items_Raise in H as (x & _ & _ & Hint).
  exact (int_raises_ValueError x e Hint).
Qed.

(** X18. The weekday list is converted strictly, unlike the holiday and note
    lists: blank items (empty or only whitespace) are passed over and every
    other item is converted, in order; when some item that is not blank is no
    integer literal the conversion raises the [ValueError] of such an item
    instead of dropping it.  An item that holds a no-break space only is
    blank. *)
Theorem X18_parse_extras_is_strict :
  (forall s l,
     parse_extras s = Ret l <->
     Forall2 (fun x n => int x = Ret n)
             (List.filter (fun x => negb (is_empty (strip x))) (split "," s)) l)
  /\ (forall s e,
        parse_extras s = Raise e ->
        is_ValueError e = true
        /\ exists x, In x (split "," s) /\ strip x <> "" /\ int x = Raise e)
  /\ parse_extras "1,,3, " = Ret [1; 3]
  /\ parse_extras "" = Ret []
  /\ parse_extras ("1," +:+ String "194" (String "160" ",3")) = Ret [1; 3].
Proof.
  split; [|split; [|repeat split; vm_compute; reflexivity]].
  - intros s l. apply extras_items_Ret.
  - intros s e H. apply extras_items_Raise in H as (x & Hx & Hne & Hint).
    split; [destruct (int_raises_ValueError x e Hint) as [msg ->]; reflexivity|]. eauto.
Qed.

End Extras_conversion.

Section Form_generate.
Import Docx Planilla Sheet Format PlanillaApp.

(** [generar_planilla_word] with two-component time tuples or longer, a valid
    month and year and a path that can be written. *)
Lemma generar_planilla_word_run
    (out_path nombre oficina empleado : string) (mes anio : Z)
    (hm ht : list string) (extras : list Z)
    (notas : option (gmap Z string)) (fer : option (gset date)) (fs : FileSystem) :
  1 <= mes <= 12 -> 1 <= anio <= 9999 ->
  (2 <= length hm)%nat -> (2 <= length ht)%nat ->
  out_path ∉ fs_denied fs ->
  generar_planilla_word out_path nombre oficina empleado mes anio hm ht extras notas fer fs
  = (Ret tt,
     mkFS (<[out_path :=
               identification_block nombre oficina empleado mes anio
               ++ [BParagraph blank_paragraph;
                   BTable (sheet_table hm ht extras (default ∅ notas) (default ∅ fer)
                                       mes anio);
                   closing_paragraph]]> (fs_files fs))
          (fs_denied fs)).
Proof.
  intros Hm Hy Hhm Hht Hpath. unfold generar_planilla_word.
  rewrite build_document_run by (apply year_digits; lia).
  rewrite build_table_spec by assumption.
  unfold save. rewrite bool_decide_eq_false_2 by exact Hpath.
  rewrite <- app_assoc. reflexivity.
Qed.

(** A failed [generar_planilla_word] leaves the file system as it was. *)
Lemma generar_planilla_word_raise
    out_path nombre oficina empleado mes anio hm ht extras notas fer fs e fs' :
  generar_planilla_word out_path nombre oficina empleado mes anio hm ht extras notas fer fs
  = (Raise e, fs') -> fs' = fs.
Proof.
  unfold generar_planilla_word, save.
  destruct (build_document _ _ _ _ _ _ _ _ _ _ _) as [[[]|e'] doc].
  - destruct (bool_decide _); [intros [= _ <-]; reflexivity | discriminate].
  - intros [= _ <-]. reflexivity.
Qed.

(** A successful one has written the file. *)
Lemma generar_planilla_word_ret
    out_path nombre oficina empleado mes anio hm ht extras notas fer fs fs' :
  generar_planilla_word out_path nombre oficina empleado mes anio hm ht extras notas fer fs
  = (Ret tt, fs') ->
  is_Some (fs_files fs' !! out_path) /\ fs_denied fs' = fs_denied fs
  /\ forall p, p <> out_path -> fs_files fs' !! p = fs_files fs !! p.
Proof.
  unfold generar_planilla_word, save.
  destruct (build_document _ _ _ _ _ _ _ _ _ _ _) as [[[]|e'] doc]; [|discriminate].
  destruct (bool_decide _); [discriminate|]. intros [= <-]. cbn [fs_files fs_denied].
  split; [rewrite lookup_insert_eq; eauto|]. split; [reflexivity|].
  intros p Hp. now rewrite lookup_insert_ne.
Qed.

Lemma generate_try_raise f nombre oficina empleado out_path fs e fs' :
  generate_try f nombre oficina empleado out_path fs = (Raise e, fs') -> fs' = fs.
Proof.
  unfold generate_try.
  destruct (Gui._parse_horas (hora_m_edit f)) as [[a b]|]; [|now intros [= _ <-]].
  destruct (Gui._parse_horas (hora_t_edit f)) as [[c d]|]; [|now intros [= _ <-]].
  destruct (if PyStr.is_empty _ then _ else _) as [extras|]; [|now intros [= _ <-]].
  apply generar_planilla_word_raise.
Qed.

Lemma generate_try_ret f nombre oficina empleado out_path fs fs' :
  generate_try f nombre oficina empleado out_path fs = (Ret tt, fs') ->
  is_Some (fs_files fs' !! out_path) /\ fs_denied fs' = fs_denied fs
  /\ forall p, p <> out_path -> fs_files fs' !! p = fs_files fs !! p.
Proof.
  unfold generate_try.
  destruct (Gui._parse_horas (hora_m_edit f)) as [[a b]|]; [|discriminate].
  destruct (Gui._parse_horas (hora_t_edit f)) as [[c d]|]; [|discriminate].
  destruct (if PyStr.is_empty _ then _ else _) as [extras|]; [|discriminate].
  apply generar_planilla_word_ret.
Qed.

(** With a month outside 1..12 and a year that can be printed,
    [generar_planilla_word] stops at [calendar.monthrange]. *)
Lemma generar_planilla_word_bad_month
    out_path nombre oficina empleado mes anio hm ht extras notas fer fs :
  ~ (1 <= mes <= 12) -> Z.abs anio < 10 ^ PyStr.max_str_digits ->
  generar_planilla_word out_path nombre oficina empleado mes anio hm ht extras notas fer fs
  = (Raise (IllegalMonthError mes), fs).
Proof.
  intros Hm Hy. unfold generar_planilla_word.
  rewrite build_document_run by exact Hy.
  rewrite build_table_bad_month by exact Hm. reflexivity.
Qed.

(** With a valid month and year and two-component time tuples, only the
    file system can make [generar_planilla_word] fail. *)
Lemma generar_planilla_word_cases
    out_path nombre oficina empleado mes anio hm ht extras notas fer fs :
  1 <= mes <= 12 -> 1 <= anio <= 9999 ->
  (2 <= length hm)%nat -> (2 <= length ht)%nat ->
  (exists fs', generar_planilla_word out_path nombre oficina empleado mes anio
                 hm ht extras notas fer fs = (Ret tt, fs'))
  \/ (exists msg, generar_planilla_word out_path nombre oficina empleado mes anio
                    hm ht extras notas fer fs = (Raise (OSError msg), fs)).
Proof.
  intros Hm Hy Hhm Hht. unfold generar_planilla_word.
  rewrite build_document_run by (apply year_digits; lia).
  rewrite build_table_spec by assumption.
  unfold save. destruct (bool_decide _).
  - right. eexists. reflexivity.
  - left. eexists. reflexivity.
Qed.

(** Under the ranges of the widgets, every exception the [try] of
    [generate] can raise has a text. *)
Lemma generate_try_exn f nombre oficina empleado out_path fs e fs' :
  widgets_ok f ->
  generate_try f nombre oficina empleado out_path fs = (Raise e, fs') ->
  exists text, exn_str e = Ret text.
Proof.
  intros [Hidx Hanio]. unfold generate_try.
  destruct (Gui._parse_horas (hora_m_edit f)) as [[a b]|e1] eqn:E1.
  2:{ intros [= <- _]. destruct (parse_horas_raises _ _ E1) as [msg ->].
      eexists. reflexivity. }
  destruct (Gui._parse_horas (hora_t_edit f)) as [[c d]|e2] eqn:E2.
  2:{ intros [= <- _]. destruct (parse_horas_raises _ _ E2) as [msg ->].
      eexists. reflexivity. }
  destruct (PyStr.is_empty (PyStr.strip (extras_dow_edit f))).
  - destruct (decide (1 <= mes_combo_index f + 1 <= 12)) as [Hm | Hm].
    + destruct (generar_planilla_word_cases out_path nombre oficina empleado
                  (mes_combo_index f + 1) (anio_spin f) [a; b] [c; d] []
                  (Some (parse_notes (Some (notas_edit f))))
                  (Some (parse_date_list (Some (feriados_edit f)))) fs)
        as [[fs1 ->] | [msg ->]]; try (cbn [length]; lia); [discriminate|].
      intros [= <- _]. eexists. reflexivity.
    + rewrite generar_planilla_word_bad_month by (first [exact Hm | apply year_digits; lia]).
      intros [= <- _]. cbn [exn_str].
      rewrite format_int_ok by (apply year_digits; lia). eexists. reflexivity.
  - destruct (parse_extras (PyStr.strip (extras_dow_edit f))) as [extras|e3] eqn:E3.
    2:{ intros [= <- _]. destruct (parse_extras_raises _ _ E3) as [msg ->].
        eexists. reflexivity. }
    destruct (decide (1 <= mes_combo_index f + 1 <= 12)) as [Hm | Hm].
    + destruct (generar_planilla_word_cases out_path nombre oficina empleado
                  (mes_combo_index f + 1) (anio_spin f) [a; b] [c; d] extras
                  (Some (parse_notes (Some (notas_edit f))))
                  (Some (parse_date_list (Some (feriados_edit f)))) fs)
        as [[fs1 ->] | [msg ->]]; try (cbn [length]; lia); [discriminate|].
      intros [= <- _]. eexists. reflexivity.
    + rewrite generar_planilla_word_bad_month by (first [exact Hm | apply year_digits; lia]).
      intros [= <- _]. cbn [exn_str].
      rewrite format_int_ok by (apply year_digits; lia). eexists. reflexivity.
Qed.

(** X13. Pressing the button ends in exactly one of three ways, whatever
    the texts of the fields, with the month index and the year that the
    combo box and the spin box can hold.  When one of the name, office,
    employee or path fields is blank once trimmed (empty, or made of
    whitespace of any kind): a warning "Campos incompletos", nothing else is
    looked at and nothing is written.  Otherwise either the information box
    "Éxito" naming the trimmed path, and then a file exists at that path and
    no other path changed; or the critical box "Error", and then the file
    system is as it was.  No exception leaves [generate]. *)
Theorem X13_generate_outcomes (f : Form) (fs : FileSystem) :
  widgets_ok f ->
  let nombre := PyStr.strip (nombre_edit f) in
  let oficina := PyStr.strip (oficina_edit f) in
  let empleado := PyStr.strip (empleado_edit f) in
  let out_path := PyStr.strip (out_path_edit f) in
  (nombre = "" \/ oficina = "" \/ empleado = "" \/ out_path = "" ->
   exists text, generate f fs = (Ret (Warning "Campos incompletos" text), fs))
  /\ (nombre <> "" -> oficina <> "" -> empleado <> "" -> out_path <> "" ->
      (exists fs',
          generate f fs =
            (Ret (Information "Éxito"
                    ("Planilla generada correctamente en:" +:+ newline +:+ out_path)), fs')
          /\ is_Some (fs_files fs' !! out_path)
          /\ (forall p, p <> out_path -> fs_files fs' !! p = fs_files fs !! p))
      \/ (exists text, generate f fs = (Ret (Critical "Error" text), fs))).
Proof.
  intros Hw. cbv zeta. split.
  - intros H. eexists. unfold generate.
    assert (E : forallb (fun s => negb (PyStr.is_empty s))
                  [PyStr.strip (nombre_edit f); PyStr.strip (oficina_edit f);
                   PyStr.strip (empleado_edit f); PyStr.strip (out_path_edit f)] = false).
    { cbn [forallb]. destruct H as [-> | [-> | [-> | ->]]]; cbn [PyStr.is_empty negb andb];
        rewrite ?andb_false_r; reflexivity. }
    rewrite E. reflexivity.
  - intros H1 H2 H3 H4. unfold generate.
    assert (E : forallb (fun s => negb (PyStr.is_empty s))
                  [PyStr.strip (nombre_edit f); PyStr.strip (oficina_edit f);
                   PyStr.strip (empleado_edit f); PyStr.strip (out_path_edit f)] = true).
    { cbn [forallb].
      destruct (PyStr.strip (nombre_edit f)); [contradiction|].
      destruct (PyStr.strip (oficina_edit f)); [contradiction|].
      destruct (PyStr.strip (empleado_edit f)); [contradiction|].
      destruct (PyStr.strip (out_path_edit f)); [contradiction|]. reflexivity. }
    rewrite E. cbn [negb].
    destruct (generate_try f _ _ _ _ fs) as [[[]|e] fs'] eqn:T.
    + left. exists fs'. apply generate_try_ret in T as (Hfile & _ & Hother).
      repeat split; assumption.
    + right. destruct (generate_try_exn _ _ _ _ _ _ _ _ Hw T) as [text ->].
      apply generate_try_raise in T as ->. eexists. reflexivity.
Qed.

(** A name field that holds one no-break space (U+00A0) is blank. *)
Lemma X13_witness :
  exists text,
    generate (mkForm (String "194" (String "160" "")) "CPI" "32.746.256" 8 2025
                     "06:30,13:00" "16:00,19:00" "1,3" "" "" "planilla.docx")
             (mkFS ∅ ∅)
    = (Ret (Warning "Campos incompletos" text), mkFS ∅ ∅).
Proof.
  destruct (X13_generate_outcomes
              (mkForm (String "194" (String "160" "")) "CPI" "32.746.256" 8 2025
                      "06:30,13:00" "16:00,19:00" "1,3" "" "" "planilla.docx")
              (mkFS ∅ ∅)) as [H _].
  - split; cbn [mes_combo_index anio_spin]; lia.
  - apply H. left. vm_compute. reflexivity.
Defined.

End Form_generate.

Section Form_success.
Import Docx Planilla Sheet Format PlanillaApp.

(** X14. From the form, with what its widgets allow (a month index 0..11
    and a year 2020..2100), generation cannot fail on the month or the year:
    when the four main fields are not blank, both time fields are valid pairs,
    the extras field converts and the path can be written, the information
    box is shown and the file holds the document for month index + 1, built
    from the trimmed texts and the trimmed, validated times. *)
Theorem X14_generate_succeeds_on_valid_form
    (f : Form) (fs : FileSystem) (hm1 hm2 ht1 ht2 : string) (extras : list Z) :
  PyStr.strip (nombre_edit f) <> "" -> PyStr.strip (oficina_edit f) <> "" ->
  PyStr.strip (empleado_edit f) <> "" -> PyStr.strip (out_path_edit f) <> "" ->
  0 <= mes_combo_index f <= 11 -> 2020 <= anio_spin f <= 2100 ->
  time_pair_ok (hora_m_edit f) hm1 hm2 ->
  time_pair_ok (hora_t_edit f) ht1 ht2 ->
  parse_extras (PyStr.strip (extras_dow_edit f)) = Ret extras ->
  PyStr.strip (out_path_edit f) ∉ fs_denied fs ->
  exists fs',
    generate f fs =
      (Ret (Information "Éxito"
              ("Planilla generada correctamente en:" +:+ newline
               +:+ PyStr.strip (out_path_edit f))), fs')
    /\ fs_files fs' !! PyStr.strip (out_path_edit f) =
         Some (identification_block (PyStr.strip (nombre_edit f))
                 (PyStr.strip (oficina_edit f)) (PyStr.strip (empleado_edit f))
                 (mes_combo_index f + 1) (anio_spin f)
               ++ [BParagraph blank_paragraph;
                   BTable (sheet_table [hm1; hm2] [ht1; ht2] extras
                             (parse_notes (Some (notas_edit f)))
                             (parse_date_list (Some (feriados_edit f)))
                             (mes_combo_index f + 1) (anio_spin f));
                   closing_paragraph]).
Proof.
  intros H1 H2 H3 H4 Hidx Hanio Hm Ht Hex Hpath. unfold generate.
  assert (E : forallb (fun s => negb (PyStr.is_empty s))
                [PyStr.strip (nombre_edit f); PyStr.strip (oficina_edit f);
                 PyStr.strip (empleado_edit f); PyStr.strip (out_path_edit f)] = true).
  { cbn [forallb].
    destruct (PyStr.strip (nombre_edit f)); [contradiction|].
    destruct (PyStr.strip (oficina_edit f)); [contradiction|].
    destruct (PyStr.strip (empleado_edit f)); [contradiction|].
    destruct (PyStr.strip (out_path_edit f)); [contradiction|]. reflexivity. }
  rewrite E. cbn [negb]. unfold generate_try.
  rewrite (parse_horas_accepts _ _ _ Hm), (parse_horas_accepts _ _ _ Ht).
  assert (Ex : (if PyStr.is_empty (PyStr.strip (extras_dow_edit f))
                then Ret [] else parse_extras (PyStr.strip (extras_dow_edit f)))
               = Ret extras).
  { destruct (PyStr.strip (extras_dow_edit f)) as [|c s]; [|exact Hex].
    cbn [PyStr.is_empty]. rewrite <- Hex. reflexivity. }
  rewrite Ex.
  rewrite generar_planilla_word_run by (first [assumption | cbn; lia | lia]).
  eexists. split; [reflexivity|]. cbn [fs_files].
  now rewrite lookup_insert_eq.
Qed.

Lemma X14_witness :
  exists fs',
    generate (mkForm " Benitez Wilson" "CPI" "32.746.256" 8 2025
                     " 06:30 ,13:00" "16:00,19:00" "1, 3," "2025-09-15" "20:TRAINING"
                     " planilla.docx ") (mkFS ∅ ∅)
    = (Ret (Information "Éxito"
              ("Planilla generada correctamente en:" +:+ newline +:+ "planilla.docx")), fs')
    /\ is_Some (fs_files fs' !! "planilla.docx").
Proof.
  destruct (X14_generate_succeeds_on_valid_form
              (mkForm " Benitez Wilson" "CPI" "32.746.256" 8 2025
                      " 06:30 ,13:00" "16:00,19:00" "1, 3," "2025-09-15" "20:TRAINING"
                      " planilla.docx ") (mkFS ∅ ∅) "06:30" "13:00" "16:00" "19:00" [1; 3])
    as (fs' & Hgen & Hfile).
  - vm_compute. discriminate.
  - vm_compute. discriminate.
  - vm_compute. discriminate.
  - vm_compute. discriminate.
  - cbn [mes_combo_index]. lia.
  - cbn [anio_spin]. lia.
  - apply parse_horas_returns. vm_compute. reflexivity.
  - apply parse_horas_returns. vm_compute. reflexivity.
  - vm_compute. reflexivity.
  - apply not_elem_of_empty.
  - exists fs'. split; [exact Hgen|]. exists (identification_block "Benitez Wilson" "CPI" "32.746.256" 9 2025
               ++ [BParagraph blank_paragraph;
                   BTable (sheet_table ["06:30"; "13:00"] ["16:00"; "19:00"] [1; 3]
                             (parse_notes (Some "20:TRAINING"))
                             (parse_date_list (Some "2025-09-15")) 9 2025);
                   closing_paragraph]).
    exact Hfile.
Defined.

End Form_success.

Section Command_line.
Import Docx Planilla Sheet Cli.

(** [build_table] with a short [hora_maniana] and a regular workday. *)
Lemma build_table_short_hours (doc : Document) hm ht extras notas fer mes anio :
  1 <= mes <= 12 -> 1 <= anio <= 9999 ->
  (length hm < 2)%nat ->
  (exists d, 1 <= d <= days_in_month anio mes
             /\ regular_day (default ∅ notas) (default ∅ fer) mes anio d = true) ->
  exists doc',
    build_table mes anio hm ht extras notas fer doc
    = (Raise (IndexError "tuple index out of range"), doc').
Proof.
  intros Hm Hy Hhm (d & Hd & Hreg).
  rewrite build_table_header by assumption.
  pose proof (days_in_month_range anio mes) as Hnd.
  set (nd := days_in_month anio mes) in *.
  rewrite bind_run.
  replace (seqZ 1 nd) with (seqZ (0 + 1) (Z.of_nat (Z.to_nat nd))) by (f_equal; lia).
  unfold header_only_table.
  change (header0 :: header1 :: replicate (Z.to_nat nd) blank_row)
    with ([header0; header1] ++ replicate (Z.to_nat nd) blank_row).
  edestruct days_loop_short as [doc' ->];
    [exact Hy | exact Hm | exact Hhm | | | | exists d; split; [|exact Hreg] | ];
    try reflexivity; try lia.
  exists doc'. reflexivity.
Qed.

(** X15. The command line checks neither time option: when each holds at
    least one comma, the month and year are valid, [--extras_dow] converts and
    the path can be written, [main] writes the document, and every regular
    workday row shows the first two comma-separated pieces of [--hora_m] and
    [--hora_t] exactly as typed (not trimmed, not validated); further pieces
    are ignored. *)
Theorem X15_main_copies_times_as_typed
    (args : Args) (fs : FileSystem)
    (hm0 hm1 ht0 ht1 : string) (hm_more ht_more : list string) (extras : list Z) :
  1 <= mes args <= 12 -> 1 <= anio args <= 9999 ->
  PyStr.split "," (hora_m args) = hm0 :: hm1 :: hm_more ->
  PyStr.split "," (hora_t args) = ht0 :: ht1 :: ht_more ->
  parse_extras (extras_dow args) = Ret extras ->
  out args ∉ fs_denied fs ->
  exists (T : Table) (fs' : FileSystem),
    main args fs = (Ret tt, fs')
    /\ fs_files fs' !! out args =
         Some (identification_block (nombre args) (oficina args) (empleado args)
                                    (mes args) (anio args)
               ++ [BParagraph blank_paragraph; BTable T; closing_paragraph])
    /\ forall d dow,
         1 <= d <= days_in_month (anio args) (mes args) ->
         Calendar.weekday (anio args) (mes args) d = Ret dow ->
         regular_day (parse_notes (Some (notas args)))
                     (parse_date_list (Some (feriados args)))
                     (mes args) (anio args) d = true ->
         row_texts T (Z.to_nat (1 + d)) =
           Some [PyStr.str d; hm0; ""; hm1; "";
                 (if bool_decide (dow ∈ extras) then ht0 else "---"); "";
                 (if bool_decide (dow ∈ extras) then ht1 else "---"); ""].
Proof.
  intros Hm Hy Ehm Eht Hex Hpath.
  eexists _, _. unfold main. rewrite Hex, Ehm, Eht.
  rewrite generar_planilla_word_run by (first [assumption | cbn; lia]).
  split; [reflexivity|]. cbn [fs_files].
  split; [now rewrite lookup_insert_eq|].
  intros d dow Hd Hdow Hreg.
  rewrite calendar_weekday_ok in Hdow by assumption. injection Hdow as Hdow.
  unfold regular_day in Hreg. rewrite Hdow in Hreg.
  apply andb_true_iff in Hreg as [Hreg Hnote].
  apply andb_true_iff in Hreg as [Hwk Hfer].
  apply negb_true_iff in Hwk, Hfer, Hnote.
  unfold row_texts. rewrite sheet_day_row by assumption.
  unfold day_row, day_cells. cbn [default from_option]. unfold id.
  rewrite Hdow, Hwk, Hfer, Hnote.
  replace (existsb (Z.eqb dow) extras) with (bool_decide (dow ∈ extras)).
  2:{ destruct (existsb (Z.eqb dow) extras) eqn:E.
      - apply bool_decide_eq_true_2. apply existsb_exists in E as (x & Hx & Ex).
        apply Z.eqb_eq in Ex. subst x. now apply list_elem_of_In.
      - apply bool_decide_eq_false_2. intros Hin. apply list_elem_of_In in Hin.
        assert (existsb (Z.eqb dow) extras = true)
          by (apply existsb_exists; exists dow; split; [exact Hin | apply Z.eqb_refl]).
        congruence. }
  cbn [fmap option_fmap option_map map nth].
  rewrite !cell_text_centered, !cell_text_plain. reflexivity.
Qed.

Lemma X15_witness :
  exists (T : Table) (fs' : FileSystem),
    main (mkArgs "planilla.docx" "Benitez Wilson" "CPI" "32.746.256" 9 2025
                 " 25:99 ,xx,zz" "16:00,19:00" "1,,3, " "" "") (mkFS ∅ ∅) = (Ret tt, fs')
    /\ is_Some (fs_files fs' !! "planilla.docx")
    /\ row_texts T 2 = Some ["1"; " 25:99 "; ""; "xx"; ""; "---"; ""; "---"; ""].
Proof.
  destruct (X15_main_copies_times_as_typed
              (mkArgs "planilla.docx" "Benitez Wilson" "CPI" "32.746.256" 9 2025
                      " 25:99 ,xx,zz" "16:00,19:00" "1,,3, " "" "") (mkFS ∅ ∅)
              " 25:99 " "xx" "16:00" "19:00" ["zz"] [] [1; 3])
    as (T & fs' & Hrun & Hfile & Hrow).
  - cbn [mes]. lia.
  - cbn [anio]. lia.
  - vm_compute. reflexivity.
  - vm_compute. reflexivity.
  - vm_compute. reflexivity.
  - apply not_elem_of_empty.
  - exists T, fs'. split; [exact Hrun|]. split; [cbn [out] in Hfile; rewrite Hfile; eauto|].
    apply (Hrow 1 0); [vm_compute; split; discriminate | reflexivity | vm_compute; reflexivity].
Defined.

(** X16. A [--hora_m] without a comma makes a one-component tuple: with a
    valid month and year, a convertible [--extras_dow] and at least one
    regular workday in the month, [main] ends with [IndexError] "tuple index
    out of range" and writes nothing. *)
Theorem X16_main_single_time_raises_IndexError
    (args : Args) (fs : FileSystem) (extras : list Z) :
  1 <= mes args <= 12 -> 1 <= anio args <= 9999 ->
  PyStr.contains "," (hora_m args) = false ->
  parse_extras (extras_dow args) = Ret extras ->
  (exists d, 1 <= d <= days_in_month (anio args) (mes args)
             /\ regular_day (parse_notes (Some (notas args)))
                            (parse_date_list (Some (feriados args)))
                            (mes args) (anio args) d = true) ->
  main args fs = (Raise (IndexError "tuple index out of range"), fs).
Proof.
  intros Hm Hy Hcomma Hex Hreg. unfold main.
  rewrite Hex, (split_free_id "," (hora_m args) Hcomma).
  unfold generar_planilla_word.
  rewrite build_document_run by (apply year_digits; lia).
  edestruct build_table_short_hours as [doc' ->];
    [exact Hm | exact Hy | | exact Hreg | reflexivity].
  cbn [length]. lia.
Qed.

Lemma X16_witness :
  main (mkArgs "planilla.docx" "Benitez Wilson" "CPI" "32.746.256" 9 2025
               "6:30-13:00" "16:00,19:00" "1,3" "" "") (mkFS ∅ ∅)
  = (Raise (IndexError "tuple index out of range"), mkFS ∅ ∅).
Proof.
  apply (X16_main_single_time_raises_IndexError
           (mkArgs "planilla.docx" "Benitez Wilson" "CPI" "32.746.256" 9 2025
                   "6:30-13:00" "16:00,19:00" "1,3" "" "") (mkFS ∅ ∅) [1; 3]).
  - cbn [mes]. lia.
  - cbn [anio]. lia.
  - reflexivity.
  - vm_compute. reflexivity.
  - exists 1. split; [vm_compute; split; discriminate | vm_compute; reflexivity].
Defined.

End Command_line.

Section Month_names.
Import Planilla PlanillaApp.

(** X17. [month_name_es] answers the empty text, and raises nothing, exactly
    for the numbers outside 1..12.  For the twelve months its names agree with
    the form's list: entry [i] of the combo box is the capitalised name of
    month [i + 1], its upper case is the name printed in the header, and so
    the file name the form proposes carries the month of the header. *)
Theorem X17_month_names_agree :
  (forall m u, month_name_es m u = "" <-> ~ (1 <= m <= 12))
  /\ (forall i anio, 0 <= i <= 11 ->
        exists name,
          nombres_mes !! Z.to_nat i = Some name
          /\ month_name_es (i + 1) false = name
          /\ month_name_es (i + 1) true = PyStr.upper name
          /\ nombre_sugerido name anio
             = "PLANILLA-" +:+ month_name_es (i + 1) true +:+ "-"
               +:+ PyStr.str anio +:+ ".docx").
Proof.
  split.
  - intros m u. split.
    + intros E Hm. apply month_cases in Hm.
      repeat (destruct Hm as [Hm | Hm]); subst m; destruct u; discriminate E.
    + intros Hm. unfold month_name_es. cbn [List.find fst].
      repeat match goal with
             | |- context [?k =? m] =>
                 destruct (Z.eqb_spec k m); [exfalso; lia|]
             end.
      destruct u; reflexivity.
  - intros i anio Hi.
    assert (Hc : i = 0 \/ i = 1 \/ i = 2 \/ i = 3 \/ i = 4 \/ i = 5 \/ i = 6 \/
                 i = 7 \/ i = 8 \/ i = 9 \/ i = 10 \/ i = 11) by lia.
    repeat (destruct Hc as [Hc | Hc]); subst i;
      (eexists; split; [reflexivity|]; repeat split; reflexivity).
Qed.

End Month_names.

Section Shading_once.
Import Docx Planilla Sheet.

Lemma day_row_fills hm ht extras notas fer mes anio d :
  Forall (fun c => (length (c_shd c) <= 1)%nat)
         (day_row hm ht extras notas fer mes anio d).
Proof.
  unfold day_row, day_cells.
  repeat match goal with |- context [if ?b then _ else _] => destruct b end;
    repeat constructor.
Qed.

(** X19. [set_cell_shading] appends a fill element each time it is called, and
    [build_table] calls it at most once per cell: in the finished table no
    cell carries two fills.  The cells of the label row carry "EFEFEF". *)
Theorem X19_at_most_one_fill_per_cell
    (doc : Document) (hm0 hm1 ht0 ht1 : string) (extras : list Z)
    (notas : option (gmap Z string)) (fer : option (gset date)) (mes anio : Z) :
  1 <= mes <= 12 -> 1 <= anio <= 9999 ->
  exists T : Table,
    build_table mes anio [hm0; hm1] [ht0; ht1] extras notas fer doc
      = (Ret tt, doc ++ [BTable T; closing_paragraph])
    /\ (forall row c, In row (t_rows T) -> In c row -> (length (c_shd c) <= 1)%nat)
    /\ row_shadings T 1 = Some (replicate 9 ["EFEFEF"]).
Proof.
  intros Hm Hy.
  exists (sheet_table [hm0; hm1] [ht0; ht1] extras (default ∅ notas) (default ∅ fer) mes anio).
  split; [apply build_table_spec; cbn; lia|]. split; [|reflexivity].
  intros row c Hrow Hc. unfold sheet_table in Hrow. cbn [t_rows In] in Hrow.
  destruct Hrow as [<- | [<- | Hrow]].
  - cbn [header0 In] in Hc.
    repeat (destruct Hc as [<- | Hc]; [cbn; lia|]). contradiction.
  - unfold header1, labels in Hc. cbn [map In] in Hc.
    repeat (destruct Hc as [<- | Hc]; [cbn; lia|]). contradiction.
  - apply in_map_iff in Hrow as (d & <- & _).
    pose proof (day_row_fills [hm0; hm1] [ht0; ht1] extras (default ∅ notas)
                  (default ∅ fer) mes anio d) as F.
    rewrite Forall_forall in F. apply F. now apply list_elem_of_In.
Qed.

Lemma X19_witness :
  exists T : Table,
    build_table 9 2025 ["6:30"; "13:00"] ["16:00"; "19:00"] [1; 3] None
                (Some {[mkDate 2025 9 15]}) []
      = (Ret tt, [BTable T; closing_paragraph])
    /\ row_shadings T 1 = Some (replicate 9 ["EFEFEF"]).
Proof.
  destruct (X19_at_most_one_fill_per_cell [] "6:30" "13:00" "16:00" "19:00" [1; 3] None
              (Some {[mkDate 2025 9 15]}) 9 2025) as (T & Hrun & _ & Hlab); [lia | lia |].
  exists T. split; assumption.
Defined.

End Shading_once.
